(** * Metrics time-series store and analytics engine

    A shallow embedding of [python_monitor/analytics/analyzer.py]
    (class [MetricsAnalyzer]) and [python_monitor/database/metrics_db.py]
    (class [MetricsDatabase]), with the properties their specification
    states.

    Python's [float] is IEEE 754 binary64, which is Rocq's primitive
    [float]; Python's [int] is [Z]; a call that can raise returns a
    [result]. *)

From Stdlib Require Import ZArith QArith Qabs List Bool String Ascii Floats Lia.
From Stdlib Require Uint63 DecimalString.
From Stdlib Require Import Permutation Sorted.
Import ListNotations.

Open Scope Z_scope.

(* ================================================================== *)
(** * The Python runtime the two modules rely on                       *)
(* ================================================================== *)

Module Py.

(** The exceptions that the modelled code can meet. *)
Inductive exn : Type :=
| ZeroDivisionError
| OverflowError
| ValueError
| IndexError
| AttributeError
| TypeError
| StatisticsError
| OperationalError.

(** The outcome of a call: a value, or a raised exception with its
    message ([str(e)]). *)
Inductive result (A : Type) : Type :=
| Ok (a : A)
| Raise (e : exn) (msg : string).

Arguments Ok {A} a.
Arguments Raise {A} e msg.

Definition bind {A B : Type} (m : result A) (k : A -> result B) : result B :=
  match m with
  | Ok a => k a
  | Raise e msg => Raise e msg
  end.

Notation "x <- m ;; k" := (bind m (fun x => k))
  (at level 61, m at next level, right associativity).

(** A loop (or comprehension) whose body can raise: the bodies run in
    order and the first exception ends the loop. *)
Fixpoint for_each {A B : Type} (body : A -> result B) (xs : list A)
  : result (list B) :=
  match xs with
  | [] => Ok []
  | x :: rest =>
      y <- body x ;;
      ys <- for_each body rest ;;
      Ok (y :: ys)
  end.

(** [len(xs)]. *)
Definition len {A : Type} (xs : list A) : Z := Z.of_nat (List.length xs).

(** [range(n)]: the ints [0 .. n-1], empty when [n <= 0]. *)
Definition range (n : Z) : list Z := map Z.of_nat (seq 0 (Z.to_nat n)).

(** A slice bound: a negative bound counts from the end, and every
    bound is clamped to [0 .. len]. *)
Definition slice_bound (n k : Z) : Z :=
  if k <? 0 then Z.max 0 (k + n) else Z.min k n.

(** [xs[i:j]]. *)
Definition slice {A : Type} (xs : list A) (i j : Z) : list A :=
  let a := slice_bound (len xs) i in
  let b := slice_bound (len xs) j in
  firstn (Z.to_nat (b - a)) (skipn (Z.to_nat a) xs).

(** [xs[i:]]. *)
Definition slice_from {A : Type} (xs : list A) (i : Z) : list A :=
  skipn (Z.to_nat (slice_bound (len xs) i)) xs.

(** [xs[i]]: a negative index counts from the end; out of range raises. *)
Definition index {A : Type} (xs : list A) (i : Z) : result A :=
  let j := if i <? 0 then i + len xs else i in
  if (j <? 0) || (len xs <=? j)
  then Raise IndexError "list index out of range"
  else match nth_error xs (Z.to_nat j) with
       | Some x => Ok x
       | None => Raise IndexError "list index out of range"
       end.

(** ** Numbers *)

(** An int as an unrounded binary float [m * 2^0]. *)
Definition SF_of_Z (z : Z) : spec_float :=
  match z with
  | Z0 => S754_zero false
  | Zpos p => S754_finite false p 0
  | Zneg p => S754_finite true p 0
  end.

(** The conversion of an int to a float, rounded to nearest, ties to
    even.  The ints converted in the analyzer are list lengths, indexes
    and counters, all far below [2^1024], where the conversion cannot
    overflow; the [float()] built-in on arbitrary ints is [float_of_int]
    below. *)
Definition float_of_Z (z : Z) : float :=
  SF2Prim (binary_normalize prec emax z 0 false).

(** [a / b] on two ints, [b <> 0]: the quotient of the integers, rounded
    once.  This is the division where the quotient cannot round beyond
    the largest float: the quotients of list lengths and indexes, and
    the mean of finite floats, which lies between two of them. *)
Definition int_truediv (a b : Z) : float :=
  SF2Prim (SFdiv prec emax (SF_of_Z a) (SF_of_Z b)).

(** [a / b] on two ints as the interpreter evaluates it
    ([long_true_divide]): [ZeroDivisionError] for a zero divisor, and
    [OverflowError] when the quotient rounds beyond the largest float. *)
Definition long_true_divide (a b : Z) : result float :=
  if b =? 0 then Raise ZeroDivisionError "division by zero"
  else
    match SFdiv prec emax (SF_of_Z a) (SF_of_Z b) with
    | S754_infinity _ =>
        Raise OverflowError "integer division result too large for a float"
    | q => Ok (SF2Prim q)
    end.

(** [x / y] on floats: Python raises where IEEE 754 returns an infinity
    or a NaN for a zero divisor. *)
Definition truediv (x y : float) : result float :=
  if (y =? 0)%float then Raise ZeroDivisionError "float division by zero"
  else Ok (x / y)%float.

(** [x / d] for a float (or the int [0] that [sum] returns on an empty
    sequence) and an int.  The only zero divisor met in the analyzer is
    a window size of zero, under the int [0] of an empty window, hence
    the message. *)
Definition truediv_int (x : float) (d : Z) : result float :=
  if d =? 0 then Raise ZeroDivisionError "division by zero"
  else Ok (x / float_of_Z d)%float.

(** [sum(xs)]: starts from the int [0] and adds from left to right
    (CPython up to 3.11; later versions compensate the rounding errors).
    The int [0] of an empty sum is converted by every use made of it
    here, so the sum is a float. *)
Definition sum (xs : list float) : float :=
  fold_left PrimFloat.add xs 0%float.

(** A float that is not negative: a NaN, or a zero, a finite number or
    an infinity with the sign bit clear. *)
Definition sign_clear (x : spec_float) : bool :=
  match x with
  | S754_nan => true
  | S754_zero s | S754_infinity s | S754_finite s _ _ => negb s
  end.

(** [x ** 2] on a float: the correctly rounded square. *)
Definition square (x : float) : float := (x * x)%float.

(** [int(x)]: truncation towards zero; an infinity or a NaN raises. *)
Definition int_of_float (x : float) : result Z :=
  match Prim2SF x with
  | S754_zero _ => Ok 0
  | S754_finite s m e =>
      Ok (cond_Zopp s
            (match e with
             | Z0 => Zpos m
             | Zpos _ => Zpos m * 2 ^ e
             | Zneg k => Zpos m / 2 ^ Zpos k
             end))
  | S754_infinity _ =>
      Raise OverflowError "cannot convert float infinity to integer"
  | S754_nan => Raise ValueError "cannot convert float NaN to integer"
  end.

(** The [float()] built-in on an int: rounds to nearest, ties to even,
    and raises [OverflowError] when the int rounds beyond the largest
    float, that is from [2^1024 - 2^970] on. *)
Definition float_of_int (z : Z) : result float :=
  if Z.abs z <? 2 ^ 1024 - 2 ^ 970 then Ok (float_of_Z z)
  else Raise OverflowError "int too large to convert to float".

(** The nearest integer to [num / den] ([den > 0]), ties to even. *)
Definition round_half_even (num den : Z) : Z :=
  let q := num / den in
  let r := num mod den in
  match 2 * r ?= den with
  | Lt => q
  | Gt => q + 1
  | Eq => if Z.even q then q else q + 1
  end.

(** [round(x, 2)]: the decimal with two places nearest to the exact
    value of [x] (ties to even), converted back to the nearest float;
    infinities and NaN round to themselves, and a result of zero keeps
    the sign of [x]. *)
Definition round2 (x : float) : float :=
  match Prim2SF x with
  | S754_finite s m e =>
      let k :=
        match e with
        | Z0 => 100 * Zpos m
        | Zpos _ => 100 * Zpos m * 2 ^ e
        | Zneg d => round_half_even (100 * Zpos m) (2 ^ Zpos d)
        end in
      match k with
      | Zpos p => SF2Prim (SFdiv prec emax (S754_finite s p 0) (SF_of_Z 100))
      | _ => if s then neg_zero else zero
      end
  | _ => x
  end.

(** [sorted(xs)]: a stable sort that only asks [<] of its elements
    (insertion from the left; on a list without NaN every stable sort
    returns the same list). *)
Fixpoint insert_sorted (x : float) (ys : list float) : list float :=
  match ys with
  | [] => [x]
  | y :: rest =>
      if (x <? y)%float then x :: y :: rest else y :: insert_sorted x rest
  end.

Definition sorted (xs : list float) : list float :=
  fold_left (fun acc x => insert_sorted x acc) xs [].

(** [min(xs)] and [max(xs)] on a non-empty list: the first smallest
    (largest) element; [ValueError] on an empty one. *)
Definition min (xs : list float) : result float :=
  match xs with
  | [] => Raise ValueError "min() arg is an empty sequence"
  | x :: rest =>
      Ok (fold_left (fun m y => if (y <? m)%float then y else m) rest x)
  end.

Definition max (xs : list float) : result float :=
  match xs with
  | [] => Raise ValueError "max() arg is an empty sequence"
  | x :: rest =>
      Ok (fold_left (fun m y => if (m <? y)%float then y else m) rest x)
  end.

(** [enumerate(xs)]. *)
Definition enumerate {A : Type} (xs : list A) : list (Z * A) :=
  combine (range (len xs)) xs.

(** [sys.maxsize]: no list is longer. *)
Definition PY_SSIZE_T_MAX : Z := 2 ^ 63 - 1.

(** ** Values *)

(** The values a record or a payload can hold (what [json.loads]
    returns, and what [json.dumps] accepts). *)
#[warnings="-register-all"]
Inductive pyval : Type :=
| PyNone
| PyBool (b : bool)
| PyInt (z : Z)
| PyFloat (f : float)
| PyStr (s : string)
| PyList (items : list pyval)
| PyDict (items : list (string * pyval)).

(** A dict with string keys, as the list of its items. *)
Definition dict : Type := list (string * pyval).

(** [k in d] and [d[k]] at once: the value under [k], if any. *)
Fixpoint dict_lookup (d : dict) (k : string) : option pyval :=
  match d with
  | [] => None
  | (k', v) :: rest => if String.eqb k' k then Some v else dict_lookup rest k
  end.

(** [d.get(k, default)]. *)
Definition dict_get (d : dict) (k : string) (default : pyval) : pyval :=
  match dict_lookup d k with
  | Some v => v
  | None => default
  end.

(** [isinstance(v, (int, float))]: [bool] is a subclass of [int]. *)
Definition is_int_or_float (v : pyval) : bool :=
  match v with
  | PyBool _ | PyInt _ | PyFloat _ => true
  | _ => false
  end.

(** [float(v)] for a value that passed [is_int_or_float]. *)
Definition float_builtin (v : pyval) : result float :=
  match v with
  | PyBool b => Ok (if b then 1 else 0)%float
  | PyInt z => float_of_int z
  | PyFloat f => Ok f
  | _ => Raise TypeError "float() argument must be a string or a real number"
  end.

(** [json.dumps] writes an int with its decimal digits, which the
    interpreter refuses to produce for more than
    [sys.get_int_max_str_digits()] of them. *)
Definition int_max_str_digits : Z := 4300.

Fixpoint json_encodable (v : pyval) : bool :=
  match v with
  | PyInt z => Z.abs z <? 10 ^ int_max_str_digits
  | PyList items => forallb json_encodable items
  | PyDict items => forallb (fun '(_, value) => json_encodable value) items
  | _ => true
  end.

(** [json.dumps(payload)]: the text, given by the payload that
    [json.loads] reads from it, or the [ValueError] of an int with too
    many digits.  (The nesting and the size of a payload are bounded by
    the stack and the memory that the interpreter has left; the
    payloads modelled are within these bounds.) *)
Definition json_dumps (payload : dict) : result dict :=
  if json_encodable (PyDict payload) then Ok payload
  else Raise ValueError
         ("Exceeds the limit (4300 digits) for integer string conversion; "
          ++ "use sys.set_int_max_str_digits() to increase the limit").


End Py.

Import Py.

(* ================================================================== *)
(** * The [statistics] module of the standard library (CPython 3.11)   *)
(* ================================================================== *)

Module Statistics.

(** [_exact_ratio]: a finite float as the fraction it denotes; [None]
    for an infinity or a NaN. *)
Definition exact_ratio (x : float) : option Q :=
  match Prim2SF x with
  | S754_zero _ => Some (0 # 1)%Q
  | S754_finite s m e =>
      let n := cond_Zopp s (Zpos m) in
      Some (match e with
            | Z0 => (n # 1)%Q
            | Zpos _ => ((n * 2 ^ e) # 1)%Q
            | Zneg k => Qred (n # (2 ^ k)%positive)%Q
            end)
  | _ => None
  end.

Definition nonfinite (x : float) : bool :=
  match exact_ratio x with
  | None => true
  | Some _ => false
  end.

(** An exact sum is a fraction; when an infinity or a NaN is among the
    data, the finite items are ignored and the special ones are added
    as floats. *)
Inductive total : Type :=
| Exact (q : Q)
| Special (x : float).

(** The exact sum of [f] over the finite items. *)
Definition exact_sum (f : Q -> Q) (data : list float) : Q :=
  fold_left
    (fun acc x =>
       match exact_ratio x with
       | Some q => Qred (acc + f q)%Q
       | None => acc
       end)
    data (0 # 1)%Q.

(** [_sum(data)], the count left out. *)
Definition _sum (data : list float) : total :=
  if existsb nonfinite data then Special (Py.sum (filter nonfinite data))
  else Exact (exact_sum (fun q => q) data).

(** [float(Fraction(n, d))], that is [n / d] on ints. *)
Definition float_of_fraction (q : Q) : float :=
  int_truediv (Qnum q) (Zpos (Qden q)).

(** [statistics.mean]. *)
Definition mean (data : list float) : result float :=
  let n := len data in
  if n <? 1
  then Raise StatisticsError "mean requires at least one data point"
  else
    match _sum data with
    | Special t => truediv_int t n
    | Exact t => Ok (float_of_fraction (Qred (t / inject_Z n)%Q))
    end.

(** [statistics.median]. *)
Definition median (data : list float) : result float :=
  let data := sorted data in
  let n := len data in
  if n =? 0 then Raise StatisticsError "no median for empty data"
  else if n mod 2 =? 1 then index data (n / 2)
  else
    let i := n / 2 in
    a <- index data (i - 1) ;;
    b <- index data i ;;
    truediv_int (a + b) 2.

(** [_ss(data)]: the exact sum of the squared deviations from the
    mean. *)
Definition _ss (data : list float) : total :=
  if existsb nonfinite data then Special (Py.sum (filter nonfinite data))
  else
    let count := inject_Z (len data) in
    let sx := exact_sum (fun q => q) data in
    let sxx := exact_sum (fun q => q * q)%Q data in
    if len data =? 0 then Exact (0 # 1)%Q
    else Exact (Qred ((count * sxx - sx * sx) / count)%Q).

(** [n.bit_length()] for [n >= 0]. *)
Definition bit_length (n : Z) : Z :=
  if n =? 0 then 0 else Z.log2 n + 1.

(** [_integer_sqrt_of_frac_rto]: the square root of [n / m] rounded to
    an integer, to odd. *)
Definition _integer_sqrt_of_frac_rto (n m : Z) : Z :=
  let a := Z.sqrt (n / m) in
  Z.lor a (if a * a * m =? n then 0 else 1).

Definition _sqrt_bit_width : Z := 2 * 53 + 3.

(** [_float_sqrt_of_frac]: the square root of [n / m] as a float,
    correctly rounded; the final division of two ints raises when the
    root is beyond the largest float. *)
Definition _float_sqrt_of_frac (n m : Z) : result float :=
  let q := (bit_length n - bit_length m - _sqrt_bit_width) / 2 in
  if 0 <=? q then
    long_true_divide
      (Z.shiftl (_integer_sqrt_of_frac_rto n (Z.shiftl m (2 * q))) q) 1
  else
    long_true_divide (_integer_sqrt_of_frac_rto (Z.shiftl n (- 2 * q)) m)
                     (Z.shiftl 1 (- q)).

(** [statistics.stdev]: with an infinity or a NaN among the data the
    mean square is a float, whose missing [numerator] attribute raises;
    finite data so far apart that their deviation is beyond the largest
    float raise in the final division. *)
Definition stdev (data : list float) : result float :=
  let n := len data in
  match _ss data with
  | Special _ =>
      if n <? 2
      then Raise StatisticsError "stdev requires at least two data points"
      else Raise AttributeError "'float' object has no attribute 'numerator'"
  | Exact ss =>
      if n <? 2
      then Raise StatisticsError "stdev requires at least two data points"
      else
        let mss := Qred (ss / inject_Z (n - 1))%Q in
        _float_sqrt_of_frac (Qnum mss) (Zpos (Qden mss))
  end.

End Statistics.

(* ================================================================== *)
(** * analytics/analyzer.py                                            *)
(* ================================================================== *)

Module Analyzer.

(** The default of [threshold] in [detect_trend]: the float written
    [0.1]. *)
Definition default_threshold : float := 0x1.999999999999ap-4%float.

(** The default of [std_threshold] in [detect_anomalies]. *)
Definition default_std_threshold : float := 2%float.

(** [MetricsAnalyzer.calculate_moving_average]. *)
Definition calculate_moving_average (values : list float) (window_size : Z)
  : result (list float) :=
  if len values <? window_size then Ok values
  else
    for_each
      (fun i =>
         let window := slice values i (i + window_size) in
         truediv_int (sum window) window_size)
      (range (len values - window_size + 1)).

(** The two sums of the regression, shared by [detect_trend] and
    [predict_next_value]:
    [sum((i - x_mean) * (values[i] - y_mean) for i in range(n))] and
    [sum((i - x_mean) ** 2 for i in range(n))]. *)
Definition regression_numerator (values : list float) (n : Z)
  (x_mean y_mean : float) : result float :=
  terms <- for_each
             (fun i =>
                v <- index values i ;;
                Ok ((float_of_Z i - x_mean) * (v - y_mean))%float)
             (range n) ;;
  Ok (sum terms).

Definition regression_denominator (n : Z) (x_mean : float) : float :=
  sum (map (fun i => square (float_of_Z i - x_mean)) (range n)).

(** [MetricsAnalyzer.detect_trend]. *)
Definition detect_trend (values : list float) (threshold : float)
  : result string :=
  if len values <? 2 then Ok "stable"%string
  else
    let n := len values in
    let x_mean := int_truediv (n - 1) 2 in
    y_mean <- truediv_int (sum values) n ;;
    numerator <- regression_numerator values n x_mean y_mean ;;
    let denominator := regression_denominator n x_mean in
    if (denominator =? 0)%float then Ok "stable"%string
    else
      slope <- truediv numerator denominator ;;
      change_rate <-
        (if negb (y_mean =? 0)%float
         then q <- truediv slope y_mean ;; Ok (abs q)
         else Ok 0%float) ;;
      if (change_rate <? threshold)%float then Ok "stable"%string
      else if (0 <? slope)%float then Ok "increasing"%string
      else Ok "decreasing"%string.

(** The loop of [detect_anomalies] over [enumerate(values)], with the
    list [anomalies] it appends to. *)
Fixpoint anomalies_loop (mean stdev std_threshold : float)
  (items : list (Z * float)) (anomalies : list Z) : result (list Z) :=
  match items with
  | [] => Ok anomalies
  | (i, value) :: rest =>
      q <- truediv (value - mean) stdev ;;
      let z_score := abs q in
      anomalies_loop mean stdev std_threshold rest
        (if (std_threshold <? z_score)%float then anomalies ++ [i]
         else anomalies)
  end.

(** [MetricsAnalyzer.detect_anomalies]: whatever is raised inside the
    [try] is logged and answered by the empty list. *)
Definition detect_anomalies (values : list float) (std_threshold : float)
  : list Z :=
  if len values <? 3 then []
  else
    let attempt :=
      mean <- Statistics.mean values ;;
      stdev <- Statistics.stdev values ;;
      if (stdev =? 0)%float then Ok []
      else anomalies_loop mean stdev std_threshold (enumerate values) [] in
    match attempt with
    | Ok anomalies => anomalies
    | Raise _ _ => []
    end.

(** [MetricsAnalyzer._percentile]. *)
Definition _percentile (sorted_values : list float) (percentile : Z)
  : result float :=
  match sorted_values with
  | [] => Ok 0%float
  | _ =>
      let index := int_truediv ((len sorted_values - 1) * percentile) 100 in
      lower <- int_of_float index ;;
      let upper := lower + 1 in
      if len sorted_values <=? upper then Py.index sorted_values lower
      else
        let weight := (index - float_of_Z lower)%float in
        a <- Py.index sorted_values lower ;;
        b <- Py.index sorted_values upper ;;
        Ok (a * (1 - weight) + b * weight)%float
  end.

(** [MetricsAnalyzer.calculate_percentiles]: the dict it returns, as the
    list of its items in insertion order. *)
Definition calculate_percentiles (values : list float)
  : result (list (string * float)) :=
  match values with
  | [] => Ok []
  | _ =>
      let sorted_values := sorted values in
      v_min <- Py.min values ;;
      v_max <- Py.max values ;;
      v_mean <- Statistics.mean values ;;
      v_median <- Statistics.median values ;;
      p25 <- _percentile sorted_values 25 ;;
      p75 <- _percentile sorted_values 75 ;;
      p90 <- _percentile sorted_values 90 ;;
      p95 <- _percentile sorted_values 95 ;;
      p99 <- _percentile sorted_values 99 ;;
      Ok [("min", v_min); ("max", v_max); ("mean", v_mean);
          ("median", v_median); ("p25", p25); ("p75", p75);
          ("p90", p90); ("p95", p95); ("p99", p99)]%string
  end.

(** [MetricsAnalyzer.predict_next_value]: [None] is Python's [None]. *)
Definition predict_next_value (values : list float)
  : result (option float) :=
  if len values <? 2 then Ok None
  else
    let recent_values := slice_from values (-10) in
    let n := len recent_values in
    let x_mean := int_truediv (n - 1) 2 in
    y_mean <- truediv_int (sum recent_values) n ;;
    numerator <- regression_numerator recent_values n x_mean y_mean ;;
    let denominator := regression_denominator n x_mean in
    if (denominator =? 0)%float then
      last <- index recent_values (-1) ;;
      Ok (Some last)
    else
      slope <- truediv numerator denominator ;;
      let intercept := (y_mean - slope * x_mean)%float in
      let next_value := (slope * float_of_Z n + intercept)%float in
      Ok (Some (round2 next_value)).

(** What [analyze_metric_history] returns: the dict [{'error': message}]
    or the dict of the five results. *)
Inductive analysis : Type :=
| AnalysisError (message : string)
| Analysis (data_points : Z)
           (statistics : list (string * float))
           (trend : string)
           (anomalies_count : Z)
           (moving_avg_5 : list float).

(** The extraction loop of [analyze_metric_history], with the list
    [values] it appends to. *)
Fixpoint extract_values (metric_data : list dict) (metric_key : string)
  (values : list float) : result (list float) :=
  match metric_data with
  | [] => Ok values
  | record :: rest =>
      let data := dict_get record "metric_data" (PyDict []) in
      match data with
      | PyDict d =>
          match dict_lookup d metric_key with
          | Some value =>
              if is_int_or_float value then
                x <- float_builtin value ;;
                extract_values rest metric_key (values ++ [x])
              else extract_values rest metric_key values
          | None => extract_values rest metric_key values
          end
      | _ => extract_values rest metric_key values
      end
  end.

(** [MetricsAnalyzer.analyze_metric_history]: whatever is raised inside
    the [try] is logged and answered by [{'error': str(e)}]. *)
Definition analyze_metric_history (metric_data : list dict)
  (metric_key : string) : analysis :=
  let attempt :=
    values <- extract_values metric_data metric_key [] ;;
    match values with
    | [] => Ok (AnalysisError "No valid data points")
    | _ =>
        statistics <- calculate_percentiles values ;;
        trend <- detect_trend values default_threshold ;;
        let anomalies := detect_anomalies values default_std_threshold in
        moving_avg_5 <-
          (if 5 <=? len values
           then averages <- calculate_moving_average values 5 ;;
                Ok (slice_from averages (-5))
           else Ok values) ;;
        Ok (Analysis (len values) statistics trend (len anomalies)
                     moving_avg_5)
    end in
  match attempt with
  | Ok result => result
  | Raise _ message => AnalysisError message
  end.

End Analyzer.

(* ================================================================== *)
(** * The [datetime] module of the standard library                    *)
(* ================================================================== *)

Module Datetime.

(** A naive [datetime] (no time zone), as [datetime.utcnow()] returns. *)
Record datetime : Type := mk_datetime {
  year : Z;
  month : Z;
  day : Z;
  hour : Z;
  minute : Z;
  second : Z;
  microsecond : Z
}.

Definition _is_leap (y : Z) : bool :=
  (y mod 4 =? 0) && (negb (y mod 100 =? 0) || (y mod 400 =? 0)).

Definition _DAYS_IN_MONTH : list Z :=
  [-1; 31; 28; 31; 30; 31; 30; 31; 31; 30; 31; 30; 31].

Definition _DAYS_BEFORE_MONTH : list Z :=
  [-1; 0; 31; 59; 90; 120; 151; 181; 212; 243; 273; 304; 334].

Definition _days_before_year (y : Z) : Z :=
  let y := y - 1 in
  y * 365 + y / 4 - y / 100 + y / 400.

Definition _days_in_month (y m : Z) : Z :=
  if (m =? 2) && _is_leap y then 29
  else nth (Z.to_nat m) _DAYS_IN_MONTH 0.

Definition _days_before_month (y m : Z) : Z :=
  nth (Z.to_nat m) _DAYS_BEFORE_MONTH 0
  + (if (2 <? m) && _is_leap y then 1 else 0).

Definition _ymd2ord (y m d : Z) : Z :=
  _days_before_year y + _days_before_month y m + d.

Definition _DI400Y : Z := 146097.
Definition _DI100Y : Z := 36524.
Definition _DI4Y : Z := 1461.
Definition _MAXORDINAL : Z := 3652059.

Definition _ord2ymd (n : Z) : Z * Z * Z :=
  let n := n - 1 in
  let n400 := n / _DI400Y in
  let n := n mod _DI400Y in
  let y := n400 * 400 + 1 in
  let n100 := n / _DI100Y in
  let n := n mod _DI100Y in
  let n4 := n / _DI4Y in
  let n := n mod _DI4Y in
  let n1 := n / 365 in
  let n := n mod 365 in
  let y := y + n100 * 100 + n4 * 4 + n1 in
  if (n1 =? 4) || (n100 =? 4) then (y - 1, 12, 31)
  else
    let leapyear := (n1 =? 3) && (negb (n4 =? 24) || (n100 =? 3)) in
    let m := Z.shiftr (n + 50) 5 in
    let preceding :=
      nth (Z.to_nat m) _DAYS_BEFORE_MONTH 0
      + (if (2 <? m) && leapyear then 1 else 0) in
    if n <? preceding then
      let m := m - 1 in
      let preceding :=
        preceding
        - (nth (Z.to_nat m) _DAYS_IN_MONTH 0
           + (if (m =? 2) && leapyear then 1 else 0)) in
      (y, m, n - preceding + 1)
    else (y, m, n - preceding + 1).

(** The last step of [_ord2ymd] on its own: the month and the day for
    the day [n] of a year, leap or not. *)
Definition month_and_day (n : Z) (leapyear : bool) : Z * Z :=
  let m := Z.shiftr (n + 50) 5 in
  let preceding :=
    nth (Z.to_nat m) _DAYS_BEFORE_MONTH 0
    + (if (2 <? m) && leapyear then 1 else 0) in
  if n <? preceding then
    let m := m - 1 in
    let preceding :=
      preceding
      - (nth (Z.to_nat m) _DAYS_IN_MONTH 0
         + (if (m =? 2) && leapyear then 1 else 0)) in
    (m, n - preceding + 1)
  else (m, n - preceding + 1).

(** Both are in range, in a leap year and in a common one. *)
Definition month_and_day_ok (n : Z) : bool :=
  forallb (fun leapyear =>
             let '(m, d) := month_and_day n leapyear in
             (1 <=? m) && (m <=? 12) && (1 <=? d) && (d <=? 31))
          [true; false].

(** The day of the year from the month and the day found. *)
Definition month_and_day_inverse (n : Z) : bool :=
  forallb (fun leapyear =>
             let '(m, d) := month_and_day n leapyear in
             nth (Z.to_nat m) _DAYS_BEFORE_MONTH 0
             + (if (2 <? m) && leapyear then 1 else 0) + d
             =? n + 1)
          [true; false].

(** The fields a [datetime] object can hold. *)
Definition valid (t : datetime) : bool :=
  (1 <=? year t) && (year t <=? 9999)
  && (1 <=? month t) && (month t <=? 12)
  && (1 <=? day t) && (day t <=? _days_in_month (year t) (month t))
  && (0 <=? hour t) && (hour t <? 24)
  && (0 <=? minute t) && (minute t <? 60)
  && (0 <=? second t) && (second t <? 60)
  && (0 <=? microsecond t) && (microsecond t <? 1000000).

(** [str(z)] on an int. *)
Definition decimal (z : Z) : string :=
  DecimalString.NilZero.string_of_int (Z.to_int z).

(** [t - timedelta(days=days)]: the time of day is kept, the date moves
    by whole days; a number of days that no C [int] holds, a
    [timedelta] of more than 999999999 days and a date outside the
    years 1 to 9999 raise. *)
Definition sub_days (t : datetime) (days : Z) : result datetime :=
  if (days <? - 2 ^ 31) || (2 ^ 31 <=? days)
  then Raise OverflowError "Python int too large to convert to C int"
  else if 999999999 <? Z.abs days
  then Raise OverflowError
         ("days=" ++ decimal days ++ "; must have magnitude <= 999999999")
  else
    let ordinal := _ymd2ord (year t) (month t) (day t) - days in
    if (0 <? ordinal) && (ordinal <=? _MAXORDINAL) then
      let '(y, m, d) := _ord2ymd ordinal in
      Ok (mk_datetime y m d (hour t) (minute t) (second t) (microsecond t))
    else Raise OverflowError "date value out of range".

(** [timedelta(hours=hours)], normalised: its days and its seconds,
    [0 <= seconds < 86400]; the days must fit a C [int] and be at most
    999999999 in magnitude. *)
Definition timedelta_hours (hours : Z) : result (Z * Z) :=
  let days := hours / 24 in
  let seconds := (hours mod 24) * 3600 in
  if (days <? - 2 ^ 31) || (2 ^ 31 <=? days)
  then Raise OverflowError "Python int too large to convert to C int"
  else if 999999999 <? Z.abs days
  then Raise OverflowError
         ("days=" ++ decimal days ++ "; must have magnitude <= 999999999")
  else Ok (days, seconds).

(** [normalize_pair]: the whole multiples of [factor] in [lo] are
    carried into [hi]. *)
Definition normalize_pair (hi lo factor : Z) : Z * Z :=
  (hi + lo / factor, lo mod factor).

(** [t - delta] for a [timedelta] of whole seconds, given as its days
    and its seconds: the fields are subtracted and then normalised from
    the seconds up; the date is found through its ordinal, and one
    outside the years 1 to 9999 raises. *)
Definition sub_timedelta (t : datetime) (delta : Z * Z) : result datetime :=
  let '(days, seconds) := delta in
  let day := day t - days in
  let second := second t - seconds in
  let '(minute, second) := normalize_pair (minute t) second 60 in
  let '(hour, minute) := normalize_pair (hour t) minute 60 in
  let '(day, hour) := normalize_pair day hour 24 in
  let ordinal := _ymd2ord (year t) (month t) day in
  if (0 <? ordinal) && (ordinal <=? _MAXORDINAL) then
    let '(y, m, d) := _ord2ymd ordinal in
    Ok (mk_datetime y m d hour minute second (microsecond t))
  else Raise OverflowError "date value out of range".

(** The decimal digit [d] as a character. *)
Definition digit (d : Z) : ascii := ascii_of_nat (48 + Z.to_nat d).

(** ["%0<width>d" % n] for [0 <= n < 10^width]: the [width] decimal
    digits of [n], the most significant first. *)
Fixpoint zero_padded (width : nat) (n : Z) : string :=
  match width with
  | O => EmptyString
  | S w => String (digit ((n / 10 ^ Z.of_nat w) mod 10)) (zero_padded w n)
  end.

(** [t.isoformat()]: the fraction of the second is left out when the
    microsecond is zero. *)
Definition isoformat (t : datetime) : string :=
  (zero_padded 4 (year t) ++ "-" ++ zero_padded 2 (month t) ++ "-"
   ++ zero_padded 2 (day t) ++ "T"
   ++ zero_padded 2 (hour t) ++ ":" ++ zero_padded 2 (minute t) ++ ":"
   ++ zero_padded 2 (second t)
   ++ (if (microsecond t =? 0)%Z then ""
       else "." ++ zero_padded 6 (microsecond t)))%string.

(** The comparison of two naive datetimes: that of the tuples of their
    fields. *)
Definition lexicographic (c : comparison) (rest : comparison) : comparison :=
  match c with
  | Eq => rest
  | _ => c
  end.

Definition compare (a b : datetime) : comparison :=
  lexicographic (year a ?= year b)
    (lexicographic (month a ?= month b)
      (lexicographic (day a ?= day b)
        (lexicographic (hour a ?= hour b)
          (lexicographic (minute a ?= minute b)
            (lexicographic (second a ?= second b)
              (microsecond a ?= microsecond b)))))).

End Datetime.

(* ================================================================== *)
(** * database/metrics_db.py                                           *)
(* ================================================================== *)

Module Store.

Import Datetime.

(** A row of the table [metrics] ([created_at] is never read).  The
    column [metric_data] holds [json.dumps] of the payload and every
    read applies [json.loads] to it: the row holds the payload. *)
Record row : Type := mk_row {
  id : Z;
  timestamp : string;
  hostname : string;
  metric_type : string;
  metric_data : dict;
  status : string;
  data_source : string
}.

(** The database file: the rows of [metrics] in rowid order, and the
    largest rowid ever given out, which [AUTOINCREMENT] keeps in
    [sqlite_sequence]. *)
Record database : Type := mk_database {
  rows : list row;
  sequence : Z
}.

(** The database that [_init_database] creates in a new file. *)
Definition empty : database := mk_database [] 0.

(** The largest rowid SQLite can give out. *)
Definition MAX_ROWID : Z := 9223372036854775807.

(** The largest rowid in the table, [0] when it is empty. *)
Definition max_rowid (rs : list row) : Z :=
  fold_left (fun m r => Z.max m (id r)) rs 0.

(** The rowid of the next insert: one more than the largest rowid that
    ever was in the table; none is left past [MAX_ROWID]. *)
Definition next_rowid (db : database) : result Z :=
  let largest := Z.max (sequence db) (max_rowid (rows db)) in
  if MAX_ROWID <=? largest
  then Raise OperationalError "database or disk is full"
  else Ok (largest + 1).

(** [MetricsDatabase.insert_metrics], at the time [utcnow] on the
    clock: the row id and the database after the commit.  The values to
    bind are computed before the statement runs, so a payload that
    [json.dumps] refuses leaves the database as it was. *)
Definition insert_metrics (utcnow : datetime)
  (hostname metric_type : string) (metric_data : dict)
  (status data_source : string) (db : database) : result (Z * database) :=
  text <- json_dumps metric_data ;;
  row_id <- next_rowid db ;;
  let r := mk_row row_id (isoformat utcnow) hostname metric_type
                  text status data_source in
  Ok (row_id, mk_database (rows db ++ [r]) row_id).

(** [ORDER BY timestamp ASC]: text is compared byte by byte; rows with
    equal timestamps come with the larger rowid first, as the index on
    [timestamp DESC] yields them when it is read backwards (SQL leaves
    their order open).  The table is taken in rowid order, and a row
    goes in front of the rows taken before it whose timestamp is not
    smaller. *)
Fixpoint insert_by_timestamp (r : row) (rs : list row) : list row :=
  match rs with
  | [] => [r]
  | r' :: rest =>
      if String.ltb (timestamp r') (timestamp r)
      then r' :: insert_by_timestamp r rest
      else r :: r' :: rest
  end.

Definition order_by_timestamp (rs : list row) : list row :=
  fold_left (fun acc r => insert_by_timestamp r acc) rs [].

(** [timestamp BETWEEN ? AND ?]. *)
Definition between (lo hi : string) (r : row) : bool :=
  String.leb lo (timestamp r) && String.leb (timestamp r) hi.

(** The truth value of an optional string: [None] and [""] are false. *)
Definition truthy (s : option string) : bool :=
  match s with
  | None => false
  | Some EmptyString => false
  | Some _ => true
  end.

(** [MetricsDatabase.get_metrics_range]. *)
Definition get_metrics_range (start_time end_time : datetime)
  (metric_type_filter : option string) (db : database) : list row :=
  let lo := isoformat start_time in
  let hi := isoformat end_time in
  match metric_type_filter with
  | Some t =>
      if truthy metric_type_filter then
        order_by_timestamp
          (filter (fun r => between lo hi r && String.eqb (metric_type r) t)
                  (rows db))
      else order_by_timestamp (filter (between lo hi) (rows db))
  | None => order_by_timestamp (filter (between lo hi) (rows db))
  end.

(** [ORDER BY timestamp DESC]: rows with equal timestamps keep their
    rowid order, as the index on [timestamp DESC] yields them (SQL
    leaves their order open). *)
Fixpoint insert_by_timestamp_desc (r : row) (rs : list row) : list row :=
  match rs with
  | [] => [r]
  | r' :: rest =>
      if String.ltb (timestamp r') (timestamp r) then r :: r' :: rest
      else r' :: insert_by_timestamp_desc r rest
  end.

Definition order_by_timestamp_desc (rs : list row) : list row :=
  fold_left (fun acc r => insert_by_timestamp_desc r acc) rs [].

(** [LIMIT ?]: a negative limit is no limit. *)
Definition limit_rows (limit : Z) (rs : list row) : list row :=
  if limit <? 0 then rs else firstn (Z.to_nat limit) rs.

(** [MetricsDatabase.get_latest_metrics]: the rows fetched; a limit that
    is no 64-bit integer cannot be bound to the statement. *)
Definition get_latest_metrics (metric_type_filter : option string)
  (limit : Z) (db : database) : result (list row) :=
  if (limit <? - 2 ^ 63) || (2 ^ 63 <=? limit)
  then Raise OverflowError "Python int too large to convert to SQLite INTEGER"
  else
    match metric_type_filter with
    | Some t =>
        if truthy metric_type_filter then
          Ok (limit_rows limit
                (order_by_timestamp_desc
                   (filter (fun r => String.eqb (metric_type r) t) (rows db))))
        else Ok (limit_rows limit (order_by_timestamp_desc (rows db)))
    | None => Ok (limit_rows limit (order_by_timestamp_desc (rows db)))
    end.

(** The dict that [get_latest_metrics] and [get_metrics_range] build
    from a fetched row (every row has its seven columns). *)
Definition record (r : row) : dict :=
  [("id", PyInt (id r));
   ("timestamp", PyStr (timestamp r));
   ("hostname", PyStr (hostname r));
   ("metric_type", PyStr (metric_type r));
   ("metric_data", PyDict (metric_data r));
   ("status", PyStr (status r));
   ("data_source", PyStr (data_source r))]%string.

(** [MetricsDatabase.cleanup_old_records], at the time [utcnow] on the
    clock: the number of deleted rows and the database after the
    commit. *)
Definition cleanup_old_records (utcnow : datetime) (retention_days : Z)
  (db : database) : result (Z * database) :=
  cutoff_date <- sub_days utcnow retention_days ;;
  let old r := String.ltb (timestamp r) (isoformat cutoff_date) in
  let deleted_count := len (filter old (rows db)) in
  Ok (deleted_count,
      mk_database (filter (fun r => negb (old r)) (rows db)) (sequence db)).

(** [COUNT( * ) ... GROUP BY metric_type]: each type that occurs, with
    the number of its rows (the order of the groups is immaterial in
    the dict built from them). *)
Definition count_by_type (rs : list row) : list (string * Z) :=
  map (fun t => (t, len (filter (fun r => String.eqb (metric_type r) t) rs)))
      (nodup string_dec (map metric_type rs)).

(** [MIN(timestamp)] and [MAX(timestamp)]: [None] on an empty table. *)
Definition min_timestamp (rs : list row) : option string :=
  match rs with
  | [] => None
  | r :: rest =>
      Some (fold_left (fun m r' => if String.ltb (timestamp r') m
                                   then timestamp r' else m)
                      rest (timestamp r))
  end.

Definition max_timestamp (rs : list row) : option string :=
  match rs with
  | [] => None
  | r :: rest =>
      Some (fold_left (fun m r' => if String.ltb m (timestamp r')
                                   then timestamp r' else m)
                      rest (timestamp r))
  end.

(** The dict that [get_database_stats] returns ([db_path] left out). *)
Record stats : Type := mk_stats {
  total_records : Z;
  by_type : list (string * Z);
  oldest_record : option string;
  newest_record : option string
}.

(** [MetricsDatabase.get_database_stats]. *)
Definition get_database_stats (db : database) : stats :=
  mk_stats (len (rows db)) (count_by_type (rows db))
           (min_timestamp (rows db)) (max_timestamp (rows db)).

(** ** Histories of a store *)

(** A call that changes the store, with the reading of the clock it
    makes. *)
Inductive operation : Type :=
| Insert (utcnow : datetime) (hostname metric_type : string)
         (metric_data : dict) (status data_source : string)
| Cleanup (utcnow : datetime) (retention_days : Z).

(** The reading of the clock that a call makes. *)
Definition clock (op : operation) : datetime :=
  match op with
  | Insert utcnow _ _ _ _ _ => utcnow
  | Cleanup utcnow _ => utcnow
  end.

(** What a call gave back: the row id of an insert, the count of a
    cleanup, or the exception that left the database as it was. *)
Inductive outcome : Type :=
| Inserted (row_id : Z)
| Cleaned (deleted_count : Z)
| Failed (e : exn) (msg : string).

Definition step (db : database) (op : operation) : outcome * database :=
  match op with
  | Insert utcnow hostname metric_type metric_data status data_source =>
      match insert_metrics utcnow hostname metric_type metric_data
                           status data_source db with
      | Ok (row_id, db') => (Inserted row_id, db')
      | Raise e msg => (Failed e msg, db)
      end
  | Cleanup utcnow retention_days =>
      match cleanup_old_records utcnow retention_days db with
      | Ok (deleted_count, db') => (Cleaned deleted_count, db')
      | Raise e msg => (Failed e msg, db)
      end
  end.

(** A history: the outcomes of the calls, in order, and the database
    they leave. *)
Fixpoint run (db : database) (ops : list operation)
  : list outcome * database :=
  match ops with
  | [] => ([], db)
  | op :: rest =>
      let '(o, db') := step db op in
      let '(os, db'') := run db' rest in
      (o :: os, db'')
  end.

(** The row ids of a history's inserts, in order, and the sum of the
    counts of its cleanups. *)
Fixpoint inserted_ids (os : list outcome) : list Z :=
  match os with
  | [] => []
  | Inserted row_id :: rest => row_id :: inserted_ids rest
  | _ :: rest => inserted_ids rest
  end.

Fixpoint cleaned_total (os : list outcome) : Z :=
  match os with
  | [] => 0
  | Cleaned n :: rest => n + cleaned_total rest
  | _ :: rest => cleaned_total rest
  end.

End Store.

(* ================================================================== *)
(** * cli/monitor_cli.py                                               *)
(* ================================================================== *)

Module Cli.

Import Datetime Store.

(** [x or default] on an optional string: [None] and [""] are false. *)
Definition or_default (x : option string) (default : string) : string :=
  match x with
  | Some (String c s) => String c s
  | _ => default
  end.

(** What [cmd_analyze] prints: the line that no data was found, or the
    report, whose heading names the type and the hours and whose body
    is [json.dumps] of the analysis. *)
Inductive analyze_output : Type :=
| NoDataFound (metric_type : string) (hours : Z)
| AnalysisReport (metric_type : string) (hours : Z)
                 (analysis : Analyzer.analysis).

(** [cmd_analyze], at the time [utcnow] on the clock, on the database
    at [args.db_path]. *)
Definition cmd_analyze (utcnow : datetime) (hours : Z)
  (metric_type : option string) (db : database) : result analyze_output :=
  let end_time := utcnow in
  delta <- timedelta_hours hours ;;
  start_time <- sub_timedelta end_time delta ;;
  let metric_type := or_default metric_type "cpu" in
  let records :=
    map record (get_metrics_range start_time end_time (Some metric_type) db) in
  match records with
  | [] => Ok (NoDataFound metric_type hours)
  | _ =>
      let analysis :=
        Analyzer.analyze_metric_history records "usage_percent" in
      Ok (AnalysisReport metric_type hours analysis)
  end.

(** What [cmd_database] prints: the stats, the number of deleted
    records, the latest records, or nothing for any other action. *)
Inductive database_output : Type :=
| StatsPrinted (stats : Store.stats)
| DeletedPrinted (deleted : Z)
| LatestPrinted (records : list dict)
| NothingPrinted.

(** [cmd_database], at the time [utcnow] on the clock: what is printed
    and the database afterwards. *)
Definition cmd_database (utcnow : datetime) (action : string)
  (retention_days : Z) (metric_type : option string) (limit : Z)
  (db : database) : result (database_output * database) :=
  if String.eqb action "stats" then
    Ok (StatsPrinted (get_database_stats db), db)
  else if String.eqb action "cleanup" then
    cleaned <- cleanup_old_records utcnow retention_days db ;;
    Ok (DeletedPrinted (fst cleaned), snd cleaned)
  else if String.eqb action "latest" then
    records <- get_latest_metrics metric_type limit db ;;
    Ok (LatestPrinted (map record records), db)
  else Ok (NothingPrinted, db).

End Cli.

(* ================================================================== *)
(** * What the specification says, in its own words                    *)
(* ================================================================== *)

Module Spec.

(** ** Floats as fractions *)

(** Neither an infinity nor a NaN. *)
Definition finite (x : float) : bool :=
  match Prim2SF x with
  | S754_zero _ | S754_finite _ _ _ => true
  | _ => false
  end.

(** The fraction that a finite float denotes. *)
Definition exact (x : float) : Q :=
  match Prim2SF x with
  | S754_finite s m e =>
      match e with
      | Z0 => (cond_Zopp s (Zpos m) # 1)%Q
      | Zpos _ => ((cond_Zopp s (Zpos m) * 2 ^ e) # 1)%Q
      | Zneg k => (cond_Zopp s (Zpos m) # (2 ^ k)%positive)%Q
      end
  | _ => 0%Q
  end.

(** The integer nearest to a fraction: at most a half away from it,
    and even when it is a half away. *)
Definition nearest_integer (q : Q) (k : Z) : Prop :=
  (Qabs (q - inject_Z k) <= 1 # 2)%Q
  /\ ((Qabs (q - inject_Z k) == 1 # 2)%Q -> Z.even k = true).

(** [r] is [x] rounded to two decimal places: the float nearest to
    [k / 100], where [k] is the integer nearest to [100 * x]; a zero
    has the sign of [x], and an infinity and a NaN stay as they are. *)
Definition two_decimal_places (x r : float) : Prop :=
  if finite x then
    exists k,
      nearest_integer (100 * exact x) k
      /\ r = if k =? 0
             then (if sign_clear (Prim2SF x) then zero else neg_zero)
             else int_truediv k 100
  else r = x.

(** ** Moving average *)

(** The arithmetic mean of a window: its sum over its length. *)
Definition arithmetic_mean (xs : list float) : float :=
  (sum xs / float_of_Z (len xs))%float.

(** The contiguous sub-windows of length [w] of [xs], in order: the
    [i]-th one holds the [w] elements from position [i] on. *)
Definition windows (w : nat) (xs : list float) : list (list float) :=
  map (fun i => firstn w (skipn i xs)) (seq 0 (List.length xs + 1 - w)).

(** ** The least-squares line of the values against their indexes *)

(** The mean of the indexes [0 .. n-1] and the mean of the values. *)
Definition mean_index (n : Z) : float := int_truediv (n - 1) 2.

Definition mean_value (values : list float) : float :=
  (sum values / float_of_Z (len values))%float.

(** The sum of [(i - mean_i) * (v_i - mean_v)] over the points
    [(i, v_i)]. *)
Definition covariation (values : list float) : float :=
  sum (map (fun '(i, v) =>
              ((float_of_Z i - mean_index (len values))
               * (v - mean_value values))%float)
           (enumerate values)).

(** The regression denominator: the sum of [(i - mean_i)^2]. *)
Definition index_variation (n : Z) : float :=
  sum (map (fun i => square (float_of_Z i - mean_index n)) (range n)).

Definition slope (values : list float) : float :=
  (covariation values / index_variation (len values))%float.

(** The value of the line at the mean index. *)
Definition intercept (values : list float) : float :=
  (mean_value values - slope values * mean_index (len values))%float.

(** [|slope / mean(values)|], and [0] when the mean is [0]. *)
Definition change_rate (values : list float) : float :=
  if (mean_value values =? 0)%float then 0%float
  else abs (slope values / mean_value values).

(** The trend of section 4.2. *)
Definition trend (values : list float) (threshold : float) : string :=
  if (len values <? 2)
     || (index_variation (len values) =? 0)%float
     || (change_rate values <? threshold)%float
  then "stable"
  else if (0 <? slope values)%float then "increasing"
  else "decreasing".

(** ** Prediction *)

(** The last ten values, or all of them when there are fewer. *)
Definition recent (values : list float) : list float :=
  skipn (List.length values - 10) values.

(** The line through the window, one step past its last index. *)
Definition next_on_line (window : list float) : float :=
  (slope window * float_of_Z (len window) + intercept window)%float.

(** The prediction of section 4.2. *)
Definition prediction (values : list float) : option float :=
  if len values <? 2 then None
  else
    let window := recent values in
    if (index_variation (len window) =? 0)%float
    then Some (last window 0%float)
    else Some (round2 (next_on_line window)).

(** ** The sample mean and the sample standard deviation *)

(** The sum of fractions. *)
Definition total (qs : list Q) : Q := fold_right Qplus 0%Q qs.






(** ** Anomalies *)

(** The distance of a value from the mean, in standard deviations. *)
Definition z_score (mean stdev value : float) : float :=
  (abs (value - mean) / stdev)%float.

(** The anomalies of section 4.2: the indexes at which the z-score
    exceeds the threshold, in index order; none for fewer than three
    values, for a standard deviation of zero, and when the library
    cannot tell the mean or the standard deviation. *)
Definition anomalies (values : list float) (z_threshold : float) : list Z :=
  if len values <? 3 then []
  else
    match Statistics.mean values, Statistics.stdev values with
    | Ok mean, Ok stdev =>
        if (stdev =? 0)%float then []
        else
          filter
            (fun i =>
               (z_threshold
                <? z_score mean stdev (nth (Z.to_nat i) values 0))%float)
            (range (len values))
    | _, _ => []
    end.

(** ** Percentiles *)

(** The integer part of a float: the largest integer not above it
    ([0] for an infinity and for a NaN, which have none). *)
Definition floor (x : float) : Z :=
  match Prim2SF x with
  | S754_finite s m e =>
      match e with
      | Z0 => cond_Zopp s (Zpos m)
      | Zpos _ => cond_Zopp s (Zpos m) * 2 ^ e
      | Zneg k => cond_Zopp s (Zpos m) / 2 ^ Zpos k
      end
  | _ => 0
  end.

(** The percentile [p] of sorted values, by linear interpolation:
    [index = (n - 1) * p / 100], [lower = floor(index)],
    [weight = index - lower], and the result is
    [value[lower] * (1 - weight) + value[lower + 1] * weight], or
    [value[lower]] when [lower + 1] is out of range. *)
Definition percentile (sorted_values : list float) (p : Z) : float :=
  let index := int_truediv ((len sorted_values - 1) * p) 100 in
  let lower := floor index in
  let weight := (index - float_of_Z lower)%float in
  let value i := nth (Z.to_nat i) sorted_values 0%float in
  if len sorted_values <=? lower + 1 then value lower
  else (value lower * (1 - weight) + value (lower + 1)%Z * weight)%float.

(** The median of sorted values: the middle one, or the mean of the
    two middle ones. *)
Definition median (sorted_values : list float) : float :=
  let n := len sorted_values in
  let value i := nth (Z.to_nat i) sorted_values 0%float in
  if n mod 2 =? 1 then value (n / 2)
  else ((value (n / 2 - 1)%Z + value (n / 2)%Z) / 2)%float.


(** ** The analysis of a series *)

(** The value that a record holds under [key] in its payload, when it
    is a number; [None] for a record to skip. *)
Definition numeric_at (record : dict) (key : string) : option pyval :=
  match dict_get record "metric_data" (PyDict []) with
  | PyDict payload =>
      match dict_lookup payload key with
      | Some value => if is_int_or_float value then Some value else None
      | None => None
      end
  | _ => None
  end.

(** The numbers of the records that are not skipped, in order. *)
Definition numbers (records : list dict) (key : string) : list pyval :=
  flat_map (fun record =>
              match numeric_at record key with
              | Some value => [value]
              | None => []
              end)
           records.

(** The last five moving averages over windows of five, or the values
    themselves when there are fewer than five. *)
Definition recent_averages (values : list float) : list float :=
  if len values <? 5 then values
  else
    let averages := map arithmetic_mean (windows 5 values) in
    skipn (List.length averages - 5) averages.

(** An int converts to a float when it rounds to a finite one; every
    other number does. *)
Definition fits_float (value : pyval) : bool :=
  match value with
  | PyInt z => Z.abs z <? 2 ^ 1024 - 2 ^ 970
  | _ => true
  end.

(** The float of a number: [1.0] and [0.0] for [True] and [False]. *)
Definition to_float (value : pyval) : float :=
  match value with
  | PyBool b => if b then 1%float else 0%float
  | PyInt z => float_of_Z z
  | PyFloat f => f
  | _ => 0%float
  end.

(** The analysis of section 4.2, given the percentile block. *)
Definition analysis_of (values : list float)
  (statistics : list (string * float)) : Analyzer.analysis :=
  Analyzer.Analysis (len values) statistics
    (trend values Analyzer.default_threshold)
    (len (anomalies values Analyzer.default_std_threshold))
    (recent_averages values).

(** ** The store *)

(** The text order of two rows' timestamps. *)
Definition not_later (a b : Store.row) : Prop :=
  String.leb (Store.timestamp a) (Store.timestamp b) = true.

(** The rows a range query selects: those whose timestamp lies between
    the two bounds, both included, and whose type is the one asked for
    when a type (other than the empty string) is asked for. *)
Definition selected (lo hi : string) (metric_type_filter : option string)
  (r : Store.row) : bool :=
  String.leb lo (Store.timestamp r) && String.leb (Store.timestamp r) hi
  && match metric_type_filter with
     | Some EmptyString | None => true
     | Some t => String.eqb (Store.metric_type r) t
     end.

(** The fields of a datetime that [isoformat] prints at their fixed
    widths (every valid datetime has them so). *)
Definition printable (t : Datetime.datetime) : Prop :=
  0 <= Datetime.year t < 10000
  /\ 0 <= Datetime.month t < 100
  /\ 0 <= Datetime.day t < 100
  /\ 0 <= Datetime.hour t < 100
  /\ 0 <= Datetime.minute t < 100
  /\ 0 <= Datetime.second t < 100
  /\ 0 <= Datetime.microsecond t < 1000000.

(** A store all of whose timestamps were printed from datetimes. *)
Definition stamped (db : Store.database) : Prop :=
  forall r, In r (Store.rows db) ->
            exists t, printable t /\ Store.timestamp r = Datetime.isoformat t.

End Spec.

(* ================================================================== *)
(** * Notions for the properties of the store and of the command line  *)
(* ================================================================== *)

Module Notions.

Import Datetime Store.

(** The type condition of a query: none for [None] and for [""]. *)
Definition of_type (f : option string) (r : row) : bool :=
  match f with
  | Some (String c s) => String.eqb (metric_type r) (String c s)
  | _ => true
  end.

(** The order of [ORDER BY timestamp DESC]: no row is older than the
    one behind it. *)
Definition newer_first (a b : row) : Prop :=
  String.leb (timestamp b) (timestamp a) = true.

(** The sum of the counts of a [GROUP BY]. *)
Definition sum_counts (counts : list (string * Z)) : Z :=
  fold_right Z.add 0 (map snd counts).

(** A table in rowid order, with every id between one and the largest
    id ever given out. *)
Definition ordered_table (db : database) : Prop :=
  0 <= sequence db
  /\ StronglySorted (fun a b => id a < id b) (rows db)
  /\ Forall (fun r => 1 <= id r <= sequence db) (rows db).

(** Rows stamped at strictly increasing times. *)
Definition chronological (rs : list row) : Prop :=
  StronglySorted
    (fun a b => String.ltb (timestamp a) (timestamp b) = true) rs.

(** The row that an insert writes, under the id [id r]. *)
Definition written_by (op : operation) (r : row) : Prop :=
  match op with
  | Insert utcnow hostname metric_type metric_data status data_source =>
      r = mk_row (id r) (isoformat utcnow) hostname metric_type metric_data
                 status data_source
  | Cleanup _ _ => False
  end.

(** The readings of the clock that the inserts of a history make. *)
Fixpoint insert_clocks (ops : list operation) : list datetime :=
  match ops with
  | [] => []
  | Insert utcnow _ _ _ _ _ :: rest => utcnow :: insert_clocks rest
  | Cleanup _ _ :: rest => insert_clocks rest
  end.

(** The seconds from the start of the day before year 1 to a datetime,
    its microseconds left out. *)
Definition seconds_of (t : datetime) : Z :=
  _ymd2ord (year t) (month t) (day t) * 86400
  + hour t * 3600 + minute t * 60 + second t.

(** The number that the payload of a row holds under [key], if any. *)
Definition payload_number (key : string) (r : row) : option pyval :=
  match dict_lookup (metric_data r) key with
  | Some value => if is_int_or_float value then Some value else None
  | None => None
  end.

(** A float above zero, or a NaN: neither compares equal to zero. *)
Definition above_zero (x : spec_float) : bool :=
  match x with
  | S754_nan => true
  | S754_infinity s | S754_finite s _ _ => negb s
  | S754_zero _ => false
  end.

(** The day found by [month_and_day] is a day of the month found, in a
    leap year and in a common one. *)
Definition month_and_day_within (n : Z) : bool :=
  forallb (fun leapyear =>
             let '(m, d) := month_and_day n leapyear in
             d <=? (if (m =? 2) && leapyear then 29
                    else nth (Z.to_nat m) _DAYS_IN_MONTH 0))
          [true; false].

(** The order of two dates: that of the triples year, month, day. *)
Definition date_compare (a b : Z * Z * Z) : comparison :=
  let '(y1, m1, d1) := a in
  let '(y2, m2, d2) := b in
  lexicographic (y1 ?= y2) (lexicographic (m1 ?= m2) (d1 ?= d2)).

(** A date of the calendar. *)
Definition date_valid (a : Z * Z * Z) : Prop :=
  let '(y, m, d) := a in
  1 <= y <= 9999 /\ 1 <= m <= 12 /\ 1 <= d <= _days_in_month y m.

End Notions.

(* ================================================================== *)
(** * Sample data                                                      *)
(* ================================================================== *)

Module Samples.

(** Four records: an int, a payload without the key, a string and a
    float under ["usage_percent"]. *)
Definition mixed_records : list dict :=
  [[("metric_data", PyDict [("usage_percent", PyInt 3)])];
   [("metric_data", PyDict [("other", PyInt 4)])];
   [("metric_data", PyDict [("usage_percent", PyStr "x")])];
   [("metric_data", PyDict [("usage_percent", PyFloat 2.5)])]]%string.

(** Noon on the first of March 2024, and a row of type ["cpu"] stored
    at that time. *)
Definition noon : Datetime.datetime :=
  Datetime.mk_datetime 2024 3 1 12 0 0 0.

Definition cpu_row : Store.row :=
  Store.mk_row 1 "2024-03-01T12:00:00" "host" "cpu" [] "OK" "python".

Definition one_row : Store.database := Store.mk_database [cpu_row] 1.

(** An hour later, a row of type ["memory"] stored then, and the table
    of both rows. *)
Definition one_o_clock : Datetime.datetime :=
  Datetime.mk_datetime 2024 3 1 13 0 0 0.

Definition memory_row : Store.row :=
  Store.mk_row 2 "2024-03-01T13:00:00" "host" "memory" [] "OK" "python".

Definition two_rows : Store.database :=
  Store.mk_database [cpu_row; memory_row] 2.

(** A history: two inserts an hour apart, and a cleanup in between. *)
Definition history : list Store.operation :=
  [Store.Insert noon "host" "cpu" [] "OK" "python";
   Store.Cleanup noon 7;
   Store.Insert one_o_clock "host" "memory" [] "OK" "python"]%string.

(** A record that holds [value] under ["usage_percent"]. *)
Definition load (value : pyval) : dict :=
  [("metric_data", PyDict [("usage_percent", value)])]%string.

End Samples.

(* ================================================================== *)
(** * Properties of the runtime                                        *)
(* ================================================================== *)

Section RuntimeFacts.

Lemma len_nonneg {A : Type} (xs : list A) : 0 <= len xs.
Proof. unfold len. lia. Qed.

Lemma len_app {A : Type} (xs ys : list A) : len (xs ++ ys) = len xs + len ys.
Proof. unfold len. rewrite length_app. lia. Qed.

Lemma len_map {A B : Type} (f : A -> B) (xs : list A) : len (map f xs) = len xs.
Proof. unfold len. now rewrite length_map. Qed.

Lemma in_range (n i : Z) : In i (range n) <-> 0 <= i < n.
Proof.
  unfold range. rewrite in_map_iff. split.
  - intros [k [<- Hk]]. apply in_seq in Hk. lia.
  - intros Hi. exists (Z.to_nat i). split; [lia |]. apply in_seq. lia.
Qed.

(** A loop over the images of a list whose body never raises collects
    the values of its body. *)
Lemma for_each_map_ok {A B C : Type} (body : B -> result C) (g : A -> B)
  (f : A -> C) (xs : list A) :
  (forall x, In x xs -> body (g x) = Ok (f x)) ->
  for_each body (map g xs) = Ok (map f xs).
Proof.
  induction xs as [| x rest IH]; intros Hbody; simpl.
  - reflexivity.
  - rewrite (Hbody x (or_introl eq_refl)). simpl.
    rewrite IH by (intros y Hy; apply Hbody; now right).
    reflexivity.
Qed.

(** Within its bounds a slice is the run of elements it names. *)
Lemma slice_within {A : Type} (xs : list A) (i j : Z) :
  0 <= i -> i <= j -> j <= len xs ->
  slice xs i j = firstn (Z.to_nat (j - i)) (skipn (Z.to_nat i) xs).
Proof.
  intros Hi Hij Hj. unfold slice, slice_bound.
  destruct (Z.ltb_spec i 0); [lia |].
  destruct (Z.ltb_spec j 0); [lia |].
  rewrite (Z.min_l i) by lia. rewrite (Z.min_l j) by lia. reflexivity.
Qed.

Lemma index_within {A : Type} (xs : list A) (i : Z) (d : A) :
  0 <= i < len xs -> index xs i = Ok (nth (Z.to_nat i) xs d).
Proof.
  intros Hi.
  assert (E0 : (i <? 0) = false) by lia.
  assert (E1 : (len xs <=? i) = false) by lia.
  assert (Hn : (Z.to_nat i < List.length xs)%nat) by (unfold len in *; lia).
  unfold index. rewrite E0. cbv zeta. rewrite E0, E1. simpl.
  destruct (nth_error xs (Z.to_nat i)) eqn:E.
  - now rewrite (nth_error_nth _ _ d E).
  - apply nth_error_None in E. lia.
Qed.

End RuntimeFacts.

(* ================================================================== *)
(** * Properties of binary64 arithmetic                                *)
(* ================================================================== *)

Section FloatFacts.

(** Rounding gives its sign to whatever it returns. *)
Lemma binary_round_aux_sign (s : bool) (mx ex : Z) (lx : location) :
  binary_round_aux prec emax s mx ex lx = S754_nan
  \/ binary_round_aux prec emax s mx ex lx = S754_zero s
  \/ binary_round_aux prec emax s mx ex lx = S754_infinity s
  \/ exists m e, binary_round_aux prec emax s mx ex lx = S754_finite s m e.
Proof.
  unfold binary_round_aux.
  destruct (shr_fexp prec emax mx ex lx) as [mrs' e'].
  destruct (shr_fexp prec emax _ e' loc_Exact) as [mrs'' e''].
  destruct (shr_m mrs'') as [| m | m].
  - right; left; reflexivity.
  - destruct (e'' <=? emax - prec).
    + right; right; right. exists m, e''. reflexivity.
    + right; right; left; reflexivity.
  - left; reflexivity.
Qed.

Lemma binary_round_aux_sign_clear (mx ex : Z) (lx : location) :
  sign_clear (binary_round_aux prec emax false mx ex lx) = true.
Proof.
  destruct (binary_round_aux_sign false mx ex lx)
    as [H | [H | [H | [m [e H]]]]]; now rewrite H.
Qed.

Lemma SFabs_binary_round_aux (s : bool) (mx ex : Z) (lx : location) :
  SFabs (binary_round_aux prec emax s mx ex lx)
  = binary_round_aux prec emax false mx ex lx.
Proof.
  unfold binary_round_aux.
  destruct (shr_fexp prec emax mx ex lx) as [mrs' e'].
  destruct (shr_fexp prec emax _ e' loc_Exact) as [mrs'' e''].
  destruct (shr_m mrs'') as [| m | m]; try reflexivity.
  destruct (e'' <=? emax - prec); reflexivity.
Qed.

(** [|a / b| = |a| / b] when [b] is not negative. *)
Lemma abs_div_sign_clear (a b : float) :
  sign_clear (Prim2SF b) = true -> abs (a / b) = (abs a / b)%float.
Proof.
  intros Hb. apply Prim2SF_inj.
  rewrite abs_spec, !div_spec, abs_spec. unfold SF64div.
  destruct (Prim2SF b) as [sb | sb | | sb mb eb];
    try (destruct sb; [discriminate Hb |]);
    destruct (Prim2SF a) as [sa | sa | | sa ma ea];
    try reflexivity.
  unfold SFdiv, SFabs at 2.
  destruct (SFdiv_core_binary prec emax (Z.pos ma) ea (Z.pos mb) eb)
    as [[mz ez] lz].
  apply SFabs_binary_round_aux.
Qed.

Lemma binary_round_sign_clear (m : positive) (e : Z) :
  sign_clear (binary_round prec emax false m e) = true.
Proof.
  unfold binary_round.
  destruct (shl_align m e _) as [mz ez].
  apply binary_round_aux_sign_clear.
Qed.

Lemma SFldexp_sign_clear (x : spec_float) (e : Z) :
  sign_clear x = true -> sign_clear (SFldexp prec emax x e) = true.
Proof.
  destruct x as [s | s | | s m ex]; simpl; auto.
  destruct s; [discriminate |]. intros _. apply binary_round_sign_clear.
Qed.

(** The float of a rounded result that is not negative is not
    negative. *)
Lemma SF2Prim_sign_clear (x : spec_float) :
  sign_clear x = true -> sign_clear (Prim2SF (SF2Prim x)) = true.
Proof.
  destruct x as [s | s | | s m e]; try (destruct s; [discriminate |]);
    intros _; try reflexivity.
  unfold SF2Prim. rewrite Z_ldexp_spec, of_uint63_spec.
  apply SFldexp_sign_clear.
  pose proof (Uint63.to_Z_bounded (Uint63.of_Z (Z.pos m))) as Hb.
  destruct (Uint63.to_Z (Uint63.of_Z (Z.pos m))) as [| p | p];
    [reflexivity | apply binary_round_sign_clear | lia].
Qed.

(** The quotient of an int that is not negative by a positive int is
    not negative. *)
Lemma int_truediv_sign_clear (a b : Z) :
  0 <= a -> 0 < b -> sign_clear (Prim2SF (int_truediv a b)) = true.
Proof.
  intros Ha Hb. unfold int_truediv. apply SF2Prim_sign_clear.
  destruct b as [| pb | pb]; try lia.
  destruct a as [| pa | pa]; try lia; [reflexivity |].
  unfold SF_of_Z, SFdiv.
  destruct (SFdiv_core_binary prec emax (Z.pos pa) 0 (Z.pos pb) 0)
    as [[mz ez] lz].
  apply binary_round_aux_sign_clear.
Qed.

End FloatFacts.

(* ================================================================== *)
(** * Rounding to binary64                                             *)
(* ================================================================== *)

Section Rounding.

Lemma digits2_size (p : positive) : digits2_pos p = Pos.size p.
Proof. induction p; simpl; congruence. Qed.

Lemma Zdigits2_log2 (p : positive) : Zdigits2 (Z.pos p) = Z.log2 (Z.pos p) + 1.
Proof.
  unfold Zdigits2. rewrite digits2_size.
  destruct p; simpl; try rewrite Pos2Z.inj_succ; lia.
Qed.

(** A positive integer of [d] binary digits lies in [2^(d-1), 2^d). *)
Lemma Zdigits2_bounds (m : Z) :
  0 < m -> 2 ^ (Zdigits2 m - 1) <= m < 2 ^ Zdigits2 m.
Proof.
  intros Hm. destruct m as [| p | p]; try lia.
  rewrite Zdigits2_log2.
  replace (Z.log2 (Z.pos p) + 1 - 1) with (Z.log2 (Z.pos p)) by lia.
  apply Z.log2_spec. lia.
Qed.

Lemma Zdigits2_unique (m d : Z) :
  1 <= d -> 2 ^ (d - 1) <= m < 2 ^ d -> Zdigits2 m = d.
Proof.
  intros Hd Hm.
  assert (0 < m) by (pose proof (Z.pow_pos_nonneg 2 (d - 1)); lia).
  destruct m as [| p | p]; try lia.
  rewrite Zdigits2_log2.
  rewrite (Z.log2_unique (Z.pos p) (d - 1)); try lia.
  replace (Z.succ (d - 1)) with d by lia. exact Hm.
Qed.

Lemma shr_1_div2 (mrs : shr_record) :
  0 <= shr_m mrs -> shr_m (shr_1 mrs) = shr_m mrs / 2.
Proof.
  destruct mrs as [m r s]. simpl. intros Hm.
  rewrite <- Z.div2_div.
  destruct m as [| [p | p |] | p]; try reflexivity; lia.
Qed.

Lemma pow2_xI (p : positive) :
  2 ^ Z.pos p~1 = 2 * (2 ^ Z.pos p * 2 ^ Z.pos p).
Proof.
  change (Z.pos p~1) with (2 * Z.pos p + 1).
  rewrite Z.pow_add_r, Z.pow_twice_r by lia. lia.
Qed.

Lemma pow2_xO (p : positive) :
  2 ^ Z.pos p~0 = 2 ^ Z.pos p * 2 ^ Z.pos p.
Proof. change (Z.pos p~0) with (2 * Z.pos p). apply Z.pow_twice_r. Qed.

Lemma shr_1_nonneg (mrs : shr_record) :
  0 <= shr_m mrs -> 0 <= shr_m (shr_1 mrs).
Proof. intros H. rewrite shr_1_div2 by lia. apply Z.div_pos; lia. Qed.

Lemma iter_shr_1 (p : positive) :
  forall mrs, 0 <= shr_m mrs ->
    shr_m (iter_pos shr_1 p mrs) = shr_m mrs / 2 ^ Z.pos p.
Proof.
  induction p as [p IH | p IH |]; intros mrs Hm; simpl iter_pos.
  - pose proof (shr_1_nonneg mrs Hm) as H1.
    assert (Hp : 0 < 2 ^ Z.pos p) by (apply Z.pow_pos_nonneg; lia).
    assert (H2 : 0 <= shr_m (iter_pos shr_1 p (shr_1 mrs)))
      by (rewrite IH by lia; apply Z.div_pos; lia).
    rewrite IH, IH, shr_1_div2 by lia.
    rewrite !Z.div_div by lia. now rewrite pow2_xI.
  - assert (Hp : 0 < 2 ^ Z.pos p) by (apply Z.pow_pos_nonneg; lia).
    assert (H2 : 0 <= shr_m (iter_pos shr_1 p mrs))
      by (rewrite IH by lia; apply Z.div_pos; lia).
    rewrite IH, IH by lia.
    rewrite !Z.div_div by lia. now rewrite pow2_xO.
  - rewrite shr_1_div2 by lia. reflexivity.
Qed.

Lemma shr_record_of_loc_m (m : Z) (l : location) :
  shr_m (shr_record_of_loc m l) = m.
Proof. destruct l as [| []]; reflexivity. Qed.

(** Shifting a mantissa [n] places to the right divides it by [2^n]
    and adds [n] to the exponent. *)
Lemma shr_fexp_shift (m e : Z) (l : location) :
  0 <= m ->
  let k := Z.max 0 (fexp prec emax (Zdigits2 m + e) - e) in
  exists r, shr_fexp prec emax m e l = (r, e + k) /\ shr_m r = m / 2 ^ k.
Proof.
  intros Hm k. unfold shr_fexp, shr. subst k.
  destruct (fexp prec emax (Zdigits2 m + e) - e) as [| p | p] eqn:E.
  - exists (shr_record_of_loc m l). rewrite shr_record_of_loc_m.
    split; [f_equal; lia | now rewrite Z.div_1_r].
  - exists (iter_pos shr_1 p (shr_record_of_loc m l)).
    split; [f_equal; lia |].
    rewrite iter_shr_1 by (rewrite shr_record_of_loc_m; lia).
    rewrite shr_record_of_loc_m. f_equal.
  - exists (shr_record_of_loc m l). rewrite shr_record_of_loc_m.
    split; [f_equal; lia | now rewrite Z.div_1_r].
Qed.

Lemma round_nearest_even_cases (m : Z) (l : location) :
  round_nearest_even m l = m \/ round_nearest_even m l = m + 1.
Proof.
  destruct l as [| []]; simpl; auto. destruct (Z.even m); auto.
Qed.

Lemma fexp_normal (e : Z) : -1021 <= e -> fexp prec emax e = e - 53.
Proof. intros H. unfold fexp, emin, prec, emax. lia. Qed.

(** Rounding a mantissa of at least 53 digits in the normal range:
    the result is a valid finite float, at most one unit of the last
    kept place above the number rounded. *)
Lemma binary_round_aux_normal (s : bool) (mx ex : Z) (lx : location) :
  0 < mx ->
  53 <= Zdigits2 mx ->
  -1021 <= Zdigits2 mx + ex <= 1023 ->
  exists m e,
    binary_round_aux prec emax s mx ex lx = S754_finite s m e
    /\ valid_binary (S754_finite s m e) = true
    /\ ex <= e
    /\ Z.pos m * 2 ^ (e - ex) <= mx + 2 ^ (Zdigits2 mx - 53).
Proof.
  intros Hmx Hd Hrange.
  set (d := Zdigits2 mx) in *.
  set (k1 := d - 53).
  pose proof (Zdigits2_bounds mx Hmx) as Hb. fold d in Hb.
  assert (Hk1 : 0 <= k1) by (unfold k1; lia).
  assert (Hp1 : 0 < 2 ^ k1) by (apply Z.pow_pos_nonneg; lia).
  assert (Hd1 : 2 ^ (d - 1) = 2 ^ 52 * 2 ^ k1)
    by (rewrite <- Z.pow_add_r by lia; f_equal; unfold k1; lia).
  assert (Hd2 : 2 ^ d = 2 ^ 53 * 2 ^ k1)
    by (rewrite <- Z.pow_add_r by lia; f_equal; unfold k1; lia).
  destruct (shr_fexp_shift mx ex lx) as [r1 [E1 M1]]; [lia |].
  fold d in E1, M1. rewrite fexp_normal in E1, M1 by lia.
  replace (Z.max 0 (d + ex - 53 - ex)) with k1 in E1, M1 by (unfold k1; lia).
  set (m1 := mx / 2 ^ k1) in *.
  assert (Hm1 : 2 ^ 52 <= m1 < 2 ^ 53).
  { unfold m1. split.
    - apply Z.div_le_lower_bound; lia.
    - apply Z.div_lt_upper_bound; lia. }
  assert (Hm1mx : m1 * 2 ^ k1 <= mx).
  { unfold m1. rewrite Z.mul_comm. apply Z.mul_div_le. lia. }
  unfold binary_round_aux. rewrite E1, M1.
  set (m2 := round_nearest_even m1 (loc_of_shr_record r1)).
  assert (Hm2 : m2 = m1 \/ m2 = m1 + 1) by apply round_nearest_even_cases.
  assert (Hm2b : m2 * 2 ^ k1 <= mx + 2 ^ k1) by nia.
  destruct (shr_fexp_shift m2 (ex + k1) loc_Exact) as [r2 [E2 M2]]; [lia |].
  destruct (Z.eq_dec m2 (2 ^ 53)) as [Htop | Hlow].
  - (* the mantissa carried into a 54th digit *)
    assert (D2 : Zdigits2 m2 = 54)
      by (apply Zdigits2_unique; [lia | rewrite Htop; simpl; lia]).
    rewrite D2, fexp_normal in E2, M2 by (unfold k1; lia).
    replace (Z.max 0 (54 + (ex + k1) - 53 - (ex + k1))) with 1 in E2, M2 by lia.
    rewrite E2, M2, Htop. change (2 ^ 53 / 2 ^ 1) with (Z.pos (2 ^ 52)).
    assert (Hle : (ex + k1 + 1 <=? emax - prec) = true)
      by (unfold emax, prec, k1; lia).
    rewrite Hle. exists (2 ^ 52)%positive, (ex + k1 + 1).
    split; [reflexivity |]. split; [| split; [lia |]].
    + unfold valid_binary, SpecFloat.valid_binary, bounded, canonical_mantissa. rewrite Hle.
      change (Z.pos (digits2_pos (2 ^ 52))) with 53.
      rewrite fexp_normal by (unfold k1; lia).
      rewrite andb_true_r. lia.
    + replace (ex + k1 + 1 - ex) with (1 + k1) by lia.
      rewrite Z.pow_add_r by lia. fold k1.
      rewrite Htop in Hm2b.
      replace (Z.pos (2 ^ 52) * (2 ^ 1 * 2 ^ k1)) with (2 ^ 53 * 2 ^ k1);
        [exact Hm2b |].
      rewrite Z.mul_assoc. reflexivity.
  - (* the mantissa still has 53 digits *)
    assert (Hm2r : 2 ^ 52 <= m2 < 2 ^ 53) by lia.
    assert (D2 : Zdigits2 m2 = 53)
      by (apply Zdigits2_unique; [lia | exact Hm2r]).
    rewrite D2, fexp_normal in E2, M2 by (unfold k1; lia).
    replace (Z.max 0 (53 + (ex + k1) - 53 - (ex + k1))) with 0 in E2, M2 by lia.
    rewrite Z.div_1_r in M2. rewrite E2, M2.
    destruct m2 as [| p2 | p2]; try (simpl in Hm2r; lia).
    assert (Hle : (ex + k1 + 0 <=? emax - prec) = true)
      by (unfold emax, prec, k1; lia).
    rewrite Hle. exists p2, (ex + k1 + 0).
    split; [reflexivity |]. split; [| split; [lia |]].
    + unfold valid_binary, SpecFloat.valid_binary, bounded, canonical_mantissa. rewrite Hle.
      change (Z.pos (digits2_pos p2)) with (Zdigits2 (Z.pos p2)).
      rewrite D2, fexp_normal by (unfold k1; lia).
      rewrite andb_true_r. lia.
    + replace (ex + k1 + 0 - ex) with k1 by lia. fold k1. exact Hm2b.
Qed.

(** The truncation of a finite float that is not negative. *)
Lemma int_of_float_finite (x : float) (m : positive) (e : Z) :
  Prim2SF x = S754_finite false m e ->
  exists t, int_of_float x = Ok t
            /\ 0 <= t
            /\ forall s, 0 <= s -> 0 <= e + s ->
                         t * 2 ^ s <= Z.pos m * 2 ^ (e + s).
Proof.
  intros Hx. unfold int_of_float. rewrite Hx. unfold cond_Zopp.
  destruct e as [| pe | pe].
  - exists (Z.pos m). split; [reflexivity |]. split; [lia |].
    intros s Hs _. simpl (0 + s). lia.
  - exists (Z.pos m * 2 ^ Z.pos pe). split; [reflexivity |].
    assert (0 < 2 ^ Z.pos pe) by (apply Z.pow_pos_nonneg; lia).
    split; [lia |]. intros s Hs _.
    rewrite Z.pow_add_r by lia. lia.
  - exists (Z.pos m / 2 ^ Z.pos pe). split; [reflexivity |].
    assert (Hp : 0 < 2 ^ Z.pos pe) by (apply Z.pow_pos_nonneg; lia).
    split; [apply Z.div_pos; lia |]. intros s Hs Hes.
    replace s with (Z.pos pe + (Z.neg pe + s)) at 1 by lia.
    rewrite Z.pow_add_r by lia.
    assert (Hq : 0 <= 2 ^ (Z.neg pe + s)) by (apply Z.pow_nonneg; lia).
    pose proof (Z.mul_div_le (Z.pos m) (2 ^ Z.pos pe) Hp) as Hdiv.
    rewrite Z.mul_assoc. apply Z.mul_le_mono_nonneg_r; lia.
Qed.

(** [a / b] on ints, truncated: the quotient is a finite float, and its
    integer part exceeds [a / b] by less than one part in [2^52]. *)
Lemma int_truediv_truncated (a b : Z) :
  0 <= a < 2 ^ 1022 -> 0 < b < 2 ^ 1021 ->
  exists t, int_of_float (int_truediv a b) = Ok t
            /\ 0 <= t
            /\ t * b * 2 ^ 52 <= (2 ^ 52 + 1) * a.
Proof.
  intros Ha Hb. unfold int_truediv.
  destruct b as [| pb | pb]; try lia.
  destruct a as [| pa | pa]; try lia.
  { exists 0. split; [reflexivity | lia]. }
  unfold SF_of_Z, SFdiv, SFdiv_core_binary. cbn [xorb].
  set (d1 := Zdigits2 (Z.pos pa)). set (d2 := Zdigits2 (Z.pos pb)).
  pose proof (Zdigits2_bounds (Z.pos pa) ltac:(lia)) as B1. fold d1 in B1.
  pose proof (Zdigits2_bounds (Z.pos pb) ltac:(lia)) as B2. fold d2 in B2.
  assert (Hd1 : 1 <= d1 <= 1022).
  { split; [unfold d1; simpl; lia |].
    assert (2 ^ (d1 - 1) < 2 ^ 1022) by lia.
    apply Z.pow_lt_mono_r_iff in H; lia. }
  assert (Hd2 : 1 <= d2 <= 1021).
  { split; [unfold d2; simpl; lia |].
    assert (2 ^ (d2 - 1) < 2 ^ 1021) by lia.
    apply Z.pow_lt_mono_r_iff in H; lia. }
  replace (d1 + 0 - (d2 + 0)) with (d1 - d2) by lia.
  rewrite fexp_normal by lia. change (0 - 0) with 0.
  set (e' := Z.min (d1 - d2 - 53) 0).
  set (s := 0 - e').
  assert (Hs : 0 <= s) by (unfold s, e'; lia).
  set (m' := match s with
             | 0 => Z.pos pa
             | Z.pos _ => Z.shiftl (Z.pos pa) s
             | Z.neg _ => 0
             end).
  assert (Hm' : m' = Z.pos pa * 2 ^ s).
  { unfold m'. destruct s as [| ps | ps]; try lia.
    apply Z.shiftl_mul_pow2. lia. }
  assert (Hps : 0 < 2 ^ s) by (apply Z.pow_pos_nonneg; lia).
  destruct (Z.div_eucl m' (Z.pos pb)) as [q r] eqn:Ediv.
  assert (Hq : q = m' / Z.pos pb) by (unfold Z.div; now rewrite Ediv).
  (* the size of the quotient *)
  assert (Hlow : 2 ^ 52 * Z.pos pb <= m').
  { rewrite Hm'.
    assert (2 ^ 52 * 2 ^ d2 <= 2 ^ (d1 - 1) * 2 ^ s).
    { rewrite <- !Z.pow_add_r by lia.
      apply Z.pow_le_mono_r; [lia | unfold s, e'; lia]. }
    nia. }
  assert (Hq52 : 2 ^ 52 <= q).
  { rewrite Hq. apply Z.div_le_lower_bound; lia. }
  assert (Hqb : q * Z.pos pb <= m').
  { rewrite Hq, Z.mul_comm. apply Z.mul_div_le. lia. }
  assert (Hqpos : 0 < q) by lia.
  pose proof (Zdigits2_bounds q Hqpos) as Bq.
  set (dq := Zdigits2 q) in *.
  assert (Hdq0 : 0 < dq) by (unfold dq; destruct q; simpl; lia).
  assert (Hdq53 : 53 <= dq).
  { assert (2 ^ 52 < 2 ^ dq) by lia.
    apply Z.pow_lt_mono_r_iff in H; lia. }
  assert (Hdq : dq <= d1 + s).
  { assert (q <= m') by nia.
    assert (m' < 2 ^ (d1 + s)) by (rewrite Hm', Z.pow_add_r by lia; nia).
    assert (2 ^ (dq - 1) < 2 ^ (d1 + s)) by lia.
    apply Z.pow_lt_mono_r_iff in H1; lia. }
  destruct (binary_round_aux_normal false q e'
              (new_location (Z.pos pb) r))
    as [m [e [Eround [Hvalid [Hee' Hbound]]]]];
    [lia | exact Hdq53 | fold dq; unfold s, e' in *; lia |].
  rewrite Eround.
  pose proof (Prim2SF_SF2Prim _ Hvalid) as Hprim.
  destruct (int_of_float_finite _ m e Hprim) as [t [Et [Ht0 Hts]]].
  exists t. split; [exact Et |]. split; [exact Ht0 |].
  specialize (Hts s Hs ltac:(unfold s; lia)).
  replace (e - e') with (e + s) in Hbound by (unfold s; lia).
  fold dq in Hbound.
  assert (Hu : 2 ^ (dq - 53) * 2 ^ 52 <= q).
  { rewrite <- Z.pow_add_r by lia.
    replace (dq - 53 + 52) with (dq - 1) by lia. lia. }
  (* t * 2^s <= m * 2^(e+s) <= q + u, u * 2^52 <= q, q * b <= a * 2^s *)
  apply (Z.mul_le_mono_pos_r _ _ (2 ^ s) Hps).
  rewrite Hm' in Hqb.
  set (u := 2 ^ (dq - 53)) in *. set (P := Z.pos m * 2 ^ (e + s)) in *.
  set (X := 2 ^ s) in *. set (B := Z.pos pb) in *. set (A := Z.pos pa) in *.
  assert (HB : 0 < B) by (unfold B; lia).
  assert (H1 : t * X * (B * 2 ^ 52) <= (q + u) * (B * 2 ^ 52))
    by (apply Z.mul_le_mono_nonneg_r; lia).
  assert (H2 : u * 2 ^ 52 * B <= q * B)
    by (apply Z.mul_le_mono_nonneg_r; lia).
  assert (H3 : q * B * (2 ^ 52 + 1) <= A * X * (2 ^ 52 + 1))
    by (apply Z.mul_le_mono_nonneg_r; lia).
  lia.
Qed.

End Rounding.

(* ================================================================== *)
(** * Moving average                                                   *)
(* ================================================================== *)

Section MovingAverage.

Import Analyzer.

Lemma windows_length (w : nat) (xs : list float) :
  List.length (Spec.windows w xs) = (List.length xs + 1 - w)%nat.
Proof. unfold Spec.windows. now rewrite length_map, length_seq. Qed.

(** Every window has the length asked for. *)
Lemma windows_sizes (w : nat) (xs : list float) :
  Forall (fun win => List.length win = w) (Spec.windows w xs).
Proof.
  unfold Spec.windows. apply Forall_forall. intros win Hin.
  apply in_map_iff in Hin. destruct Hin as [i [<- Hi]].
  apply in_seq in Hi. rewrite length_firstn, length_skipn. lia.
Qed.

(** The body of the loop, at a position where a whole window fits. *)
Lemma moving_average_body (values : list float) (w i : Z) :
  1 <= w -> 0 <= i -> i + w <= len values ->
  truediv_int (sum (slice values i (i + w))) w
  = Ok (Spec.arithmetic_mean
          (firstn (Z.to_nat w) (skipn (Z.to_nat i) values))).
Proof.
  intros Hw Hi Hfit. unfold truediv_int.
  destruct (Z.eqb_spec w 0); [lia |].
  rewrite slice_within by lia.
  replace (i + w - i) with w by lia.
  unfold Spec.arithmetic_mean.
  replace (len (firstn (Z.to_nat w) (skipn (Z.to_nat i) values))) with w;
    [reflexivity |].
  unfold len in *. rewrite length_firstn, length_skipn. lia.
Qed.

(** The moving averages computed are the means of the windows. *)
Lemma moving_average_refines (values : list float) (w : Z) :
  1 <= w ->
  calculate_moving_average values w
  = Ok (if len values <? w then values
        else map Spec.arithmetic_mean (Spec.windows (Z.to_nat w) values)).
Proof.
  intros Hw. unfold calculate_moving_average.
  destruct (Z.ltb_spec (len values) w) as [Hshort | Hfit]; [reflexivity |].
  unfold Spec.windows, range. rewrite map_map.
  replace (Z.to_nat (len values - w + 1))
    with (List.length values + 1 - Z.to_nat w)%nat by (unfold len; lia).
  apply for_each_map_ok. intros k Hk. apply in_seq in Hk.
  rewrite moving_average_body by (unfold len in *; lia).
  now rewrite Nat2Z.id.
Qed.

(** C8, as amended: for a window size of at least one, a list shorter
    than the window comes back unchanged, and otherwise the result is
    the list of the arithmetic means of all contiguous sub-windows of
    that size, in order, [n - w + 1] of them, each window holding [w]
    values. *)
Theorem moving_average_windows (values : list float) (w : Z) :
  1 <= w ->
  calculate_moving_average values w
  = Ok (if len values <? w then values
        else map Spec.arithmetic_mean (Spec.windows (Z.to_nat w) values))
  /\ (w <= len values ->
      len (map Spec.arithmetic_mean (Spec.windows (Z.to_nat w) values))
      = len values - w + 1)
  /\ Forall (fun window => len window = w) (Spec.windows (Z.to_nat w) values).
Proof.
  intros Hw. split; [| split].
  - now apply moving_average_refines.
  - intros Hfit. rewrite len_map. unfold len. rewrite windows_length.
    unfold len in Hfit. lia.
  - eapply Forall_impl; [| apply windows_sizes].
    intros window H. unfold len. simpl in H. lia.
Qed.

(** C8, the claim as it stands fails at a window size of zero: the
    mean of an empty window divides by zero. *)
Lemma moving_average_zero_window_raises :
  let values := [1; 2; 3]%float in
  0 <= len values
  /\ calculate_moving_average values 0
     = Raise ZeroDivisionError "division by zero"
  /\ ~ (exists averages,
          calculate_moving_average values 0 = Ok averages
          /\ len averages = len values - 0 + 1).
Proof.
  cbv zeta. split; [unfold len; simpl; lia |].
  assert (E : calculate_moving_average [1; 2; 3]%float 0
              = Raise ZeroDivisionError "division by zero")
    by (vm_compute; reflexivity).
  split; [exact E |].
  intros [averages [H _]]. rewrite E in H. discriminate H.
Qed.

Lemma moving_average_windows_witness :
  1 <= 3
  /\ (calculate_moving_average [1; 2; 3; 4; 5; 6]%float 3
      = Ok (if len [1; 2; 3; 4; 5; 6]%float <? 3
            then [1; 2; 3; 4; 5; 6]%float
            else map Spec.arithmetic_mean
                     (Spec.windows (Z.to_nat 3) [1; 2; 3; 4; 5; 6]%float))
      /\ (3 <= len [1; 2; 3; 4; 5; 6]%float ->
          len (map Spec.arithmetic_mean
                   (Spec.windows (Z.to_nat 3) [1; 2; 3; 4; 5; 6]%float))
          = len [1; 2; 3; 4; 5; 6]%float - 3 + 1)
      /\ Forall (fun window => len window = 3)
                (Spec.windows (Z.to_nat 3) [1; 2; 3; 4; 5; 6]%float)).
Proof.
  split; [lia |].
  apply (moving_average_windows [1; 2; 3; 4; 5; 6]%float 3). lia.
Defined.

End MovingAverage.

(* ================================================================== *)
(** * Trend                                                            *)
(* ================================================================== *)

Section Trend.

Import Analyzer.

(** Reading [values[i]] for [i] in [range(len(values))] visits the
    pairs of [enumerate(values)]. *)
Lemma indexed_from (g : Z -> float -> float) (xs : list float) (a : nat) :
  map (fun k => g (Z.of_nat k) (nth (k - a) xs 0%float))
      (seq a (List.length xs))
  = map (fun '(i, v) => g i v)
        (combine (map Z.of_nat (seq a (List.length xs))) xs).
Proof.
  revert a. induction xs as [| x rest IH]; intros a; simpl.
  - reflexivity.
  - rewrite Nat.sub_diag. f_equal.
    rewrite <- IH. apply map_ext_in. intros k Hk. apply in_seq in Hk.
    replace (k - a)%nat with (S (k - S a)) by lia. reflexivity.
Qed.

Lemma for_each_index (g : Z -> float -> float) (xs : list float) :
  for_each (fun i => v <- index xs i ;; Ok (g i v)) (range (len xs))
  = Ok (map (fun '(i, v) => g i v) (enumerate xs)).
Proof.
  unfold enumerate, range, len. rewrite Nat2Z.id.
  rewrite <- (indexed_from g xs 0).
  apply for_each_map_ok. intros k Hk. apply in_seq in Hk.
  rewrite (index_within xs (Z.of_nat k) 0%float) by (unfold len; lia).
  simpl. now rewrite Nat2Z.id, Nat.sub_0_r.
Qed.

Lemma regression_numerator_ok (values : list float) :
  regression_numerator values (len values)
    (Spec.mean_index (len values)) (Spec.mean_value values)
  = Ok (Spec.covariation values).
Proof.
  unfold regression_numerator, Spec.covariation.
  rewrite (for_each_index
             (fun i v => ((float_of_Z i - Spec.mean_index (len values))
                          * (v - Spec.mean_value values))%float)).
  reflexivity.
Qed.

Lemma regression_denominator_eq (n : Z) :
  regression_denominator n (Spec.mean_index n) = Spec.index_variation n.
Proof. reflexivity. Qed.

Lemma truediv_nonzero (x y : float) :
  (y =? 0)%float = false -> truediv x y = Ok (x / y)%float.
Proof. intros H. unfold truediv. now rewrite H. Qed.

Lemma truediv_int_nonzero (x : float) (d : Z) :
  d <> 0 -> truediv_int x d = Ok (x / float_of_Z d)%float.
Proof. intros H. unfold truediv_int. now destruct (Z.eqb_spec d 0). Qed.

(** The trend computed is the trend of the specification, on every
    list and at every threshold, and no division raises. *)
Lemma detect_trend_refines (values : list float) (threshold : float) :
  detect_trend values threshold = Ok (Spec.trend values threshold).
Proof.
  unfold detect_trend, Spec.trend.
  destruct (Z.ltb_spec (len values) 2) as [Hshort | Hlong]; [reflexivity |].
  rewrite truediv_int_nonzero by lia. simpl bind.
  fold (Spec.mean_value values). fold (Spec.mean_index (len values)).
  rewrite regression_numerator_ok. simpl bind.
  rewrite regression_denominator_eq, orb_false_l.
  destruct (Spec.index_variation (len values) =? 0)%float eqn:Hden;
    [reflexivity |].
  rewrite (truediv_nonzero _ _ Hden). simpl bind.
  fold (Spec.slope values). rewrite orb_false_l.
  unfold Spec.change_rate.
  destruct (Spec.mean_value values =? 0)%float eqn:Hmean; simpl.
  - destruct (0 <? threshold)%float; [reflexivity |].
    destruct (0 <? Spec.slope values)%float; reflexivity.
  - rewrite (truediv_nonzero _ _ Hmean). simpl bind.
    destruct (abs (Spec.slope values / Spec.mean_value values) <? threshold)%float;
      [reflexivity |].
    destruct (0 <? Spec.slope values)%float; reflexivity.
Qed.

(** A float below zero is not above it. *)
Lemma ltb_zero_asym (x : float) :
  (x <? 0)%float = true -> (0 <? x)%float = false.
Proof.
  rewrite !ltb_spec.
  change (Prim2SF 0%float) with (S754_zero false).
  destruct (Prim2SF x) as [s | s | | s m e]; try destruct s;
    unfold SFltb, SFcompare; congruence.
Qed.

(** C4: on every list and at every threshold [detect_trend] returns
    the trend of the specification: "stable" for fewer than two values,
    for a regression denominator of zero, and for a change rate
    [|slope / mean|] (zero when the mean is zero) below the threshold;
    otherwise "increasing" for a positive least-squares slope and
    "decreasing" for a negative one.  At the default threshold,
    [1,2,3,4,5] is increasing, [5,5,5,5,5] stable and [5,4,3,2,1]
    decreasing. *)
Theorem trend_classification :
  (forall values threshold,
      detect_trend values threshold = Ok (Spec.trend values threshold))
  /\ (forall values threshold,
         len values < 2 ->
         detect_trend values threshold = Ok "stable"%string)
  /\ (forall values threshold,
         (Spec.index_variation (len values) =? 0)%float = true ->
         detect_trend values threshold = Ok "stable"%string)
  /\ (forall values threshold,
         (Spec.change_rate values <? threshold)%float = true ->
         detect_trend values threshold = Ok "stable"%string)
  /\ (forall values threshold,
         2 <= len values ->
         (Spec.index_variation (len values) =? 0)%float = false ->
         (Spec.change_rate values <? threshold)%float = false ->
         ((0 <? Spec.slope values)%float = true ->
          detect_trend values threshold = Ok "increasing"%string)
         /\ ((Spec.slope values <? 0)%float = true ->
             detect_trend values threshold = Ok "decreasing"%string))
  /\ detect_trend [1; 2; 3; 4; 5]%float default_threshold
     = Ok "increasing"%string
  /\ detect_trend [5; 5; 5; 5; 5]%float default_threshold
     = Ok "stable"%string
  /\ detect_trend [5; 4; 3; 2; 1]%float default_threshold
     = Ok "decreasing"%string.
Proof.
  split; [exact detect_trend_refines |].
  split.
  { intros values threshold H. rewrite detect_trend_refines.
    unfold Spec.trend. destruct (Z.ltb_spec (len values) 2); [reflexivity | lia]. }
  split.
  { intros values threshold H. rewrite detect_trend_refines.
    unfold Spec.trend. rewrite H, orb_true_r. reflexivity. }
  split.
  { intros values threshold H. rewrite detect_trend_refines.
    unfold Spec.trend. rewrite H, orb_true_r. reflexivity. }
  split.
  { intros values threshold Hlen Hden Hrate.
    rewrite detect_trend_refines. unfold Spec.trend.
    destruct (Z.ltb_spec (len values) 2); [lia |].
    rewrite Hden, Hrate. simpl. split; intros Hslope.
    - now rewrite Hslope.
    - now rewrite (ltb_zero_asym _ Hslope). }
  repeat split; vm_compute; reflexivity.
Qed.

End Trend.

(* ================================================================== *)
(** * Prediction                                                       *)
(* ================================================================== *)

Section Prediction.

Import Analyzer.

Lemma nth_last (xs : list float) (d : float) :
  nth (List.length xs - 1) xs d = last xs d.
Proof.
  induction xs as [| x rest IH]; [reflexivity |].
  destruct rest as [| y rest']; [reflexivity |].
  simpl in *. now rewrite Nat.sub_0_r in IH.
Qed.

(** [values[-10:]] are the last ten values. *)
Lemma slice_last_ten (values : list float) :
  slice_from values (-10) = Spec.recent values.
Proof.
  unfold slice_from, slice_bound, Spec.recent.
  change (-10 <? 0) with true. cbv iota. f_equal. unfold len. lia.
Qed.

Lemma recent_length (values : list float) :
  List.length (Spec.recent values) = Nat.min (List.length values) 10.
Proof. unfold Spec.recent. rewrite length_skipn. lia. Qed.

(** [xs[-1]] is the last element of a list that has one. *)
Lemma index_last (xs : list float) :
  1 <= len xs -> index xs (-1) = Ok (last xs 0%float).
Proof.
  intros H. unfold index. change (-1 <? 0) with true. cbv iota zeta.
  assert (E0 : (-1 + len xs <? 0) = false) by lia.
  assert (E1 : (len xs <=? -1 + len xs) = false) by lia.
  rewrite E0, E1. cbv [orb].
  replace (Z.to_nat (-1 + len xs)) with (List.length xs - 1)%nat
    by (unfold len; lia).
  destruct (nth_error xs (List.length xs - 1)) eqn:E.
  - now rewrite <- (nth_last xs 0%float), (nth_error_nth _ _ _ E).
  - apply nth_error_None in E. unfold len in H. lia.
Qed.

(** The prediction computed is the prediction of the specification, on
    every list, and nothing raises. *)
Lemma predict_next_refines (values : list float) :
  predict_next_value values = Ok (Spec.prediction values).
Proof.
  unfold predict_next_value, Spec.prediction.
  destruct (Z.ltb_spec (len values) 2) as [Hshort | Hlong]; [reflexivity |].
  rewrite slice_last_ten. cbv zeta.
  assert (Hn : 2 <= len (Spec.recent values)).
  { unfold len in *. rewrite recent_length. lia. }
  rewrite truediv_int_nonzero by lia. simpl bind.
  fold (Spec.mean_value (Spec.recent values)).
  fold (Spec.mean_index (len (Spec.recent values))).
  rewrite regression_numerator_ok. simpl bind.
  rewrite regression_denominator_eq.
  destruct (Spec.index_variation (len (Spec.recent values)) =? 0)%float
    eqn:Hden.
  - rewrite index_last by lia. reflexivity.
  - rewrite (truediv_nonzero _ _ Hden). reflexivity.
Qed.

(** The integer that [round_half_even] finds is the nearest one, and
    the even one of two. *)
Lemma round_half_even_nearest (num den : Z) :
  0 <= num -> 0 < den ->
  0 <= round_half_even num den
  /\ 2 * Z.abs (num - round_half_even num den * den) <= den
  /\ (2 * Z.abs (num - round_half_even num den * den) = den ->
      Z.even (round_half_even num den) = true).
Proof.
  intros Hnum Hden. unfold round_half_even.
  pose proof (Z.div_mod num den ltac:(lia)) as Hdiv.
  pose proof (Z.mod_pos_bound num den Hden) as Hmod.
  assert (Hq : 0 <= num / den) by (apply Z.div_pos; lia).
  set (q := num / den) in *. set (r := num mod den) in *.
  destruct (Z.compare_spec (2 * r) den) as [Heq | Hlt | Hgt].
  - destruct (Z.even q) eqn:Eq.
    + split; [lia |]. split; [lia | auto].
    + split; [lia |]. split; [lia |]. intros _.
      replace (q + 1) with (Z.succ q) by lia.
      rewrite Z.even_succ, <- Z.negb_even, Eq. reflexivity.
  - split; [lia |]. split; lia.
  - split; [lia |]. split; lia.
Qed.

Lemma nearest_integer_fraction (n : Z) (d : positive) (k : Z) :
  2 * Z.abs (n - k * Zpos d) <= Zpos d ->
  (2 * Z.abs (n - k * Zpos d) = Zpos d -> Z.even k = true) ->
  Spec.nearest_integer (n # d) k.
Proof.
  intros Hle Heven.
  assert (E : ((n # d) - inject_Z k == (n - k * Zpos d) # d)%Q).
  { unfold Qeq, Qminus, Qplus, Qopp, inject_Z. cbn [Qnum Qden].
    rewrite ?Pos.mul_1_r. ring. }
  unfold Spec.nearest_integer. rewrite E.
  unfold Qabs, Qle, Qeq. cbn [Qnum Qden].
  split; [lia |]. intros H. apply Heven. lia.
Qed.

Lemma hundredfold (n : Z) (d : positive) :
  (100 * (n # d) == (100 * n) # d)%Q.
Proof. unfold Qeq, Qmult. cbn [Qnum Qden]. reflexivity. Qed.

Lemma nearest_integer_eq (q q' : Q) (k : Z) :
  (q == q')%Q -> Spec.nearest_integer q k -> Spec.nearest_integer q' k.
Proof. unfold Spec.nearest_integer. intros E. now rewrite E. Qed.

(** [round] to two places returns the float nearest to the nearest
    hundredth. *)
Lemma round2_two_places (x : float) : Spec.two_decimal_places x (round2 x).
Proof.
  unfold Spec.two_decimal_places, Spec.finite, round2, Spec.exact.
  destruct (Prim2SF x) as [s | s | | s m e] eqn:Hx; try reflexivity.
  - (* a zero *)
    exists 0. split.
    + apply (nearest_integer_eq (0 # 1)); [unfold Qeq; simpl; ring |].
      apply nearest_integer_fraction; simpl; lia.
    + cbn [Z.eqb sign_clear].
      rewrite <- (SF2Prim_Prim2SF x), Hx. now destruct s.
  - (* a finite float *)
    assert (Hresult : forall k,
               0 <= k ->
               match k with
               | Z.pos p =>
                   SF2Prim (SFdiv prec emax (S754_finite s p 0) (SF_of_Z 100))
               | _ => if s then neg_zero else zero
               end
               = (if cond_Zopp s k =? 0
                  then if sign_clear (S754_finite s m e) then zero
                       else neg_zero
                  else int_truediv (cond_Zopp s k) 100)).
    { intros [| p | p] Hk; [now destruct s | now destruct s | lia]. }
    destruct e as [| pe | pe].
    + exists (cond_Zopp s (100 * Z.pos m)). split; [| apply Hresult; lia].
      apply (nearest_integer_eq ((100 * cond_Zopp s (Z.pos m)) # 1));
        [symmetry; apply hundredfold |].
      apply nearest_integer_fraction; destruct s; unfold cond_Zopp; lia.
    + assert (Hp : 0 < 2 ^ Z.pos pe) by (apply Z.pow_pos_nonneg; lia).
      exists (cond_Zopp s (100 * Z.pos m * 2 ^ Z.pos pe)).
      split; [| apply Hresult; lia].
      apply (nearest_integer_eq
               ((100 * (cond_Zopp s (Z.pos m) * 2 ^ Z.pos pe)) # 1));
        [symmetry; apply hundredfold |].
      apply nearest_integer_fraction; destruct s; unfold cond_Zopp; lia.
    + assert (Hp : 0 < 2 ^ Z.pos pe) by (apply Z.pow_pos_nonneg; lia).
      destruct (round_half_even_nearest (100 * Z.pos m) (2 ^ Z.pos pe))
        as [H0 [Hle Heven]]; [lia | exact Hp |].
      exists (cond_Zopp s (round_half_even (100 * Z.pos m) (2 ^ Z.pos pe))).
      split; [| apply Hresult; exact H0].
      apply (nearest_integer_eq
               ((100 * cond_Zopp s (Z.pos m)) # (2 ^ pe)%positive));
        [symmetry; apply hundredfold |].
      assert (E2 : Z.pos (2 ^ pe) = 2 ^ Z.pos pe) by apply Pos2Z.inj_pow.
      assert (E3 : forall k,
                 Z.abs (100 * cond_Zopp s (Z.pos m)
                        - cond_Zopp s k * 2 ^ Z.pos pe)
                 = Z.abs (100 * Z.pos m - k * 2 ^ Z.pos pe)).
      { intros k. destruct s; unfold cond_Zopp; [| reflexivity].
        replace (100 * - Z.pos m - - k * 2 ^ Z.pos pe)
          with (- (100 * Z.pos m - k * 2 ^ Z.pos pe)) by ring.
        apply Z.abs_opp. }
      apply nearest_integer_fraction; rewrite E2, E3.
      * exact Hle.
      * intros H. destruct s; unfold cond_Zopp;
          [rewrite Z.even_opp |]; now apply Heven.
Qed.

(** C7: [predict_next_value] returns [None] for fewer than two values;
    otherwise it fits the least-squares line of [detect_trend] to the
    last ten values (all of them when fewer) and returns the last value
    when the regression denominator is zero, and else the line, one
    step past the window, rounded to two decimal places: the float
    nearest to [k / 100] for the integer [k] nearest to a hundred times
    the value of the line.  The prediction after [1,2,3,4,5] is [6.0],
    after [1,2,4] it is [5.33] and after [0.5,0.25,0.125] it is
    [-0.08]. *)
Theorem predict_next_linear :
  (forall values,
      predict_next_value values = Ok (Spec.prediction values))
  /\ (forall values,
         len values < 2 -> predict_next_value values = Ok None)
  /\ (forall values,
         2 <= len values ->
         len (Spec.recent values) = Z.min (len values) 10
         /\ Spec.recent values
            = skipn (List.length values - 10) values
         /\ predict_next_value values
            = Ok (Some
                    (if (Spec.index_variation (len (Spec.recent values)) =? 0)%float
                     then last (Spec.recent values) 0%float
                     else round2 (Spec.next_on_line (Spec.recent values)))))
  /\ predict_next_value [1; 2; 3; 4; 5]%float = Ok (Some 6%float)
  /\ (forall x, Spec.two_decimal_places x (round2 x))
  /\ (forall values,
         2 <= len values ->
         (Spec.index_variation (len (Spec.recent values)) =? 0)%float = false ->
         exists r,
           predict_next_value values = Ok (Some r)
           /\ Spec.two_decimal_places
                (Spec.next_on_line (Spec.recent values)) r)
  /\ predict_next_value [1; 2; 4]%float
     = Ok (Some 0x1.551eb851eb852p+2%float)
  /\ predict_next_value [0.5; 0.25; 0.125]%float
     = Ok (Some (-0x1.47ae147ae147bp-4)%float).
Proof.
  split; [exact predict_next_refines |].
  split.
  { intros values H. rewrite predict_next_refines. unfold Spec.prediction.
    destruct (Z.ltb_spec (len values) 2); [reflexivity | lia]. }
  split.
  { intros values H. split; [| split; [reflexivity |]].
    - unfold len. rewrite recent_length. lia.
    - rewrite predict_next_refines. unfold Spec.prediction.
      destruct (Z.ltb_spec (len values) 2); [lia |]. cbv zeta.
      now destruct (Spec.index_variation (len (Spec.recent values)) =? 0)%float. }
  split; [vm_compute; reflexivity |].
  split; [exact round2_two_places |].
  split.
  { intros values H Hden. rewrite predict_next_refines.
    unfold Spec.prediction.
    destruct (Z.ltb_spec (len values) 2); [lia |]. cbv zeta. rewrite Hden.
    eexists. split; [reflexivity | apply round2_two_places]. }
  split; vm_compute; reflexivity.
Qed.

End Prediction.

(* ================================================================== *)
(** * Anomalies                                                        *)
(* ================================================================== *)

Section Anomalies.

Import Analyzer.

Lemma integer_sqrt_nonneg (n m : Z) :
  0 <= Statistics._integer_sqrt_of_frac_rto n m.
Proof.
  unfold Statistics._integer_sqrt_of_frac_rto.
  apply Z.lor_nonneg. split; [apply Z.sqrt_nonneg |].
  destruct (_ =? n); lia.
Qed.

(** A division of two ints that returns returns the rounded
    quotient. *)
Lemma long_true_divide_ok (a b : Z) (q : float) :
  long_true_divide a b = Ok q -> q = int_truediv a b.
Proof.
  unfold long_true_divide, int_truediv. destruct (b =? 0); [discriminate |].
  destruct (SFdiv prec emax (SF_of_Z a) (SF_of_Z b));
    intros H; try discriminate; now injection H.
Qed.

Lemma float_sqrt_sign_clear (n m : Z) (s : float) :
  Statistics._float_sqrt_of_frac n m = Ok s -> sign_clear (Prim2SF s) = true.
Proof.
  unfold Statistics._float_sqrt_of_frac.
  match goal with |- context [0 <=? ?q] => destruct (Z.leb_spec 0 q) as [Hq | Hq] end;
    intros H; apply long_true_divide_ok in H; subst s.
  - apply int_truediv_sign_clear; [| lia].
    apply Z.shiftl_nonneg, integer_sqrt_nonneg.
  - apply int_truediv_sign_clear; [apply integer_sqrt_nonneg |].
    rewrite Z.shiftl_1_l. apply Z.pow_pos_nonneg; lia.
Qed.

(** The standard deviation that the library returns is never
    negative. *)
Lemma stdev_sign_clear (values : list float) (s : float) :
  Statistics.stdev values = Ok s -> sign_clear (Prim2SF s) = true.
Proof.
  unfold Statistics.stdev.
  destruct (Statistics._ss values) as [ss | x];
    destruct (len values <? 2); try discriminate.
  apply float_sqrt_sign_clear.
Qed.

(** ** The library's mean and deviation are the sample mean and the
    sample deviation *)








(** The loop appends, in order, the indexes whose z-score exceeds the
    threshold. *)
Lemma anomalies_loop_filter (mean stdev z : float) (xs : list float) :
  (stdev =? 0)%float = false ->
  sign_clear (Prim2SF stdev) = true ->
  forall (a : nat) (acc : list Z),
    anomalies_loop mean stdev z
      (combine (map Z.of_nat (seq a (List.length xs))) xs) acc
    = Ok (acc ++
          filter
            (fun i =>
               (z <? Spec.z_score mean stdev
                       (nth (Z.to_nat i - a) xs 0))%float)
            (map Z.of_nat (seq a (List.length xs)))).
Proof.
  intros Hnz Hsign.
  induction xs as [| x rest IH]; intros a acc.
  - simpl. now rewrite app_nil_r.
  - cbn [List.length seq map combine anomalies_loop filter].
    rewrite (truediv_nonzero _ _ Hnz). cbn [bind].
    rewrite (abs_div_sign_clear _ _ Hsign).
    rewrite IH. rewrite Nat2Z.id, Nat.sub_diag. cbn [nth].
    fold (Spec.z_score mean stdev x).
    rewrite (filter_ext_in
               (fun i => (z <? Spec.z_score mean stdev
                                 (nth (Z.to_nat i - a) (x :: rest) 0))%float)
               (fun i => (z <? Spec.z_score mean stdev
                                 (nth (Z.to_nat i - S a) rest 0))%float)).
    + destruct (z <? Spec.z_score mean stdev x)%float.
      * now rewrite <- app_assoc.
      * reflexivity.
    + intros i Hi. apply in_map_iff in Hi. destruct Hi as [k [<- Hk]].
      apply in_seq in Hk. rewrite Nat2Z.id.
      replace (k - a)%nat with (S (k - S a)) by lia. reflexivity.
Qed.

(** The anomalies computed are those of the specification, on every
    list and at every threshold. *)
Lemma detect_anomalies_refines (values : list float) (z : float) :
  detect_anomalies values z = Spec.anomalies values z.
Proof.
  unfold detect_anomalies, Spec.anomalies.
  destruct (len values <? 3); [reflexivity |].
  destruct (Statistics.mean values) as [mean | e msg]; [| reflexivity].
  cbn [bind].
  destruct (Statistics.stdev values) as [stdev | e msg] eqn:Hstdev;
    [| reflexivity].
  cbn [bind].
  destruct (stdev =? 0)%float eqn:Hnz; [reflexivity |].
  unfold enumerate, range, len. rewrite Nat2Z.id.
  rewrite (anomalies_loop_filter mean stdev z values Hnz
             (stdev_sign_clear values stdev Hstdev) 0 []).
  cbn [app]. apply filter_ext. intros i. now rewrite Nat.sub_0_r.
Qed.



Lemma mean_returns (values : list float) :
  1 <= len values -> exists mean, Statistics.mean values = Ok mean.
Proof.
  intros H. unfold Statistics.mean.
  destruct (Z.ltb_spec (len values) 1); [lia |].
  destruct (Statistics._sum values) as [q | t].
  - eexists; reflexivity.
  - rewrite truediv_int_nonzero by lia. eexists; reflexivity.
Qed.




End Anomalies.

(* ================================================================== *)
(** * Percentiles                                                      *)
(* ================================================================== *)

Section Percentiles.

Import Analyzer.

(** On a float that is not negative, [int] is the integer part. *)
Lemma floor_of_truncation (x : float) (t : Z) :
  sign_clear (Prim2SF x) = true -> int_of_float x = Ok t -> Spec.floor x = t.
Proof.
  unfold int_of_float, Spec.floor.
  destruct (Prim2SF x) as [s | s | | s m e]; try discriminate.
  - intros _ H. now injection H.
  - destruct s; [discriminate |]. intros _ H. injection H as <-.
    unfold cond_Zopp. now destruct e.
Qed.

(** The index of a percentile below 100 lies inside the list: the
    rounding of [(n - 1) * p / 100] cannot carry its integer part up to
    [n - 1], save in a list of one value. *)
Lemma percentile_index (n p : Z) :
  1 <= n <= PY_SSIZE_T_MAX -> 0 <= p <= 99 ->
  exists lower,
    int_of_float (int_truediv ((n - 1) * p) 100) = Ok lower
    /\ Spec.floor (int_truediv ((n - 1) * p) 100) = lower
    /\ 0 <= lower < n
    /\ (2 <= n -> lower + 1 < n).
Proof.
  intros Hn Hp. unfold PY_SSIZE_T_MAX in Hn.
  assert (Ha : 0 <= (n - 1) * p <= (n - 1) * 99) by nia.
  assert (H63 : (2 : Z) ^ 63 * 128 <= 2 ^ 1022)
    by (change ((2 : Z) ^ 63 * 128) with ((2 : Z) ^ 70);
        apply Z.pow_le_mono_r; lia).
  assert (H100 : (100 : Z) < 2 ^ 1021)
    by (apply Z.lt_le_trans with (2 ^ 7); [reflexivity |];
        apply Z.pow_le_mono_r; lia).
  destruct (int_truediv_truncated ((n - 1) * p) 100) as [t [Et [Ht0 Hbound]]];
    [lia | lia |].
  exists t. split; [exact Et |]. split.
  - apply floor_of_truncation; [| exact Et].
    apply int_truediv_sign_clear; lia.
  - change ((2 : Z) ^ 52) with 4503599627370496 in Hbound. lia.
Qed.

(** [_percentile] is the interpolated percentile of the
    specification. *)
Lemma percentile_refines (sorted_values : list float) (p : Z) :
  1 <= len sorted_values <= PY_SSIZE_T_MAX -> 0 <= p <= 99 ->
  _percentile sorted_values p = Ok (Spec.percentile sorted_values p).
Proof.
  intros Hn Hp. unfold _percentile, Spec.percentile.
  destruct sorted_values as [| v rest] eqn:E; [unfold len in Hn; simpl in Hn; lia |].
  rewrite <- E in *. clear E v rest.
  destruct (percentile_index (len sorted_values) p Hn Hp)
    as [lower [Eint [Efloor [Hrange Hupper]]]].
  rewrite Eint. cbn [bind]. cbv zeta. rewrite Efloor.
  rewrite (index_within sorted_values lower 0%float Hrange).
  destruct (Z.leb_spec (len sorted_values) (lower + 1)) as [Hclamp | Hfit];
    [reflexivity |].
  cbn [bind].
  rewrite (index_within sorted_values (lower + 1) 0%float) by lia.
  reflexivity.
Qed.

(** ** Sorting *)



Lemma insert_sorted_permutation (x : float) (ys : list float) :
  Permutation (insert_sorted x ys) (x :: ys).
Proof.
  induction ys as [| y rest IH]; simpl.
  - apply Permutation_refl.
  - destruct (x <? y)%float; [apply Permutation_refl |].
    apply perm_trans with (y :: x :: rest); [| apply perm_swap].
    now apply perm_skip.
Qed.


(** [sorted] rearranges its argument, with no value below the one
    before it. *)
Lemma sorted_permutation (xs : list float) : Permutation (sorted xs) xs.
Proof.
  unfold sorted.
  assert (H : forall acc, Permutation
                            (fold_left (fun acc x => insert_sorted x acc) xs acc)
                            (xs ++ acc)).
  { induction xs as [| x rest IH]; intros acc; simpl.
    - apply Permutation_refl.
    - eapply perm_trans; [apply IH |].
      eapply perm_trans;
        [apply Permutation_app_head, insert_sorted_permutation |].
      apply Permutation_sym, Permutation_middle. }
  specialize (H []). now rewrite app_nil_r in H.
Qed.


Lemma sorted_len (xs : list float) : len (sorted xs) = len xs.
Proof.
  unfold len. f_equal. apply Permutation_length, sorted_permutation.
Qed.

(** ** The four direct statistics *)

Lemma median_refines (values : list float) :
  1 <= len values ->
  Statistics.median values = Ok (Spec.median (sorted values)).
Proof.
  intros Hn. unfold Statistics.median, Spec.median.
  rewrite <- (sorted_len values) in Hn.
  set (data := sorted values) in *.
  destruct (Z.eqb_spec (len data) 0); [lia |].
  assert (H2 : 0 <= len data / 2 < len data)
    by (split; [apply Z.div_pos; lia | apply Z.div_lt; lia]).
  destruct (Z.eqb_spec (len data mod 2) 1) as [Hodd | Heven].
  - apply index_within. exact H2.
  - assert (Hmod : len data mod 2 = 0)
      by (pose proof (Z.mod_pos_bound (len data) 2); lia).
    assert (H1 : 0 <= len data / 2 - 1).
    { pose proof (Z.div_mod (len data) 2). lia. }
    rewrite (index_within data (len data / 2 - 1) 0%float) by lia.
    cbn [bind].
    rewrite (index_within data (len data / 2) 0%float) by lia.
    cbn [bind]. reflexivity.
Qed.

Lemma fold_select_in (choose : float -> float -> bool) (rest : list float) :
  forall x,
    In (fold_left (fun m y => if choose m y then y else m) rest x) (x :: rest).
Proof.
  induction rest as [| y rest' IH]; intros x; simpl.
  - now left.
  - destruct (IH (if choose x y then y else x)) as [H | H].
    + rewrite <- H. destruct (choose x y); auto.
    + right. now right.
Qed.

Lemma min_returns (values : list float) :
  1 <= len values -> exists v, Py.min values = Ok v /\ In v values.
Proof.
  destruct values as [| x rest]; [unfold len; simpl; lia |]. intros _.
  eexists. split; [reflexivity |].
  apply (fold_select_in (fun m y => (y <? m)%float)).
Qed.

Lemma max_returns (values : list float) :
  1 <= len values -> exists v, Py.max values = Ok v /\ In v values.
Proof.
  destruct values as [| x rest]; [unfold len; simpl; lia |]. intros _.
  eexists. split; [reflexivity |].
  apply (fold_select_in (fun m y => (m <? y)%float)).
Qed.

(** The block of nine statistics of a non-empty list. *)
Lemma calculate_percentiles_block (values : list float) :
  1 <= len values <= PY_SSIZE_T_MAX ->
  exists v_min v_max v_mean,
    Py.min values = Ok v_min /\ In v_min values
    /\ Py.max values = Ok v_max /\ In v_max values
    /\ Statistics.mean values = Ok v_mean
    /\ Statistics.median values = Ok (Spec.median (sorted values))
    /\ calculate_percentiles values
       = Ok [("min", v_min); ("max", v_max); ("mean", v_mean);
             ("median", Spec.median (sorted values));
             ("p25", Spec.percentile (sorted values) 25);
             ("p75", Spec.percentile (sorted values) 75);
             ("p90", Spec.percentile (sorted values) 90);
             ("p95", Spec.percentile (sorted values) 95);
             ("p99", Spec.percentile (sorted values) 99)]%string.
Proof.
  intros Hn.
  destruct (min_returns values) as [v_min [Hmin Hmin_in]]; [lia |].
  destruct (max_returns values) as [v_max [Hmax Hmax_in]]; [lia |].
  destruct (mean_returns values) as [v_mean Hmean]; [lia |].
  pose proof (median_refines values ltac:(lia)) as Hmedian.
  exists v_min, v_max, v_mean.
  repeat (split; [assumption |]).
  unfold calculate_percentiles.
  destruct values as [| v rest] eqn:E; [unfold len in Hn; simpl in Hn; lia |].
  rewrite <- E in *. clear E v rest.
  rewrite Hmin, Hmax, Hmean, Hmedian. cbn [bind].
  assert (Hs : 1 <= len (sorted values) <= PY_SSIZE_T_MAX)
    by (rewrite sorted_len; exact Hn).
  rewrite !percentile_refines by (try exact Hs; lia).
  reflexivity.
Qed.



End Percentiles.

(* ================================================================== *)
(** * The analysis of a series                                         *)
(* ================================================================== *)

Section Analysis.

Import Analyzer.

Lemma for_each_length {A B : Type} (body : A -> result B) (xs : list A) :
  forall ys, for_each body xs = Ok ys -> List.length ys = List.length xs.
Proof.
  induction xs as [| x rest IH]; simpl; intros ys H.
  - injection H as <-. reflexivity.
  - destruct (body x) as [y | e msg]; [| discriminate]. simpl in H.
    destruct (for_each body rest) as [ys' | e msg]; [| discriminate].
    simpl in H. injection H as <-. simpl. f_equal. now apply IH.
Qed.

Lemma extract_values_step (record : dict) (rest : list dict)
  (key : string) (acc : list float) :
  extract_values (record :: rest) key acc
  = match Spec.numeric_at record key with
    | Some value =>
        x <- float_builtin value ;;
        extract_values rest key (acc ++ [x])
    | None => extract_values rest key acc
    end.
Proof.
  cbn [extract_values]. unfold Spec.numeric_at.
  destruct (dict_get record "metric_data" (PyDict [])) as
    [| b | z | f | t | l | payload]; try reflexivity.
  destruct (dict_lookup payload key) as [value |]; [| reflexivity].
  now destruct (is_int_or_float value).
Qed.

Lemma numbers_cons (record : dict) (rest : list dict) (key : string) :
  Spec.numbers (record :: rest) key
  = match Spec.numeric_at record key with
    | Some value => value :: Spec.numbers rest key
    | None => Spec.numbers rest key
    end.
Proof.
  unfold Spec.numbers. cbn [flat_map].
  now destruct (Spec.numeric_at record key).
Qed.

(** The extraction loop converts, in order, the numbers of the records
    that are not skipped. *)
Lemma extract_values_numbers (records : list dict) (key : string) :
  forall acc,
    extract_values records key acc
    = (xs <- for_each float_builtin (Spec.numbers records key) ;;
       Ok (acc ++ xs)).
Proof.
  induction records as [| record rest IH]; intros acc.
  - simpl. now rewrite app_nil_r.
  - rewrite extract_values_step, numbers_cons.
    destruct (Spec.numeric_at record key) as [value |]; [| apply IH].
    cbn [for_each].
    destruct (float_builtin value) as [x | e msg]; [| reflexivity].
    cbn [bind]. rewrite IH.
    destruct (for_each float_builtin (Spec.numbers rest key)) as [xs | e msg];
      [| reflexivity].
    cbn [bind]. now rewrite <- app_assoc.
Qed.

Lemma numbers_app (before after : list dict) (key : string) :
  Spec.numbers (before ++ after) key
  = Spec.numbers before key ++ Spec.numbers after key.
Proof. unfold Spec.numbers. apply flat_map_app. Qed.

Lemma numbers_length (records : list dict) (key : string) :
  len (Spec.numbers records key) <= len records.
Proof.
  unfold len. induction records as [| record rest IH]; simpl; [lia |].
  rewrite length_app.
  destruct (Spec.numeric_at record key); simpl; lia.
Qed.

Lemma numbers_numeric (records : list dict) (key : string) (value : pyval) :
  In value (Spec.numbers records key) -> is_int_or_float value = true.
Proof.
  unfold Spec.numbers. rewrite in_flat_map. intros [record [_ Hin]].
  unfold Spec.numeric_at in Hin.
  destruct (dict_get record "metric_data" (PyDict [])) as
    [| b | z | f | t | l | payload]; try contradiction.
  destruct (dict_lookup payload key) as [v |]; [| contradiction].
  destruct (is_int_or_float v) eqn:E; [| contradiction].
  destruct Hin as [<- | []]. exact E.
Qed.

(** The conversion of a number raises for an int too large only. *)
Lemma float_builtin_number (value : pyval) :
  is_int_or_float value = true ->
  float_builtin value
  = if Spec.fits_float value then Ok (Spec.to_float value)
    else Raise OverflowError "int too large to convert to float".
Proof.
  destruct value; try discriminate; intros _; reflexivity.
Qed.

Lemma convert_numbers (values : list pyval) :
  (forall v, In v values -> is_int_or_float v = true) ->
  for_each float_builtin values
  = if forallb Spec.fits_float values
    then Ok (map Spec.to_float values)
    else Raise OverflowError "int too large to convert to float".
Proof.
  induction values as [| v rest IH]; intros Hnum; [reflexivity |].
  cbn [for_each forallb map].
  rewrite float_builtin_number by (apply Hnum; now left).
  destruct (Spec.fits_float v); [| reflexivity].
  cbn [bind andb]. rewrite IH by (intros w Hw; apply Hnum; now right).
  now destruct (forallb Spec.fits_float rest).
Qed.

(** [xs[-k:]] are the last [k] elements. *)
Lemma slice_from_last (xs : list float) (k : Z) :
  0 < k -> slice_from xs (- k) = skipn (List.length xs - Z.to_nat k) xs.
Proof.
  intros Hk. unfold slice_from, slice_bound.
  destruct (Z.ltb_spec (- k) 0); [| lia]. f_equal. unfold len. lia.
Qed.

Lemma moving_avg_5_refines (values : list float) :
  (if 5 <=? len values
   then averages <- calculate_moving_average values 5 ;;
        Ok (slice_from averages (-5))
   else Ok values)
  = Ok (Spec.recent_averages values).
Proof.
  unfold Spec.recent_averages.
  destruct (Z.leb_spec 5 (len values)) as [Hfit | Hshort];
    destruct (Z.ltb_spec (len values) 5) as [Hlt | Hge]; try lia;
    [| reflexivity].
  rewrite moving_average_refines by lia.
  destruct (Z.ltb_spec (len values) 5); [lia |].
  cbn [bind]. rewrite (slice_from_last _ 5) by lia. reflexivity.
Qed.

(** What [analyze_metric_history] returns, from the numbers of the
    records that are not skipped. *)
Lemma analyze_metric_history_refines (records : list dict) (key : string) :
  analyze_metric_history records key
  = match for_each float_builtin (Spec.numbers records key) with
    | Raise _ message => AnalysisError message
    | Ok [] => AnalysisError "No valid data points"
    | Ok values =>
        match calculate_percentiles values with
        | Ok statistics => Spec.analysis_of values statistics
        | Raise _ message => AnalysisError message
        end
    end.
Proof.
  unfold analyze_metric_history. rewrite extract_values_numbers.
  destruct (for_each float_builtin (Spec.numbers records key))
    as [values | e msg]; [| reflexivity].
  cbn [bind app]. destruct values as [| v rest] eqn:E; [reflexivity |].
  rewrite <- E. clear E.
  destruct (calculate_percentiles values) as [statistics | e msg];
    [| reflexivity].
  cbn [bind]. rewrite detect_trend_refines. cbn [bind].
  rewrite detect_anomalies_refines, moving_avg_5_refines. reflexivity.
Qed.

(** C9, the claim as it stands fails on an int too large for a float:
    the value is a number and is not skipped, yet the conversion raises
    and the result is the error dict of the [except] clause, neither the
    "no data" result nor an analysis. *)
Lemma analysis_int_too_large :
  let record := [("metric_data"%string,
                  PyDict [("usage_percent"%string, PyInt (10 ^ 400))])] in
  Spec.numbers [record] "usage_percent" = [PyInt (10 ^ 400)]
  /\ analyze_metric_history [record] "usage_percent"
     = AnalysisError "int too large to convert to float"
  /\ analyze_metric_history [record] "usage_percent"
     <> AnalysisError "No valid data points"
  /\ ~ (exists n statistics trend count averages,
          analyze_metric_history [record] "usage_percent"
          = Analysis n statistics trend count averages).
Proof.
  cbv zeta.
  assert (E : analyze_metric_history
                [[("metric_data"%string,
                   PyDict [("usage_percent"%string, PyInt (10 ^ 400))])]]
                "usage_percent"
              = AnalysisError "int too large to convert to float")
    by (vm_compute; reflexivity).
  split; [reflexivity |]. split; [exact E |]. rewrite E.
  split; [discriminate |].
  intros [n [statistics [trend [count [averages H]]]]]. discriminate H.
Qed.

(** C9, as amended: for every list of records (of at most
    [sys.maxsize], as every list is) and every key,
    [analyze_metric_history] takes from each record the number under
    the key in its payload and skips the records without one.  When one
    of these numbers is an int too large for a float, the result is the
    error dict with the message of the conversion; when no number
    remains, it is the "no data" dict; otherwise it is the dict of the
    number of values, the percentile block, the trend, the number of
    anomalies and the last five moving averages over windows of five
    (the values themselves when there are fewer than five).  In every
    case a dict is returned and nothing is raised. *)
Theorem analysis_of_series (records : list dict) (key : string) :
  len records <= PY_SSIZE_T_MAX ->
  let numbers := Spec.numbers records key in
  let values := map Spec.to_float numbers in
  (forallb Spec.fits_float numbers = false ->
   analyze_metric_history records key
   = AnalysisError "int too large to convert to float")
  /\ (forallb Spec.fits_float numbers = true -> numbers = [] ->
      analyze_metric_history records key
      = AnalysisError "No valid data points")
  /\ (forallb Spec.fits_float numbers = true -> numbers <> [] ->
      exists statistics,
        calculate_percentiles values = Ok statistics
        /\ analyze_metric_history records key
           = Analysis (len values) statistics
               (Spec.trend values default_threshold)
               (len (Spec.anomalies values default_std_threshold))
               (Spec.recent_averages values)).
Proof.
  intros Hn numbers values.
  rewrite analyze_metric_history_refines.
  rewrite convert_numbers by apply numbers_numeric.
  fold numbers.
  split; [| split].
  - intros Hfits. now rewrite Hfits.
  - intros Hfits Hnone. rewrite Hfits. fold values.
    unfold values. now rewrite Hnone.
  - intros Hfits Hsome. rewrite Hfits. fold values.
    assert (Hlen : 1 <= len values <= PY_SSIZE_T_MAX).
    { unfold values. rewrite len_map.
      pose proof (numbers_length records key). fold numbers in H.
      split; [| lia].
      destruct numbers; [congruence | unfold len; simpl; lia]. }
    destruct (calculate_percentiles_block values Hlen)
      as [v_min [v_max [v_mean [_ [_ [_ [_ [_ [_ Hblock]]]]]]]]].
    rewrite Hblock. eexists. split; [reflexivity |].
    destruct values; [unfold len in Hlen; simpl in Hlen; lia | reflexivity].
Qed.

Lemma analysis_of_series_witness :
  len Samples.mixed_records <= PY_SSIZE_T_MAX
  /\ let numbers := Spec.numbers Samples.mixed_records "usage_percent" in
     let values := map Spec.to_float numbers in
     (forallb Spec.fits_float numbers = false ->
      analyze_metric_history Samples.mixed_records "usage_percent"
      = AnalysisError "int too large to convert to float")
     /\ (forallb Spec.fits_float numbers = true -> numbers = [] ->
         analyze_metric_history Samples.mixed_records "usage_percent"
         = AnalysisError "No valid data points")
     /\ (forallb Spec.fits_float numbers = true -> numbers <> [] ->
         exists statistics,
           calculate_percentiles values = Ok statistics
           /\ analyze_metric_history Samples.mixed_records "usage_percent"
              = Analysis (len values) statistics
                  (Spec.trend values default_threshold)
                  (len (Spec.anomalies values default_std_threshold))
                  (Spec.recent_averages values)).
Proof.
  assert (H : len Samples.mixed_records <= PY_SSIZE_T_MAX)
    by (vm_compute; discriminate).
  split; [exact H |].
  exact (analysis_of_series Samples.mixed_records "usage_percent" H).
Defined.

(** A loop over a list that does not raise did not raise on any part
    of it. *)
Lemma for_each_app_ok {A B : Type} (body : A -> result B)
  (xs : list A) (y : A) (zs : list A) :
  forall vs,
    for_each body (xs ++ y :: zs) = Ok vs ->
    exists vb v va,
      vs = vb ++ v :: va
      /\ for_each body xs = Ok vb
      /\ body y = Ok v
      /\ for_each body zs = Ok va.
Proof.
  induction xs as [| x rest IH]; cbn [app for_each]; intros vs H.
  - destruct (body y) as [v | e msg]; [| discriminate]. cbn [bind] in H.
    destruct (for_each body zs) as [va | e msg]; [| discriminate].
    cbn [bind] in H. injection H as <-.
    exists [], v, va. auto.
  - destruct (body x) as [w | e msg]; [| discriminate]. cbn [bind] in *.
    destruct (for_each body (rest ++ y :: zs)) as [vs' | e msg];
      [| discriminate].
    cbn [bind] in H. injection H as <-.
    destruct (IH vs' eq_refl) as [vb [v [va [-> [Hb [Hy Hz]]]]]].
    rewrite Hb. cbn [bind]. exists (w :: vb), v, va. auto.
Qed.

(** C10: a record whose payload holds a boolean under the key is not
    skipped: the boolean passes the test for a number, and it adds
    [1.0] for [True] and [0.0] for [False] to the values, in the place
    of its record, and one to the number of data points reported.
    Among records whose other numbers convert to floats an analysis is
    returned, and it counts the boolean; the record on its own is
    analysed as the one data point [1.0] or [0.0]. *)
Theorem boolean_is_numeric (record : dict) (key : string)
  (payload : dict) (b : bool) :
  dict_get record "metric_data" (PyDict []) = PyDict payload ->
  dict_lookup payload key = Some (PyBool b) ->
  let x := if b then 1%float else 0%float in
  is_int_or_float (PyBool b) = true
  /\ Spec.numeric_at record key = Some (PyBool b)
  /\ float_builtin (PyBool b) = Ok x
  /\ (forall rest values,
         extract_values (record :: rest) key values
         = extract_values rest key (values ++ [x]))
  /\ (forall before after values,
         extract_values (before ++ record :: after) key [] = Ok values ->
         exists values_before values_after,
           values = values_before ++ x :: values_after
           /\ extract_values before key [] = Ok values_before
           /\ extract_values after key [] = Ok values_after)
  /\ (forall before after n statistics trend count averages,
         analyze_metric_history (before ++ record :: after) key
         = Analysis n statistics trend count averages ->
         n = len (Spec.numbers before key) + 1
             + len (Spec.numbers after key))
  /\ (forall before after,
         len (before ++ record :: after) <= PY_SSIZE_T_MAX ->
         forallb Spec.fits_float (Spec.numbers before key) = true ->
         forallb Spec.fits_float (Spec.numbers after key) = true ->
         let values :=
           map Spec.to_float (Spec.numbers before key) ++ x
           :: map Spec.to_float (Spec.numbers after key) in
         extract_values (before ++ record :: after) key [] = Ok values
         /\ exists statistics,
              calculate_percentiles values = Ok statistics
              /\ analyze_metric_history (before ++ record :: after) key
                 = Analysis (len (Spec.numbers before key) + 1
                             + len (Spec.numbers after key))
                     statistics
                     (Spec.trend values default_threshold)
                     (len (Spec.anomalies values default_std_threshold))
                     (Spec.recent_averages values))
  /\ analyze_metric_history [record] key
     = Analysis 1
         [("min", x); ("max", x); ("mean", x); ("median", x); ("p25", x);
          ("p75", x); ("p90", x); ("p95", x); ("p99", x)]%string
         "stable" 0 [x].
Proof.
  intros Hdata Hvalue x.
  assert (Hat : Spec.numeric_at record key = Some (PyBool b))
    by (unfold Spec.numeric_at; now rewrite Hdata, Hvalue).
  split; [reflexivity |]. split; [exact Hat |].
  split; [now destruct b |]. split; [| split; [| split; [| split]]].
  - intros rest values. rewrite extract_values_step, Hat.
    now destruct b.
  - intros before after values.
    rewrite !extract_values_numbers, numbers_app, numbers_cons, Hat.
    destruct (for_each float_builtin
                (Spec.numbers before key ++ PyBool b :: Spec.numbers after key))
      as [vs | e msg] eqn:E; [| discriminate].
    cbn [bind app]. intros H. injection H as <-.
    destruct (for_each_app_ok _ _ _ _ _ E) as [vb [v [va [-> [Hb [Hy Hz]]]]]].
    exists vb, va. rewrite Hb, Hz. cbn [bind app].
    assert (v = x) by (subst x; destruct b; simpl in Hy; congruence).
    subst v. auto.
  - intros before after n statistics trend count averages.
    rewrite analyze_metric_history_refines, numbers_app, numbers_cons, Hat.
    destruct (for_each float_builtin
                (Spec.numbers before key ++ PyBool b :: Spec.numbers after key))
      as [vs | e msg] eqn:E; [| discriminate].
    apply for_each_length in E.
    destruct vs as [| v vs']; [discriminate |].
    destruct (calculate_percentiles (v :: vs')); [| discriminate].
    unfold Spec.analysis_of. intros H. injection H as <- _ _ _ _.
    unfold len. rewrite E, length_app. simpl. lia.
  - intros before after Hlen Hfb Hfa values.
    assert (Hnum : forall v,
               In v (Spec.numbers before key ++ PyBool b
                     :: Spec.numbers after key) ->
               is_int_or_float v = true).
    { intros v Hv. apply in_app_or in Hv.
      destruct Hv as [Hv | [<- | Hv]];
        [now apply (numbers_numeric before key) | reflexivity
        | now apply (numbers_numeric after key)]. }
    assert (Hconv : for_each float_builtin
                      (Spec.numbers before key ++ PyBool b
                       :: Spec.numbers after key)
                    = Ok values).
    { rewrite (convert_numbers _ Hnum).
      rewrite forallb_app. cbn [forallb Spec.fits_float].
      rewrite Hfb, Hfa. cbn [andb]. rewrite map_app. cbn [map Spec.to_float].
      reflexivity. }
    assert (Hvalues : 1 <= len values <= PY_SSIZE_T_MAX).
    { pose proof (numbers_length before key) as Hb.
      pose proof (numbers_length after key) as Ha.
      unfold values, len in *.
      rewrite length_app in *. cbn [List.length] in *.
      rewrite !length_map. lia. }
    split.
    { rewrite extract_values_numbers, numbers_app, numbers_cons, Hat, Hconv.
      reflexivity. }
    destruct (calculate_percentiles_block values Hvalues)
      as [v_min [v_max [v_mean [_ [_ [_ [_ [_ [_ Hblock]]]]]]]]].
    eexists. split; [exact Hblock |].
    rewrite analyze_metric_history_refines, numbers_app, numbers_cons, Hat.
    rewrite Hconv, Hblock.
    assert (Hcount : len values
                     = len (Spec.numbers before key) + 1
                       + len (Spec.numbers after key)).
    { unfold values, len. rewrite length_app. cbn [List.length].
      rewrite !length_map. lia. }
    rewrite <- Hcount. unfold Spec.analysis_of.
    destruct values; [unfold len in Hvalues; simpl in Hvalues; lia |].
    reflexivity.
  - rewrite analyze_metric_history_refines.
    change [record] with ([] ++ record :: []).
    rewrite numbers_app, numbers_cons, Hat. subst x.
    destruct b; vm_compute; reflexivity.
Qed.

Lemma boolean_is_numeric_witness :
  let record := [("metric_data"%string,
                  PyDict [("up"%string, PyBool true)])] in
  is_int_or_float (PyBool true) = true
  /\ Spec.numeric_at record "up" = Some (PyBool true)
  /\ float_builtin (PyBool true) = Ok 1%float
  /\ (forall rest values,
         extract_values (record :: rest) "up" values
         = extract_values rest "up" (values ++ [1%float]))
  /\ (forall before after values,
         extract_values (before ++ record :: after) "up" [] = Ok values ->
         exists values_before values_after,
           values = values_before ++ 1%float :: values_after
           /\ extract_values before "up" [] = Ok values_before
           /\ extract_values after "up" [] = Ok values_after)
  /\ (forall before after n statistics trend count averages,
         analyze_metric_history (before ++ record :: after) "up"
         = Analysis n statistics trend count averages ->
         n = len (Spec.numbers before "up") + 1
             + len (Spec.numbers after "up"))
  /\ (forall before after,
         len (before ++ record :: after) <= PY_SSIZE_T_MAX ->
         forallb Spec.fits_float (Spec.numbers before "up") = true ->
         forallb Spec.fits_float (Spec.numbers after "up") = true ->
         let values :=
           map Spec.to_float (Spec.numbers before "up") ++ 1%float
           :: map Spec.to_float (Spec.numbers after "up") in
         extract_values (before ++ record :: after) "up" [] = Ok values
         /\ exists statistics,
              calculate_percentiles values = Ok statistics
              /\ analyze_metric_history (before ++ record :: after) "up"
                 = Analysis (len (Spec.numbers before "up") + 1
                             + len (Spec.numbers after "up"))
                     statistics
                     (Spec.trend values default_threshold)
                     (len (Spec.anomalies values default_std_threshold))
                     (Spec.recent_averages values))
  /\ analyze_metric_history [record] "up"
     = Analysis 1
         [("min", 1%float); ("max", 1%float); ("mean", 1%float);
          ("median", 1%float); ("p25", 1%float); ("p75", 1%float);
          ("p90", 1%float); ("p95", 1%float); ("p99", 1%float)]%string
         "stable" 0 [1%float].
Proof.
  cbv zeta.
  exact (boolean_is_numeric
           [("metric_data"%string, PyDict [("up"%string, PyBool true)])]
           "up" [("up"%string, PyBool true)] true eq_refl eq_refl).
Defined.

(** Two booleans and a float: three data points. *)
Example analysis_counts_booleans :
  exists statistics trend count,
    analyze_metric_history
      [[("metric_data"%string, PyDict [("up"%string, PyBool true)])];
       [("metric_data"%string, PyDict [("up"%string, PyBool false)])];
       [("metric_data"%string, PyDict [("up"%string, PyFloat 1)])]]
      "up"
    = Analysis 3 statistics trend count [1; 0; 1]%float.
Proof. vm_compute. eexists _, _, _. reflexivity. Qed.

End Analysis.

(* ================================================================== *)
(** * The order of text and of timestamps                     *)
(* ================================================================== *)

Import Datetime Store.

Section StringOrder.

Lemma ascii_compare_trans (a b c : ascii) :
  Ascii.compare a b = Lt -> Ascii.compare b c = Lt -> Ascii.compare a c = Lt.
Proof.
  unfold Ascii.compare. rewrite !N.compare_lt_iff. apply N.lt_trans.
Qed.

Lemma ascii_compare_refl (a : ascii) : Ascii.compare a a = Eq.
Proof. unfold Ascii.compare. apply N.compare_refl. Qed.

Lemma string_compare_refl (s : string) : String.compare s s = Eq.
Proof.
  induction s as [| a s IH]; simpl; [reflexivity |].
  now rewrite ascii_compare_refl.
Qed.

(** The byte order of text is transitive. *)
Lemma string_compare_trans (s1 : string) :
  forall s2 s3,
    String.compare s1 s2 = Lt -> String.compare s2 s3 = Lt ->
    String.compare s1 s3 = Lt.
Proof.
  induction s1 as [| a s1 IH]; intros [| b s2] [| c s3]; simpl;
    try discriminate; try reflexivity.
  destruct (Ascii.compare a b) eqn:Eab; try discriminate;
    destruct (Ascii.compare b c) eqn:Ebc; try discriminate; intros H12 H23.
  - apply Ascii.compare_eq_iff in Eab, Ebc. subst.
    rewrite ascii_compare_refl. now apply (IH s2).
  - apply Ascii.compare_eq_iff in Eab. subst. now rewrite Ebc.
  - apply Ascii.compare_eq_iff in Ebc. subst. now rewrite Eab.
  - now rewrite (ascii_compare_trans a b c).
Qed.

Lemma string_leb_trans (s1 s2 s3 : string) :
  String.leb s1 s2 = true -> String.leb s2 s3 = true ->
  String.leb s1 s3 = true.
Proof.
  unfold String.leb.
  destruct (String.compare s1 s2) eqn:E12; try discriminate;
    destruct (String.compare s2 s3) eqn:E23; try discriminate; intros _ _.
  - apply String.compare_eq_iff in E12, E23. subst.
    now rewrite string_compare_refl.
  - apply String.compare_eq_iff in E12. subst. now rewrite E23.
  - apply String.compare_eq_iff in E23. subst. now rewrite E12.
  - now rewrite (string_compare_trans s1 s2 s3).
Qed.

Lemma string_ltb_leb (s1 s2 : string) :
  String.ltb s1 s2 = true -> String.leb s1 s2 = true.
Proof.
  unfold String.ltb, String.leb. now destruct (String.compare s1 s2).
Qed.

Lemma string_not_ltb_leb (s1 s2 : string) :
  String.ltb s1 s2 = false -> String.leb s2 s1 = true.
Proof.
  unfold String.ltb, String.leb. rewrite (String.compare_antisym s2 s1).
  now destruct (String.compare s1 s2).
Qed.

Lemma string_ltb_not_leb (s1 s2 : string) :
  String.ltb s1 s2 = negb (String.leb s2 s1).
Proof.
  unfold String.ltb, String.leb. rewrite (String.compare_antisym s2 s1).
  now destruct (String.compare s1 s2).
Qed.

End StringOrder.

Section Isoformat.

Lemma digit_compare (a b : Z) :
  0 <= a < 10 -> 0 <= b < 10 ->
  Ascii.compare (digit a) (digit b) = (a ?= b).
Proof.
  intros Ha Hb.
  assert (Ea : a = 0 \/ a = 1 \/ a = 2 \/ a = 3 \/ a = 4 \/ a = 5 \/ a = 6
               \/ a = 7 \/ a = 8 \/ a = 9) by lia.
  assert (Eb : b = 0 \/ b = 1 \/ b = 2 \/ b = 3 \/ b = 4 \/ b = 5 \/ b = 6
               \/ b = 7 \/ b = 8 \/ b = 9) by lia.
  repeat (destruct Ea as [-> | Ea]); try subst a;
    repeat (destruct Eb as [-> | Eb]); try subst b; reflexivity.
Qed.

Lemma compare_lexicographic (w da db ra rb : Z) :
  0 <= ra < w -> 0 <= rb < w ->
  (ra + w * da ?= rb + w * db) = lexicographic (da ?= db) (ra ?= rb).
Proof.
  intros Ha Hb. unfold lexicographic.
  destruct (Z.compare_spec da db) as [-> | Hlt | Hgt].
  - destruct (Z.compare_spec ra rb); [apply Z.compare_eq_iff | apply Z.compare_lt_iff | apply Z.compare_gt_iff]; lia.
  - apply Z.compare_lt_iff. nia.
  - apply Z.compare_gt_iff. nia.
Qed.

(** Numbers printed at the same width compare as text the way they
    compare as numbers, whatever follows them. *)
Lemma zero_padded_compare (w : nat) (a b : Z) (s t : string) :
  String.compare (zero_padded w a ++ s) (zero_padded w b ++ t)
  = lexicographic (a mod 10 ^ Z.of_nat w ?= b mod 10 ^ Z.of_nat w)
                  (String.compare s t).
Proof.
  induction w as [| w IH].
  - simpl. now rewrite !Z.mod_1_r.
  - cbn [zero_padded append String.compare].
    rewrite digit_compare by (apply Z.mod_pos_bound; lia).
    rewrite IH.
    assert (Hw : 0 < 10 ^ Z.of_nat w) by (apply Z.pow_pos_nonneg; lia).
    replace (10 ^ Z.of_nat (S w)) with (10 ^ Z.of_nat w * 10)
      by (rewrite Nat2Z.inj_succ, Z.pow_succ_r by lia; lia).
    rewrite !Z.rem_mul_r by lia.
    rewrite compare_lexicographic by (apply Z.mod_pos_bound; lia).
    unfold lexicographic.
    now destruct ((a / 10 ^ Z.of_nat w) mod 10 ?= (b / 10 ^ Z.of_nat w) mod 10).
Qed.

Lemma zero_padded_compare_small (w : nat) (a b : Z) (s t : string) :
  0 <= a < 10 ^ Z.of_nat w -> 0 <= b < 10 ^ Z.of_nat w ->
  String.compare (zero_padded w a ++ s) (zero_padded w b ++ t)
  = lexicographic (a ?= b) (String.compare s t).
Proof.
  intros Ha Hb. rewrite zero_padded_compare.
  now rewrite !Z.mod_small by assumption.
Qed.

Lemma separator_compare (c : ascii) (s t : string) :
  String.compare (String c s) (String c t) = String.compare s t.
Proof. simpl. now rewrite ascii_compare_refl. Qed.

Lemma append_empty (s : string) : (s ++ "")%string = s.
Proof. induction s; simpl; congruence. Qed.

(** The fraction of the second, as printed. *)
Lemma fraction_compare (a b : Z) :
  0 <= a < 1000000 -> 0 <= b < 1000000 ->
  String.compare
    (if (a =? 0)%Z then "" else "." ++ zero_padded 6 a)%string
    (if (b =? 0)%Z then "" else "." ++ zero_padded 6 b)%string
  = (a ?= b).
Proof.
  intros Ha Hb.
  destruct (Z.eqb_spec a 0) as [-> | Hna];
    destruct (Z.eqb_spec b 0) as [-> | Hnb].
  - reflexivity.
  - cbn [append String.compare]. symmetry. apply Z.compare_lt_iff. lia.
  - cbn [append String.compare]. symmetry. apply Z.compare_gt_iff. lia.
  - cbn [append]. rewrite separator_compare.
    rewrite <- (append_empty (zero_padded 6 a)),
            <- (append_empty (zero_padded 6 b)).
    rewrite zero_padded_compare_small by (simpl; lia).
    unfold lexicographic. now destruct (a ?= b).
Qed.

(** The text order of ISO timestamps is the order of the datetimes. *)
Lemma isoformat_compare (a b : datetime) :
  Spec.printable a -> Spec.printable b ->
  String.compare (isoformat a) (isoformat b) = Datetime.compare a b.
Proof.
  intros (Hy1 & Hm1 & Hd1 & Hh1 & Hn1 & Hs1 & Hu1)
         (Hy2 & Hm2 & Hd2 & Hh2 & Hn2 & Hs2 & Hu2).
  unfold isoformat, Datetime.compare.
  rewrite zero_padded_compare_small by (simpl; lia).
  cbn [append]. rewrite separator_compare.
  rewrite zero_padded_compare_small by (simpl; lia).
  cbn [append]. rewrite separator_compare.
  rewrite zero_padded_compare_small by (simpl; lia).
  cbn [append]. rewrite separator_compare.
  rewrite zero_padded_compare_small by (simpl; lia).
  cbn [append]. rewrite separator_compare.
  rewrite zero_padded_compare_small by (simpl; lia).
  cbn [append]. rewrite separator_compare.
  rewrite zero_padded_compare_small by (simpl; lia).
  now rewrite fraction_compare.
Qed.

End Isoformat.

Section Calendar.

Lemma month_and_day_range (n : Z) (leapyear : bool) :
  0 <= n < 365 ->
  let '(m, d) := month_and_day n leapyear in
  1 <= m <= 12 /\ 1 <= d <= 31.
Proof.
  intros Hn.
  assert (Hall : forallb month_and_day_ok (range 365) = true)
    by (vm_compute; reflexivity).
  rewrite forallb_forall in Hall.
  specialize (Hall n ltac:(apply in_range; lia)).
  unfold month_and_day_ok in Hall. cbn [forallb] in Hall.
  destruct leapyear.
  - destruct (month_and_day n true) as [m d]. lia.
  - destruct (month_and_day n false) as [m d]. lia.
Qed.

Lemma ord2ymd_range (n : Z) :
  0 < n <= _MAXORDINAL ->
  let '(y, m, d) := _ord2ymd n in
  1 <= y <= 9999 /\ 1 <= m <= 12 /\ 1 <= d <= 31.
Proof.
  unfold _MAXORDINAL. intros Hn. unfold _ord2ymd.
  unfold _DI400Y, _DI100Y, _DI4Y. cbv zeta.
  set (n400 := (n - 1) / 146097).
  set (r400 := (n - 1) mod 146097).
  set (n100 := r400 / 36524).
  set (r100 := r400 mod 36524).
  set (n4 := r100 / 1461).
  set (r4 := r100 mod 1461).
  set (n1 := r4 / 365).
  set (r1 := r4 mod 365).
  pose proof (Z.div_mod (n - 1) 146097 ltac:(lia)) as E400.
  pose proof (Z.mod_pos_bound (n - 1) 146097 ltac:(lia)) as B400.
  pose proof (Z.div_mod r400 36524 ltac:(lia)) as E100.
  pose proof (Z.mod_pos_bound r400 36524 ltac:(lia)) as B100.
  pose proof (Z.div_mod r100 1461 ltac:(lia)) as E4.
  pose proof (Z.mod_pos_bound r100 1461 ltac:(lia)) as B4.
  pose proof (Z.div_mod r4 365 ltac:(lia)) as E1.
  pose proof (Z.mod_pos_bound r4 365 ltac:(lia)) as B1.
  fold n400 r400 in E400, B400. fold n100 r100 in E100, B100.
  fold n4 r4 in E4, B4. fold n1 r1 in E1, B1.
  assert (H400 : 0 <= n400 <= 24) by lia.
  assert (H100 : 0 <= n100 <= 4) by lia.
  assert (H4 : 0 <= n4 <= 24) by lia.
  assert (H1 : 0 <= n1 <= 4) by lia.
  destruct ((n1 =? 4) || (n100 =? 4)) eqn:Elast.
  - lia.
  - apply orb_false_iff in Elast. destruct Elast as [E1' E100'].
    pose proof (month_and_day_range r1
                  ((n1 =? 3) && (negb (n4 =? 24) || (n100 =? 3))) B1) as Hmd.
    unfold month_and_day in Hmd.
    destruct (r1 <? _) ; destruct Hmd as [Hm Hd]; (split; [lia | split; assumption]).
Qed.

End Calendar.

Section Ordinals.

(** The month and the day found are those of the day [n] of the year. *)
Lemma month_and_day_ordinal (n : Z) (leapyear : bool) :
  0 <= n < 365 ->
  let '(m, d) := month_and_day n leapyear in
  nth (Z.to_nat m) _DAYS_BEFORE_MONTH 0
  + (if (2 <? m) && leapyear then 1 else 0) + d
  = n + 1.
Proof.
  intros Hn.
  assert (Hall : forallb month_and_day_inverse (range 365) = true)
    by (vm_compute; reflexivity).
  rewrite forallb_forall in Hall.
  specialize (Hall n ltac:(apply in_range; lia)).
  unfold month_and_day_inverse in Hall. cbn [forallb] in Hall.
  destruct leapyear.
  - destruct (month_and_day n true) as [m d]. lia.
  - destruct (month_and_day n false) as [m d]. lia.
Qed.

(** The date of an ordinal has that ordinal. *)
Lemma ymd2ord_ord2ymd (n : Z) :
  0 < n <= _MAXORDINAL ->
  let '(y, m, d) := _ord2ymd n in _ymd2ord y m d = n.
Proof.
  unfold _MAXORDINAL. intros Hn. unfold _ord2ymd.
  unfold _DI400Y, _DI100Y, _DI4Y. cbv zeta.
  set (n400 := (n - 1) / 146097).
  set (r400 := (n - 1) mod 146097).
  set (n100 := r400 / 36524).
  set (r100 := r400 mod 36524).
  set (n4 := r100 / 1461).
  set (r4 := r100 mod 1461).
  set (n1 := r4 / 365).
  set (r1 := r4 mod 365).
  pose proof (Z.div_mod (n - 1) 146097 ltac:(lia)) as E400.
  pose proof (Z.mod_pos_bound (n - 1) 146097 ltac:(lia)) as B400.
  pose proof (Z.div_mod r400 36524 ltac:(lia)) as E100.
  pose proof (Z.mod_pos_bound r400 36524 ltac:(lia)) as B100.
  pose proof (Z.div_mod r100 1461 ltac:(lia)) as E4.
  pose proof (Z.mod_pos_bound r100 1461 ltac:(lia)) as B4.
  pose proof (Z.div_mod r4 365 ltac:(lia)) as E1.
  pose proof (Z.mod_pos_bound r4 365 ltac:(lia)) as B1.
  fold n400 r400 in E400, B400. fold n100 r100 in E100, B100.
  fold n4 r4 in E4, B4. fold n1 r1 in E1, B1.
  assert (H400 : 0 <= n400 <= 24) by lia.
  assert (H100 : 0 <= n100 <= 4) by lia.
  assert (H4 : 0 <= n4 <= 24) by lia.
  assert (H1 : 0 <= n1 <= 4) by lia.
  set (y := n400 * 400 + 1 + n100 * 100 + n4 * 4 + n1).
  destruct ((n1 =? 4) || (n100 =? 4)) eqn:Elast.
  - (* the last day of a leap year *)
    unfold _ymd2ord, _days_before_year, _days_before_month, _is_leap.
    change (nth (Z.to_nat 12) _DAYS_BEFORE_MONTH 0) with 334.
    change (2 <? 12) with true. cbn [andb].
    assert (Hleap : (((y - 1) mod 4 =? 0)
                     && (negb ((y - 1) mod 100 =? 0) || ((y - 1) mod 400 =? 0)))
                    = true).
    { apply orb_true_iff in Elast.
      apply andb_true_iff. split.
      - apply Z.eqb_eq. destruct Elast as [E | E]; apply Z.eqb_eq in E;
          unfold y; rewrite E.
        + replace (n400 * 400 + 1 + n100 * 100 + n4 * 4 + 4 - 1)
            with ((n400 * 100 + n100 * 25 + n4 + 1) * 4) by lia.
          apply Z.mod_mul. lia.
        + replace (n400 * 400 + 1 + 4 * 100 + n4 * 4 + n1 - 1)
            with ((n400 + 1) * 400 + (n4 * 4 + n1)) by lia.
          assert (n4 = 0 /\ n1 = 0) as [-> ->] by lia.
          replace ((n400 + 1) * 400 + (0 * 4 + 0)) with ((n400 + 1) * 100 * 4) by lia.
          apply Z.mod_mul. lia.
      - destruct Elast as [E | E]; apply Z.eqb_eq in E.
        + assert (n100 <= 3 /\ n4 <= 23) as [Ha Hb] by lia.
          apply orb_true_iff. left. apply negb_true_iff, Z.eqb_neq.
          unfold y. rewrite E.
          replace (n400 * 400 + 1 + n100 * 100 + n4 * 4 + 4 - 1)
            with ((n4 * 4 + 4) + (n400 * 4 + n100) * 100) by lia.
          rewrite Z.mod_add by lia. rewrite Z.mod_small by lia. lia.
        + assert (n4 = 0 /\ n1 = 0) as [E4' E1'] by lia.
          apply orb_true_iff. right. apply Z.eqb_eq.
          unfold y. rewrite E, E4', E1'.
          replace (n400 * 400 + 1 + 4 * 100 + 0 * 4 + 0 - 1)
            with ((n400 + 1) * 400) by lia.
          apply Z.mod_mul. lia. }
    rewrite Hleap.
    pose proof (Z.div_mod (y - 1 - 1) 4 ltac:(lia)) as D4.
    pose proof (Z.mod_pos_bound (y - 1 - 1) 4 ltac:(lia)) as M4.
    pose proof (Z.div_mod (y - 1 - 1) 100 ltac:(lia)) as D100.
    pose proof (Z.mod_pos_bound (y - 1 - 1) 100 ltac:(lia)) as M100.
    pose proof (Z.div_mod (y - 1 - 1) 400 ltac:(lia)) as D400.
    pose proof (Z.mod_pos_bound (y - 1 - 1) 400 ltac:(lia)) as M400.
    apply orb_true_iff in Elast.
    destruct Elast as [E | E]; apply Z.eqb_eq in E; unfold y in *; lia.
  - apply orb_false_iff in Elast. destruct Elast as [E1' E100'].
    apply Z.eqb_neq in E1', E100'.
    set (leapyear := (n1 =? 3) && (negb (n4 =? 24) || (n100 =? 3))).
    pose proof (month_and_day_ordinal r1 leapyear B1) as Hmd.
    unfold month_and_day in Hmd.
    assert (Hleap : _is_leap y = leapyear).
    { unfold _is_leap, leapyear.
      pose proof (Z.div_mod y 4 ltac:(lia)) as D4.
      pose proof (Z.mod_pos_bound y 4 ltac:(lia)) as M4.
      pose proof (Z.div_mod y 100 ltac:(lia)) as D100.
      pose proof (Z.mod_pos_bound y 100 ltac:(lia)) as M100.
      pose proof (Z.div_mod y 400 ltac:(lia)) as D400.
      pose proof (Z.mod_pos_bound y 400 ltac:(lia)) as M400.
      unfold y in *.
      destruct (Z.eqb_spec n1 3); destruct (Z.eqb_spec n4 24);
        destruct (Z.eqb_spec n100 3);
        destruct (Z.eqb_spec ((n400 * 400 + 1 + n100 * 100 + n4 * 4 + n1) mod 4) 0);
        destruct (Z.eqb_spec ((n400 * 400 + 1 + n100 * 100 + n4 * 4 + n1) mod 100) 0);
        destruct (Z.eqb_spec ((n400 * 400 + 1 + n100 * 100 + n4 * 4 + n1) mod 400) 0);
        simpl; try reflexivity; exfalso; lia. }
    assert (Hdby : _days_before_year y = n - 1 - r1).
    { unfold _days_before_year.
      pose proof (Z.div_mod (y - 1) 4 ltac:(lia)) as D4.
      pose proof (Z.mod_pos_bound (y - 1) 4 ltac:(lia)) as M4.
      pose proof (Z.div_mod (y - 1) 100 ltac:(lia)) as D100.
      pose proof (Z.mod_pos_bound (y - 1) 100 ltac:(lia)) as M100.
      pose proof (Z.div_mod (y - 1) 400 ltac:(lia)) as D400.
      pose proof (Z.mod_pos_bound (y - 1) 400 ltac:(lia)) as M400.
      unfold y in *. lia. }
    fold leapyear.
    destruct (r1 <? _); unfold _ymd2ord, _days_before_month;
      rewrite Hleap, Hdby; lia.
Qed.

End Ordinals.

(* ================================================================== *)
(** * Range queries                                           *)
(* ================================================================== *)

Section Query.

Lemma insert_by_timestamp_permutation (r : row) (rs : list row) :
  Permutation (insert_by_timestamp r rs) (r :: rs).
Proof.
  induction rs as [| r' rest IH]; simpl.
  - apply Permutation_refl.
  - destruct (String.ltb (timestamp r') (timestamp r));
      [| apply Permutation_refl].
    apply perm_trans with (r' :: r :: rest); [| apply perm_swap].
    now apply perm_skip.
Qed.

Lemma insert_by_timestamp_sorted (r : row) (rs : list row) :
  Sorted Spec.not_later rs -> Sorted Spec.not_later (insert_by_timestamp r rs).
Proof.
  induction rs as [| r' rest IH]; intros Hs; simpl.
  - repeat constructor.
  - destruct (String.ltb (timestamp r') (timestamp r)) eqn:Hlt.
    + apply Sorted_inv in Hs. destruct Hs as [Hrest Hhd].
      constructor; [now apply IH |].
      destruct rest as [| r'' rest']; simpl.
      * constructor. now apply string_ltb_leb.
      * destruct (String.ltb (timestamp r'') (timestamp r));
          constructor; [now apply HdRel_inv in Hhd |].
        now apply string_ltb_leb.
    + constructor; [exact Hs |]. constructor. now apply string_not_ltb_leb.
Qed.

Lemma not_later_trans (a b c : row) :
  Spec.not_later a b -> Spec.not_later b c -> Spec.not_later a c.
Proof. unfold Spec.not_later. apply string_leb_trans. Qed.

Lemma order_by_timestamp_permutation (rs : list row) :
  Permutation (order_by_timestamp rs) rs.
Proof.
  unfold order_by_timestamp.
  assert (H : forall acc,
             Permutation
               (fold_left (fun acc r => insert_by_timestamp r acc) rs acc)
               (rs ++ acc)).
  { induction rs as [| r rest IH]; intros acc; simpl.
    - apply Permutation_refl.
    - eapply perm_trans; [apply IH |].
      eapply perm_trans;
        [apply Permutation_app_head, insert_by_timestamp_permutation |].
      apply Permutation_sym, Permutation_middle. }
  specialize (H []). now rewrite app_nil_r in H.
Qed.

Lemma order_by_timestamp_sorted (rs : list row) :
  Sorted Spec.not_later (order_by_timestamp rs).
Proof.
  unfold order_by_timestamp.
  assert (H : forall acc, Sorted Spec.not_later acc ->
                Sorted Spec.not_later
                  (fold_left (fun acc r => insert_by_timestamp r acc) rs acc)).
  { induction rs as [| r rest IH]; intros acc Hacc; simpl.
    - exact Hacc.
    - apply IH. now apply insert_by_timestamp_sorted. }
  apply H. constructor.
Qed.

(** The query is the ordered selection. *)
Lemma get_metrics_range_refines (start_time end_time : datetime)
  (metric_type_filter : option string) (db : database) :
  get_metrics_range start_time end_time metric_type_filter db
  = order_by_timestamp
      (filter (Spec.selected (isoformat start_time) (isoformat end_time)
                              metric_type_filter)
              (rows db)).
Proof.
  unfold get_metrics_range, Spec.selected, between.
  destruct metric_type_filter as [[| c t] |]; simpl;
    f_equal; apply filter_ext; intros r;
    now rewrite ?andb_true_r.
Qed.

End Query.

Section RangeQuery.

(** No text lies between two bounds in the wrong order. *)
Lemma between_empty (lo hi : string) (r : row) :
  String.ltb hi lo = true -> between lo hi r = false.
Proof.
  intros Hlt. unfold between.
  destruct (String.leb lo (timestamp r)) eqn:E1; [| reflexivity].
  destruct (String.leb (timestamp r) hi) eqn:E2; [| reflexivity].
  pose proof (string_leb_trans _ _ _ E1 E2) as Hle.
  rewrite string_ltb_not_leb, Hle in Hlt. discriminate Hlt.
Qed.

Lemma filter_none {A : Type} (f : A -> bool) (xs : list A) :
  (forall x, f x = false) -> filter f xs = [].
Proof.
  intros H. induction xs as [| x rest IH]; [reflexivity |].
  simpl. now rewrite H.
Qed.

Lemma filter_none_in {A : Type} (f : A -> bool) (xs : list A) :
  (forall x, In x xs -> f x = false) -> filter f xs = [].
Proof.
  induction xs as [| x rest IH]; intros H; [reflexivity |].
  simpl. rewrite (H x (or_introl eq_refl)).
  apply IH. intros y Hy. apply H. now right.
Qed.

Lemma filter_all_in {A : Type} (f : A -> bool) (xs : list A) :
  (forall x, In x xs -> f x = true) -> filter f xs = xs.
Proof.
  induction xs as [| x rest IH]; intros H; [reflexivity |].
  simpl. rewrite (H x (or_introl eq_refl)). f_equal.
  apply IH. intros y Hy. apply H. now right.
Qed.

Lemma selected_between (lo hi : string) (f : option string) (r : row) :
  Spec.selected lo hi f r = true -> between lo hi r = true.
Proof.
  unfold Spec.selected, between. intros H.
  apply andb_true_iff in H. tauto.
Qed.

(** Printed timestamps are ordered as their datetimes are. *)
Lemma timestamp_order (a b : datetime) :
  Spec.printable a -> Spec.printable b ->
  (String.leb (isoformat a) (isoformat b) = true
   <-> Datetime.compare a b <> Gt)
  /\ (String.ltb (isoformat a) (isoformat b) = true
      <-> Datetime.compare a b = Lt).
Proof.
  intros Ha Hb. unfold String.leb, String.ltb.
  rewrite (isoformat_compare a b Ha Hb).
  destruct (Datetime.compare a b); split; split; congruence.
Qed.

(** C1, the claim as it stands fails when the type asked for is the
    empty string: the query then takes no account of the type and
    returns a row of type ["cpu"]. *)
Lemma range_query_empty_type :
  get_metrics_range Samples.noon Samples.noon (Some ""%string)
                    Samples.one_row
  = [Samples.cpu_row]
  /\ metric_type Samples.cpu_row <> ""%string
  /\ ~ (forall r,
          In r (get_metrics_range Samples.noon Samples.noon
                                  (Some ""%string) Samples.one_row) ->
          metric_type r = ""%string).
Proof.
  assert (E : get_metrics_range Samples.noon Samples.noon (Some ""%string)
                                Samples.one_row
              = [Samples.cpu_row]) by (vm_compute; reflexivity).
  split; [exact E |]. split; [discriminate |].
  intros H. specialize (H Samples.cpu_row).
  rewrite E in H. specialize (H (or_introl eq_refl)). discriminate H.
Qed.

(** C1, as amended: for every store and every pair of bounds,
    [get_metrics_range] returns exactly the stored rows whose timestamp
    lies between the bounds, both included, and, when a type other than
    the empty string is asked for, whose type is that type; it returns
    them in ascending order of timestamp, and returns the empty list,
    not an error, when the bounds are in the wrong order.  (An empty
    string asks for no type.)  Timestamps are compared as text, which
    for the timestamps that [isoformat] prints is the order of the
    datetimes. *)
Theorem range_query (start_time end_time : datetime)
  (metric_type_filter : option string) (db : database) :
  let result :=
    get_metrics_range start_time end_time metric_type_filter db in
  let lo := isoformat start_time in
  let hi := isoformat end_time in
  Permutation result
    (filter (Spec.selected lo hi metric_type_filter) (rows db))
  /\ Sorted Spec.not_later result
  /\ (forall r,
         In r result
         <-> In r (rows db)
             /\ String.leb lo (timestamp r) = true
             /\ String.leb (timestamp r) hi = true
             /\ match metric_type_filter with
                | Some EmptyString | None => True
                | Some t => metric_type r = t
                end)
  /\ (String.ltb hi lo = true -> result = [])
  /\ (Spec.printable start_time -> Spec.printable end_time ->
      (forall r t,
          Spec.printable t -> timestamp r = isoformat t ->
          (In r result
           <-> In r (rows db)
               /\ Datetime.compare start_time t <> Gt
               /\ Datetime.compare t end_time <> Gt
               /\ match metric_type_filter with
                  | Some EmptyString | None => True
                  | Some asked => metric_type r = asked
                  end))
      /\ (Datetime.compare end_time start_time = Lt -> result = [])).
Proof.
  intros result lo hi.
  assert (Hperm : Permutation result
                    (filter (Spec.selected lo hi metric_type_filter) (rows db))).
  { unfold result. rewrite get_metrics_range_refines.
    apply order_by_timestamp_permutation. }
  assert (Hin : forall r,
             In r result
             <-> In r (rows db)
                 /\ String.leb lo (timestamp r) = true
                 /\ String.leb (timestamp r) hi = true
                 /\ match metric_type_filter with
                    | Some EmptyString | None => True
                    | Some t => metric_type r = t
                    end).
  { intros r. split.
    - intros H. apply (Permutation_in _ Hperm), filter_In in H.
      destruct H as [Hr Hsel]. unfold Spec.selected in Hsel.
      apply andb_true_iff in Hsel. destruct Hsel as [Hb Ht].
      apply andb_true_iff in Hb. destruct Hb as [Hlo Hhi].
      repeat (split; [assumption |]).
      destruct metric_type_filter as [[| c t] |]; try exact I.
      now apply String.eqb_eq.
    - intros (Hr & Hlo & Hhi & Ht).
      apply (Permutation_in _ (Permutation_sym Hperm)), filter_In.
      split; [exact Hr |]. unfold Spec.selected. rewrite Hlo, Hhi.
      destruct metric_type_filter as [[| c t] |]; try reflexivity.
      now apply String.eqb_eq. }
  assert (Hempty : String.ltb hi lo = true -> result = []).
  { intros Hlt. apply Permutation_nil. apply Permutation_sym.
    eapply perm_trans; [exact Hperm |].
    replace (filter (Spec.selected lo hi metric_type_filter) (rows db))
      with (@nil row); [apply Permutation_refl |].
    symmetry. apply filter_none. intros r.
    destruct (Spec.selected lo hi metric_type_filter r) eqn:E;
      [| reflexivity].
    apply selected_between in E.
    rewrite (between_empty lo hi r Hlt) in E. discriminate E. }
  split; [exact Hperm |].
  split; [unfold result; rewrite get_metrics_range_refines;
          apply order_by_timestamp_sorted |].
  split; [exact Hin |]. split; [exact Hempty |].
  intros Hstart Hend. split.
  - intros r t Ht Hts. rewrite Hin, Hts. unfold lo, hi.
    destruct (timestamp_order start_time t Hstart Ht) as [Hle1 _].
    destruct (timestamp_order t end_time Ht Hend) as [Hle2 _].
    rewrite Hle1, Hle2. reflexivity.
  - intros Hlt. apply Hempty. unfold lo, hi.
    now apply (timestamp_order end_time start_time Hend Hstart).
Qed.

End RangeQuery.

(* ================================================================== *)
(** * Row ids                                                          *)
(* ================================================================== *)

Section RowIds.

Lemma max_rowid_from (rs : list row) :
  forall m, m <= fold_left (fun m r => Z.max m (id r)) rs m
            /\ forall r, In r rs ->
                         id r <= fold_left (fun m r => Z.max m (id r)) rs m.
Proof.
  induction rs as [| r rest IH]; intros m; simpl.
  - split; [lia | intros r []].
  - destruct (IH (Z.max m (id r))) as [Hm Hin]. split; [lia |].
    intros r' [<- | Hr']; [lia | now apply Hin].
Qed.

(** No row has an id above [max_rowid]. *)
Lemma max_rowid_bound (rs : list row) (r : row) :
  In r rs -> id r <= max_rowid rs.
Proof.
  intros H. unfold max_rowid.
  destruct (max_rowid_from rs 0) as [_ Hin]. now apply Hin.
Qed.

(** An insert that succeeds: its row goes last, under an id above the
    sequence and above every id in the table, and the sequence moves to
    that id. *)
Lemma insert_metrics_row (utcnow : datetime) (hostname type : string)
  (data : dict) (status source : string) (db db' : database) (row_id : Z) :
  insert_metrics utcnow hostname type data status source db
  = Ok (row_id, db') ->
  rows db'
  = rows db ++ [mk_row row_id (isoformat utcnow) hostname type data
                       status source]
  /\ sequence db' = row_id
  /\ sequence db < row_id
  /\ (forall r, In r (rows db) -> id r < row_id).
Proof.
  unfold insert_metrics, json_dumps, next_rowid.
  destruct (json_encodable (PyDict data)); [| discriminate].
  destruct (MAX_ROWID <=? Z.max (sequence db) (max_rowid (rows db)));
    [discriminate |].
  cbn [bind]. intros H. injection H as <- <-. cbn [rows sequence].
  split; [reflexivity |]. split; [reflexivity |]. split; [lia |].
  intros r Hr. pose proof (max_rowid_bound _ _ Hr). lia.
Qed.

(** A call never lowers the sequence, and an insert raises it to the
    id it returns. *)
Lemma step_sequence (db : database) (op : operation) :
  sequence db <= sequence (snd (step db op))
  /\ forall row_id, fst (step db op) = Inserted row_id ->
                    sequence db < row_id
                    /\ sequence (snd (step db op)) = row_id.
Proof.
  destruct op as [utcnow hostname type data status source | utcnow days];
    unfold step.
  - destruct (insert_metrics utcnow hostname type data status source db)
      as [[row_id db'] | e msg] eqn:E; cbn [fst snd].
    + destruct (insert_metrics_row _ _ _ _ _ _ _ _ _ E) as (_ & Hs & Hlt & _).
      split; [lia |]. intros i H. injection H as <-. now split.
    + split; [lia | discriminate].
  - unfold cleanup_old_records.
    destruct (sub_days utcnow days) as [cutoff | e msg]; cbn [bind fst snd].
    + split; [simpl; lia | discriminate].
    + split; [lia | discriminate].
Qed.

Lemma run_cons (db : database) (op : operation) (rest : list operation) :
  run db (op :: rest)
  = (fst (step db op) :: fst (run (snd (step db op)) rest),
     snd (run (snd (step db op)) rest)).
Proof.
  cbn [run]. destruct (step db op) as [o db']. cbn [fst snd].
  now destruct (run db' rest) as [os db''].
Qed.

(** The ids that a history gives out are above the sequence it starts
    from, and each is above the ones before it. *)
Lemma run_ids (ops : list operation) :
  forall db,
    Forall (fun i => sequence db < i) (inserted_ids (fst (run db ops)))
    /\ StronglySorted Z.lt (inserted_ids (fst (run db ops))).
Proof.
  induction ops as [| op rest IH]; intros db.
  - simpl. split; constructor.
  - rewrite run_cons. cbn [fst].
    destruct (IH (snd (step db op))) as [Habove Hsorted].
    destruct (step_sequence db op) as [Hmono Hins].
    assert (Habove' : Forall (fun i => sequence db < i)
                             (inserted_ids (fst (run (snd (step db op)) rest)))).
    { eapply Forall_impl; [| exact Habove]. simpl. intros i Hi. lia. }
    destruct (fst (step db op)) as [row_id | n | e msg] eqn:E;
      cbn [inserted_ids]; try (split; assumption).
    destruct (Hins row_id eq_refl) as [Hlt Hseq].
    split.
    + constructor; assumption.
    + constructor; [exact Hsorted |]. now rewrite Hseq in Habove.
Qed.

Lemma sorted_nodup (ids : list Z) : StronglySorted Z.lt ids -> NoDup ids.
Proof.
  induction 1 as [| i rest Hrest IH Hi]; constructor; [| exact IH].
  intros Hin. rewrite Forall_forall in Hi. specialize (Hi i Hin). lia.
Qed.

(** C2: over every history of inserts and cleanups, from every state of
    the store, each insert returns an id strictly greater than every id
    returned before it (and than every id in the table at that time):
    the ids are pairwise distinct, increase in the order of the
    inserts, and none is given out again after a cleanup has deleted
    its row. *)
Theorem ids_strictly_increase :
  (forall db ops,
      let ids := inserted_ids (fst (run db ops)) in
      StronglySorted Z.lt ids
      /\ NoDup ids
      /\ Forall (fun i => sequence db < i) ids)
  /\ (forall utcnow hostname type data status source db row_id db',
         insert_metrics utcnow hostname type data status source db
         = Ok (row_id, db') ->
         rows db'
         = rows db ++ [mk_row row_id (isoformat utcnow) hostname type data
                              status source]
         /\ sequence db' = row_id
         /\ sequence db < row_id
         /\ (forall r, In r (rows db) -> id r < row_id))
  /\ (forall utcnow days db count db',
         cleanup_old_records utcnow days db = Ok (count, db') ->
         sequence db' = sequence db)
  /\ fst (run empty
            [Insert Samples.noon "host" "cpu" [] "OK" "python";
             Insert Samples.noon "host" "cpu" [] "OK" "python";
             Cleanup Samples.noon 0;
             Cleanup (mk_datetime 2024 3 2 12 0 0 0) 0;
             Insert Samples.noon "host" "cpu" [] "OK" "python"])
     = [Inserted 1; Inserted 2; Cleaned 0; Cleaned 2; Inserted 3].
Proof.
  split.
  { intros db ops ids. destruct (run_ids ops db) as [Habove Hsorted].
    split; [exact Hsorted |]. split; [now apply sorted_nodup | exact Habove]. }
  split; [intros; now apply insert_metrics_row |].
  split.
  { intros utcnow days db count db'. unfold cleanup_old_records.
    destruct (sub_days utcnow days); [| discriminate].
    cbn [bind]. intros H. now injection H as _ <-. }
  vm_compute. reflexivity.
Qed.

End RowIds.

(* ================================================================== *)
(** * Retention                                                        *)
(* ================================================================== *)

Section Retention.

(** The cutoff of a cleanup is printed at the fixed widths. *)
Lemma sub_days_printable (utcnow cutoff : datetime) (days : Z) :
  Spec.printable utcnow ->
  sub_days utcnow days = Ok cutoff ->
  Spec.printable cutoff.
Proof.
  intros (Hy & Hm & Hd & Hrest). unfold sub_days.
  destruct ((days <? - 2 ^ 31) || (2 ^ 31 <=? days)); [discriminate |].
  destruct (999999999 <? Z.abs days); [discriminate |].
  set (ordinal := _ymd2ord (year utcnow) (month utcnow) (day utcnow) - days).
  destruct ((0 <? ordinal) && (ordinal <=? _MAXORDINAL)) eqn:E;
    [| discriminate].
  apply andb_true_iff in E. destruct E as [E1 E2].
  pose proof (ord2ymd_range ordinal ltac:(lia)) as Hrange.
  destruct (_ord2ymd ordinal) as [[y m] d].
  intros H. injection H as <-.
  unfold Spec.printable. cbn [year month day hour minute second microsecond].
  split; [lia |]. split; [lia |]. split; [lia |]. exact Hrest.
Qed.

(** The cutoff of a cleanup is the time on the clock, that many days
    earlier in the calendar. *)
Lemma sub_days_ordinal (utcnow cutoff : datetime) (days : Z) :
  sub_days utcnow days = Ok cutoff ->
  _ymd2ord (year cutoff) (month cutoff) (day cutoff)
  = _ymd2ord (year utcnow) (month utcnow) (day utcnow) - days
  /\ hour cutoff = hour utcnow /\ minute cutoff = minute utcnow
  /\ second cutoff = second utcnow
  /\ microsecond cutoff = microsecond utcnow.
Proof.
  unfold sub_days.
  destruct ((days <? - 2 ^ 31) || (2 ^ 31 <=? days)); [discriminate |].
  destruct (999999999 <? Z.abs days); [discriminate |].
  set (ordinal := _ymd2ord (year utcnow) (month utcnow) (day utcnow) - days).
  destruct ((0 <? ordinal) && (ordinal <=? _MAXORDINAL)) eqn:E;
    [| discriminate].
  apply andb_true_iff in E. destruct E as [E1 E2].
  pose proof (ymd2ord_ord2ymd ordinal ltac:(lia)) as Hord.
  destruct (_ord2ymd ordinal) as [[y m] d].
  intros H. injection H as <-.
  cbn [year month day hour minute second microsecond].
  repeat split. exact Hord.
Qed.

(** What a cleanup does once the cutoff is known. *)
Lemma cleanup_refines (utcnow cutoff : datetime) (days : Z) (db : database) :
  sub_days utcnow days = Ok cutoff ->
  let old r := String.ltb (timestamp r) (isoformat cutoff) in
  cleanup_old_records utcnow days db
  = Ok (len (filter old (rows db)),
        mk_database (filter (fun r => negb (old r)) (rows db)) (sequence db)).
Proof.
  intros Hcut old. unfold cleanup_old_records. now rewrite Hcut.
Qed.

Lemma len_filter_split {A : Type} (f : A -> bool) (xs : list A) :
  len (filter (fun x => negb (f x)) xs) = len xs - len (filter f xs).
Proof. unfold len. pose proof (filter_length f xs). lia. Qed.

(** The number of rows after a call: one more after an insert, as many
    fewer as counted after a cleanup, the same after a failure. *)
Lemma step_rows (db : database) (op : operation) :
  len (rows (snd (step db op)))
  = len (rows db)
    + match fst (step db op) with
      | Inserted _ => 1
      | Cleaned n => - n
      | Failed _ _ => 0
      end.
Proof.
  destruct op as [utcnow hostname type data status source | utcnow days];
    unfold step.
  - destruct (insert_metrics utcnow hostname type data status source db)
      as [[row_id db'] | e msg] eqn:E; cbn [fst snd]; [| lia].
    destruct (insert_metrics_row _ _ _ _ _ _ _ _ _ E) as (Hrows & _).
    rewrite Hrows, len_app. unfold len. simpl. lia.
  - unfold cleanup_old_records.
    destruct (sub_days utcnow days) as [cutoff | e msg];
      cbn [bind fst snd rows]; [| lia].
    rewrite len_filter_split. lia.
Qed.

Lemma run_rows (ops : list operation) :
  forall db,
    len (rows (snd (run db ops)))
    = len (rows db) + len (inserted_ids (fst (run db ops)))
      - cleaned_total (fst (run db ops)).
Proof.
  induction ops as [| op rest IH]; intros db.
  - simpl. unfold len. simpl. lia.
  - rewrite run_cons. cbn [fst snd]. rewrite IH, step_rows.
    destruct (fst (step db op)) as [row_id | n | e msg];
      cbn [inserted_ids cleaned_total]; unfold len; simpl List.length; lia.
Qed.

(** C3, the claim as it stands fails for a retention period that
    reaches before the year 1: the cutoff cannot be computed, and the
    cleanup raises where nothing matches instead of returning 0. *)
Lemma cleanup_retention_out_of_range :
  cleanup_old_records Samples.noon 1000000 empty
  = Raise OverflowError "date value out of range"
  /\ filter (fun r : row => true) (rows empty) = []
  /\ ~ (exists db', cleanup_old_records Samples.noon 1000000 empty
                    = Ok (0, db')).
Proof.
  assert (E : cleanup_old_records Samples.noon 1000000 empty
              = Raise OverflowError "date value out of range")
    by (vm_compute; reflexivity).
  split; [exact E |]. split; [reflexivity |].
  intros [db' H]. rewrite E in H. discriminate H.
Qed.

(** C3, as amended: for every retention period whose cutoff, the time
    on the clock minus the period, is a date that [datetime] can hold,
    [cleanup_old_records] deletes exactly the rows whose timestamp is
    strictly earlier than the cutoff and returns their number, which
    is 0, an ordinary result, when there is none (the cutoff is the
    time on the clock moved back by that many days of the calendar,
    and "earlier" is the order of the datetimes); after every history
    of inserts and cleanups on a new database, [total_records] is the
    number of inserts made minus the sum of the numbers returned by the
    cleanups. *)
Theorem cleanup_deletes_older :
  (forall utcnow days db cutoff,
      sub_days utcnow days = Ok cutoff ->
      let old r := String.ltb (timestamp r) (isoformat cutoff) in
      exists db',
        cleanup_old_records utcnow days db
        = Ok (len (filter old (rows db)), db')
        /\ rows db' = filter (fun r => negb (old r)) (rows db)
        /\ (forall r, In r (rows db') <-> In r (rows db) /\ old r = false)
        /\ len (rows db') = len (rows db) - len (filter old (rows db))
        /\ 0 <= len (filter old (rows db))
        /\ ((forall r, In r (rows db) -> old r = false) ->
            len (filter old (rows db)) = 0 /\ rows db' = rows db))
  /\ (forall utcnow days cutoff,
         Spec.printable utcnow ->
         sub_days utcnow days = Ok cutoff ->
         Spec.printable cutoff
         /\ (_ymd2ord (year cutoff) (month cutoff) (day cutoff)
             = _ymd2ord (year utcnow) (month utcnow) (day utcnow) - days
             /\ hour cutoff = hour utcnow /\ minute cutoff = minute utcnow
             /\ second cutoff = second utcnow
             /\ microsecond cutoff = microsecond utcnow)
         /\ forall t,
              Spec.printable t ->
              (String.ltb (isoformat t) (isoformat cutoff) = true
               <-> Datetime.compare t cutoff = Lt))
  /\ (forall ops,
         total_records (get_database_stats (snd (run empty ops)))
         = len (inserted_ids (fst (run empty ops)))
           - cleaned_total (fst (run empty ops))).
Proof.
  split.
  { intros utcnow days db cutoff Hcut old.
    eexists. split; [apply (cleanup_refines utcnow cutoff days db Hcut) |].
    cbn [rows]. fold old. split; [reflexivity |]. split; [| split; [| split]].
    - intros r. rewrite filter_In, negb_true_iff. reflexivity.
    - apply len_filter_split.
    - apply len_nonneg.
    - intros Hnone. split.
      + rewrite filter_none_in; [reflexivity | exact Hnone].
      + apply filter_all_in. intros r Hr. apply negb_true_iff.
        now apply Hnone. }
  split.
  { intros utcnow days cutoff Hnow Hcut.
    pose proof (sub_days_printable utcnow cutoff days Hnow Hcut) as Hp.
    split; [exact Hp |]. split; [now apply sub_days_ordinal |].
    intros t Ht. now apply (timestamp_order t cutoff Ht Hp). }
  intros ops. unfold get_database_stats. cbn [total_records].
  rewrite run_rows. unfold empty, len. simpl. lia.
Qed.

Lemma cleanup_deletes_older_witness :
  sub_days (mk_datetime 2024 3 8 12 0 0 1) 7
  = Ok (mk_datetime 2024 3 1 12 0 0 1)
  /\ exists db',
       cleanup_old_records (mk_datetime 2024 3 8 12 0 0 1) 7 Samples.one_row
       = Ok (len (filter
                    (fun r => String.ltb (timestamp r)
                                (isoformat (mk_datetime 2024 3 1 12 0 0 1)))
                    (rows Samples.one_row)),
             db')
       /\ rows db'
          = filter
              (fun r => negb (String.ltb (timestamp r)
                                (isoformat (mk_datetime 2024 3 1 12 0 0 1))))
              (rows Samples.one_row)
       /\ (forall r,
             In r (rows db')
             <-> In r (rows Samples.one_row)
                 /\ String.ltb (timestamp r)
                      (isoformat (mk_datetime 2024 3 1 12 0 0 1)) = false)
       /\ len (rows db')
          = len (rows Samples.one_row)
            - len (filter
                     (fun r => String.ltb (timestamp r)
                                 (isoformat (mk_datetime 2024 3 1 12 0 0 1)))
                     (rows Samples.one_row))
       /\ 0 <= len (filter
                      (fun r => String.ltb (timestamp r)
                                  (isoformat (mk_datetime 2024 3 1 12 0 0 1)))
                      (rows Samples.one_row))
       /\ ((forall r, In r (rows Samples.one_row) ->
                      String.ltb (timestamp r)
                        (isoformat (mk_datetime 2024 3 1 12 0 0 1)) = false) ->
           len (filter
                  (fun r => String.ltb (timestamp r)
                              (isoformat (mk_datetime 2024 3 1 12 0 0 1)))
                  (rows Samples.one_row)) = 0
           /\ rows db' = rows Samples.one_row).
Proof.
  assert (H : sub_days (mk_datetime 2024 3 8 12 0 0 1) 7
              = Ok (mk_datetime 2024 3 1 12 0 0 1))
    by (vm_compute; reflexivity).
  split; [exact H |].
  exact (proj1 cleanup_deletes_older (mk_datetime 2024 3 8 12 0 0 1) 7
               Samples.one_row (mk_datetime 2024 3 1 12 0 0 1) H).
Defined.

End Retention.

(* ================================================================== *)
(** * The timestamps of a store                                        *)
(* ================================================================== *)

Section Timestamps.

Lemma valid_printable (t : datetime) : valid t = true -> Spec.printable t.
Proof.
  unfold valid. intros H.
  repeat (apply andb_true_iff in H; destruct H as [H ?]).
  assert (Hdim : _days_in_month (year t) (month t) <= 31).
  { unfold _days_in_month.
    destruct ((month t =? 2) && _is_leap (year t)); [lia |].
    assert (Hm : 1 <= month t <= 12) by lia.
    assert (E : month t = 1 \/ month t = 2 \/ month t = 3 \/ month t = 4
                \/ month t = 5 \/ month t = 6 \/ month t = 7
                \/ month t = 8 \/ month t = 9 \/ month t = 10
                \/ month t = 11 \/ month t = 12) by lia.
    repeat (destruct E as [E | E]); rewrite E; simpl; lia. }
  unfold Spec.printable. lia.
Qed.

(** The rows of a store whose clock only shows valid datetimes carry
    timestamps printed from such datetimes. *)
Lemma step_stamped (db : database) (op : operation) :
  valid (clock op) = true ->
  Spec.stamped db -> Spec.stamped (snd (step db op)).
Proof.
  intros Hclock Hdb.
  destruct op as [utcnow hostname type data status source | utcnow days];
    unfold step.
  - destruct (insert_metrics utcnow hostname type data status source db)
      as [[row_id db'] | e msg] eqn:E; cbn [snd]; [| exact Hdb].
    destruct (insert_metrics_row _ _ _ _ _ _ _ _ _ E) as (Hrows & _).
    intros r Hr. rewrite Hrows in Hr. apply in_app_or in Hr.
    destruct Hr as [Hr | [<- | []]]; [now apply Hdb |].
    exists utcnow. split; [now apply valid_printable | reflexivity].
  - unfold cleanup_old_records.
    destruct (sub_days utcnow days) as [cutoff | e msg];
      cbn [bind snd]; [| exact Hdb].
    intros r Hr. cbn [rows] in Hr. apply filter_In in Hr.
    now apply Hdb.
Qed.

Lemma run_stamped (ops : list operation) :
  forall db,
    Forall (fun op => valid (clock op) = true) ops ->
    Spec.stamped db -> Spec.stamped (snd (run db ops)).
Proof.
  induction ops as [| op rest IH]; intros db Hclock Hdb.
  - exact Hdb.
  - rewrite run_cons. cbn [snd]. inversion Hclock as [| ? ? Hop Hrest]; subst.
    apply IH; [exact Hrest |]. now apply step_stamped.
Qed.

End Timestamps.

(* ================================================================== *)
(** * Further properties of the store, the command line and the analyzer *)
(* ================================================================== *)

Import Notions Cli.

Section Latest.

Lemma filter_true {A : Type} (xs : list A) : filter (fun _ => true) xs = xs.
Proof. induction xs as [| x rest IH]; simpl; congruence. Qed.

Lemma get_latest_metrics_refines (f : option string) (limit : Z)
  (db : database) :
  - 2 ^ 63 <= limit < 2 ^ 63 ->
  get_latest_metrics f limit db
  = Ok (limit_rows limit
          (order_by_timestamp_desc (filter (of_type f) (rows db)))).
Proof.
  intros Hlimit. unfold get_latest_metrics.
  assert (E : ((limit <? - 2 ^ 63) || (2 ^ 63 <=? limit)) = false).
  { apply orb_false_iff. split; [apply Z.ltb_ge | apply Z.leb_gt]; lia. }
  rewrite E. destruct f as [[| c s] |]; simpl; now rewrite ?filter_true.
Qed.

Lemma newer_first_trans (a b c : row) :
  newer_first a b -> newer_first b c -> newer_first a c.
Proof. unfold newer_first. intros H1 H2. eapply string_leb_trans; eauto. Qed.

Lemma insert_by_timestamp_desc_permutation (r : row) (rs : list row) :
  Permutation (insert_by_timestamp_desc r rs) (r :: rs).
Proof.
  induction rs as [| r' rest IH]; simpl; [reflexivity |].
  destruct (String.ltb (timestamp r') (timestamp r)); [reflexivity |].
  rewrite IH. apply perm_swap.
Qed.

Lemma insert_by_timestamp_desc_sorted (r : row) (rs : list row) :
  StronglySorted newer_first rs ->
  StronglySorted newer_first (insert_by_timestamp_desc r rs).
Proof.
  induction 1 as [| r' rest Hrest IH Hall]; simpl.
  - repeat constructor.
  - destruct (String.ltb (timestamp r') (timestamp r)) eqn:E.
    + constructor; [now constructor |].
      apply string_ltb_leb in E.
      constructor; [exact E |].
      eapply Forall_impl; [| exact Hall].
      intros x Hx. eapply newer_first_trans; [exact E | exact Hx].
    + constructor; [exact IH |].
      apply string_not_ltb_leb in E.
      eapply Permutation_Forall;
        [symmetry; apply insert_by_timestamp_desc_permutation |].
      constructor; assumption.
Qed.

Lemma order_by_timestamp_desc_from (rs : list row) :
  forall acc,
    StronglySorted newer_first acc ->
    Permutation (fold_left (fun acc r => insert_by_timestamp_desc r acc) rs acc)
                (acc ++ rs)
    /\ StronglySorted newer_first
         (fold_left (fun acc r => insert_by_timestamp_desc r acc) rs acc).
Proof.
  induction rs as [| r rest IH]; intros acc Hacc; simpl.
  - rewrite app_nil_r. now split.
  - destruct (IH (insert_by_timestamp_desc r acc)
                 (insert_by_timestamp_desc_sorted r acc Hacc)) as [Hp Hs].
    split; [| exact Hs].
    rewrite Hp, insert_by_timestamp_desc_permutation.
    simpl. apply Permutation_middle.
Qed.

Lemma order_by_timestamp_desc_permutation (rs : list row) :
  Permutation (order_by_timestamp_desc rs) rs.
Proof. apply (order_by_timestamp_desc_from rs []). constructor. Qed.

Lemma order_by_timestamp_desc_sorted (rs : list row) :
  StronglySorted newer_first (order_by_timestamp_desc rs).
Proof. apply (order_by_timestamp_desc_from rs []). constructor. Qed.

(** A sorted list, cut in two: both parts are sorted and the first
    part comes before the second. *)
Lemma sorted_app {A : Type} (R : A -> A -> Prop) (xs ys : list A) :
  StronglySorted R (xs ++ ys) ->
  StronglySorted R xs /\ StronglySorted R ys
  /\ forall x y, In x xs -> In y ys -> R x y.
Proof.
  induction xs as [| x rest IH]; simpl; intros H.
  - split; [constructor |]. split; [exact H |]. intros x y [].
  - inversion H as [| ? ? Hs Hall]; subst.
    destruct (IH Hs) as [H1 [H2 H3]].
    rewrite Forall_app in Hall. destruct Hall as [Hall1 Hall2].
    split; [now constructor |]. split; [exact H2 |].
    intros a b [<- | Ha] Hb.
    + rewrite Forall_forall in Hall2. now apply Hall2.
    + now apply H3.
Qed.

(** X1: for every limit that is a 64-bit integer, [get_latest_metrics]
    returns rows of the table that have the type asked for (every row
    when no type or the empty string is asked for), the newest first;
    the rows left out are rows that are not newer than any row
    returned; a limit of [n >= 0] returns [n] rows, or all the matching
    rows when there are fewer, and a negative limit leaves none out.  A
    limit that is no 64-bit integer raises [OverflowError]. *)
Theorem latest_newest_first :
  (forall f limit db,
      - 2 ^ 63 <= limit < 2 ^ 63 ->
      let matching := filter (of_type f) (rows db) in
      exists latest rest,
        get_latest_metrics f limit db = Ok latest
        /\ Permutation (latest ++ rest) matching
        /\ StronglySorted newer_first latest
        /\ (forall r r', In r latest -> In r' rest -> newer_first r r')
        /\ (forall r, In r latest -> In r (rows db) /\ of_type f r = true)
        /\ (0 <= limit -> len latest = Z.min limit (len matching))
        /\ (limit < 0 -> rest = []))
  /\ (forall f limit db,
         limit < - 2 ^ 63 \/ 2 ^ 63 <= limit ->
         get_latest_metrics f limit db
         = Raise OverflowError
             "Python int too large to convert to SQLite INTEGER").
Proof.
  split.
  - intros f limit db Hlimit matching.
    rewrite get_latest_metrics_refines by exact Hlimit. fold matching.
    pose proof (order_by_timestamp_desc_permutation matching) as Hp.
    pose proof (order_by_timestamp_desc_sorted matching) as Hs.
    set (ordered := order_by_timestamp_desc matching) in *.
    assert (Hlen : List.length ordered = List.length matching)
      by now apply Permutation_length.
    unfold limit_rows.
    destruct (Z.ltb_spec limit 0) as [Hneg | Hpos].
    + exists ordered, []. rewrite app_nil_r.
      split; [reflexivity |]. split; [exact Hp |]. split; [exact Hs |].
      split; [intros r r' _ [] |]. split; [| split; [lia | reflexivity]].
      intros r Hr. apply (Permutation_in _ Hp) in Hr.
      unfold matching in Hr. now apply filter_In in Hr.
    + exists (firstn (Z.to_nat limit) ordered), (skipn (Z.to_nat limit) ordered).
      rewrite firstn_skipn.
      pose proof Hs as Hs'. rewrite <- (firstn_skipn (Z.to_nat limit) ordered) in Hs'.
      apply sorted_app in Hs'. destruct Hs' as [H1 [_ H3]].
      split; [reflexivity |]. split; [exact Hp |]. split; [exact H1 |].
      split; [exact H3 |]. split; [| split; [| lia]].
      * intros r Hr.
        assert (Hin : In r ordered)
          by (rewrite <- (firstn_skipn (Z.to_nat limit) ordered);
              apply in_or_app; now left).
        apply (Permutation_in _ Hp) in Hin. rename Hin into Hr'. clear Hr. rename Hr' into Hr.
        unfold matching in Hr. now apply filter_In in Hr.
      * intros _. unfold len. rewrite length_firstn, Hlen. lia.
  - intros f limit db Hlimit. unfold get_latest_metrics.
    assert (E : ((limit <? - 2 ^ 63) || (2 ^ 63 <=? limit)) = true).
    { apply orb_true_iff. destruct Hlimit; [left; apply Z.ltb_lt | right; apply Z.leb_le]; lia. }
    now rewrite E.
Qed.
End Latest.

Section InsertThenRead.

Lemma order_by_timestamp_snoc (rs : list row) (r : row) :
  order_by_timestamp (rs ++ [r])
  = insert_by_timestamp r (order_by_timestamp rs).
Proof. unfold order_by_timestamp. now rewrite fold_left_app. Qed.

Lemma order_by_timestamp_desc_snoc (rs : list row) (r : row) :
  order_by_timestamp_desc (rs ++ [r])
  = insert_by_timestamp_desc r (order_by_timestamp_desc rs).
Proof. unfold order_by_timestamp_desc. now rewrite fold_left_app. Qed.

Lemma filter_snoc {A : Type} (p : A -> bool) (xs : list A) (x : A) :
  filter p (xs ++ [x]) = filter p xs ++ (if p x then [x] else []).
Proof. rewrite filter_app. reflexivity. Qed.

(** The place of a row put into an ordered list: behind the rows with
    a smaller timestamp and in front of all the others. *)
Lemma insert_by_timestamp_place (r : row) (rs : list row) :
  StronglySorted Spec.not_later rs ->
  insert_by_timestamp r rs
  = filter (fun x => String.ltb (timestamp x) (timestamp r)) rs
    ++ r :: filter (fun x => negb (String.ltb (timestamp x) (timestamp r))) rs.
Proof.
  induction 1 as [| r' rest Hrest IH Hall]; [reflexivity |].
  cbn [insert_by_timestamp filter].
  destruct (String.ltb (timestamp r') (timestamp r)) eqn:E; cbn [negb app].
  - now rewrite IH.
  - assert (Hlater : forall x, In x rest ->
                       String.ltb (timestamp x) (timestamp r) = false).
    { intros x Hx. rewrite Forall_forall in Hall.
      rewrite string_ltb_not_leb. apply negb_false_iff.
      apply (string_leb_trans _ (timestamp r'));
        [now apply string_not_ltb_leb | now apply Hall]. }
    rewrite (filter_none_in _ rest Hlater).
    rewrite (filter_all_in _ rest);
      [reflexivity | intros x Hx; now rewrite (Hlater x Hx)].
Qed.

(** A row newer than all the rows of a list goes in front of them. *)
Lemma insert_by_timestamp_desc_newest (r : row) (rs : list row) :
  (forall r', In r' rs -> String.ltb (timestamp r') (timestamp r) = true) ->
  insert_by_timestamp_desc r rs = r :: rs.
Proof.
  destruct rs as [| r' rest]; [reflexivity |]. intros H. simpl.
  now rewrite (H r' (or_introl eq_refl)).
Qed.

(** X2: after an insert whose timestamp is later than every timestamp
    in the table, [get_latest_metrics] with a limit of at least one
    (and a type condition that the new row meets) returns the new row
    first, followed by what it returned before the insert under a limit
    one smaller. *)
Theorem newest_insert_comes_first (utcnow : datetime)
  (hostname type : string) (data : dict) (status source : string)
  (db db' : database) (row_id : Z) (f : option string) (limit : Z) :
  insert_metrics utcnow hostname type data status source db
  = Ok (row_id, db') ->
  (forall r, In r (rows db) ->
             String.ltb (timestamp r) (isoformat utcnow) = true) ->
  1 <= limit < 2 ^ 63 ->
  let r := mk_row row_id (isoformat utcnow) hostname type data status source in
  of_type f r = true ->
  exists rest,
    get_latest_metrics f limit db' = Ok (r :: rest)
    /\ get_latest_metrics f (limit - 1) db = Ok rest.
Proof.
  intros Hins Hnew Hlimit r Htype.
  destruct (insert_metrics_row _ _ _ _ _ _ _ _ _ Hins) as (Hrows & _).
  fold r in Hrows.
  rewrite !get_latest_metrics_refines by lia.
  rewrite Hrows, filter_snoc, Htype, order_by_timestamp_desc_snoc.
  rewrite insert_by_timestamp_desc_newest.
  - eexists. split; [| reflexivity]. unfold limit_rows.
    destruct (Z.ltb_spec limit 0); [lia |].
    destruct (Z.ltb_spec (limit - 1) 0); [lia |].
    replace (Z.to_nat limit) with (S (Z.to_nat (limit - 1))) by lia.
    reflexivity.
  - intros r' Hr'.
    apply (Permutation_in _ (order_by_timestamp_desc_permutation _)) in Hr'.
    apply filter_In in Hr'. apply Hnew, Hr'.
Qed.

(** X3: a committed insert is seen by every later range query whose
    interval holds its timestamp and whose type condition it meets: the
    answer is the former answer with the new row put in behind the rows
    of an earlier timestamp and in front of all the others, those of
    its own timestamp included; every other range query answers as
    before.  In particular the row is returned by the query from its
    own time to its own time, without a type and with its own
    (non-empty) type. *)
Theorem insert_visible_in_range (utcnow : datetime)
  (hostname type : string) (data : dict) (status source : string)
  (db db' : database) (row_id : Z) :
  insert_metrics utcnow hostname type data status source db
  = Ok (row_id, db') ->
  let r := mk_row row_id (isoformat utcnow) hostname type data status source in
  (forall start_time end_time f,
      let lo := isoformat start_time in
      let hi := isoformat end_time in
      let before := get_metrics_range start_time end_time f db in
      let after := get_metrics_range start_time end_time f db' in
      (Spec.selected lo hi f r = true ->
       after
       = filter (fun x => String.ltb (timestamp x) (isoformat utcnow)) before
         ++ r :: filter (fun x => negb (String.ltb (timestamp x)
                                                   (isoformat utcnow)))
                        before
       /\ after = insert_by_timestamp r before
       /\ Permutation after (r :: before))
      /\ (Spec.selected lo hi f r = false -> after = before))
  /\ In r (get_metrics_range utcnow utcnow None db')
  /\ (type <> ""%string ->
      In r (get_metrics_range utcnow utcnow (Some type) db')).
Proof.
  intros Hins r.
  destruct (insert_metrics_row _ _ _ _ _ _ _ _ _ Hins) as (Hrows & _).
  fold r in Hrows.
  assert (Hquery : forall start_time end_time f,
             get_metrics_range start_time end_time f db'
             = if Spec.selected (isoformat start_time) (isoformat end_time) f r
               then insert_by_timestamp r
                      (get_metrics_range start_time end_time f db)
               else get_metrics_range start_time end_time f db).
  { intros start_time end_time f. rewrite !get_metrics_range_refines.
    rewrite Hrows, filter_snoc.
    destruct (Spec.selected (isoformat start_time) (isoformat end_time) f r).
    - apply order_by_timestamp_snoc.
    - now rewrite app_nil_r. }
  assert (Hself : String.leb (isoformat utcnow) (isoformat utcnow) = true).
  { unfold String.leb. now rewrite string_compare_refl. }
  split; [| split].
  - intros start_time end_time f lo hi before after. unfold after.
    rewrite Hquery. fold lo hi before. split; intros ->.
    + split; [| split; [reflexivity | apply insert_by_timestamp_permutation]].
      apply (insert_by_timestamp_place r before).
      apply Sorted_StronglySorted; [exact not_later_trans |].
      unfold before. rewrite get_metrics_range_refines.
      apply order_by_timestamp_sorted.
    + reflexivity.
  - rewrite Hquery. unfold Spec.selected. cbn [timestamp r].
    rewrite Hself. cbn [andb].
    apply (Permutation_in _ (Permutation_sym (insert_by_timestamp_permutation _ _))).
    now left.
  - intros Htype. rewrite Hquery. unfold Spec.selected. cbn [timestamp r metric_type].
    rewrite Hself. cbn [andb].
    destruct type as [| c s]; [congruence |]. rewrite String.eqb_refl.
    apply (Permutation_in _ (Permutation_sym (insert_by_timestamp_permutation _ _))).
    now left.
Qed.

Lemma newest_insert_comes_first_witness :
  insert_metrics Samples.one_o_clock "host" "memory" [] "OK" "python"
                 Samples.one_row
  = Ok (2, Samples.two_rows)
  /\ exists rest,
       get_latest_metrics None 1 Samples.two_rows
       = Ok (Samples.memory_row :: rest)
       /\ get_latest_metrics None 0 Samples.one_row = Ok rest.
Proof.
  assert (H : insert_metrics Samples.one_o_clock "host" "memory" [] "OK"
                             "python" Samples.one_row
              = Ok (2, Samples.two_rows)) by (vm_compute; reflexivity).
  split; [exact H |].
  apply (newest_insert_comes_first _ _ _ _ _ _ _ _ _ None 1 H).
  - intros r [<- | []]. vm_compute. reflexivity.
  - lia.
  - reflexivity.
Defined.

Lemma insert_visible_in_range_witness :
  insert_metrics Samples.one_o_clock "host" "memory" [] "OK" "python"
                 Samples.one_row
  = Ok (2, Samples.two_rows)
  /\ In Samples.memory_row
        (get_metrics_range Samples.one_o_clock Samples.one_o_clock None
                           Samples.two_rows).
Proof.
  assert (H : insert_metrics Samples.one_o_clock "host" "memory" [] "OK"
                             "python" Samples.one_row
              = Ok (2, Samples.two_rows)) by (vm_compute; reflexivity).
  split; [exact H |].
  exact (proj1 (proj2 (insert_visible_in_range _ _ _ _ _ _ _ _ _ H))).
Defined.

End InsertThenRead.

Section Stats.

Lemma count_split (t : string) (ts : list string) (rs : list row) :
  ~ In t ts ->
  len (filter (fun r => String.eqb (metric_type r) t) rs)
  + len (filter (fun r => existsb (String.eqb (metric_type r)) ts) rs)
  = len (filter (fun r => existsb (String.eqb (metric_type r)) (t :: ts)) rs).
Proof.
  intros Hnot. induction rs as [| r rest IH]; [reflexivity |].
  cbn [filter existsb] in *.
  destruct (String.eqb_spec (metric_type r) t) as [E | E]; cbn [orb].
  - assert (Hno : existsb (String.eqb (metric_type r)) ts = false).
    { destruct (existsb (String.eqb (metric_type r)) ts) eqn:Hex; [| reflexivity].
      apply existsb_exists in Hex. destruct Hex as [t' [Hin Heq]].
      apply String.eqb_eq in Heq. congruence. }
    rewrite Hno. unfold len in *. cbn [List.length]. lia.
  - destruct (existsb (String.eqb (metric_type r)) ts);
      unfold len in *; cbn [List.length]; lia.
Qed.

Lemma counts_total (ts : list string) (rs : list row) :
  NoDup ts ->
  fold_right Z.add 0
    (map (fun t => len (filter (fun r => String.eqb (metric_type r) t) rs)) ts)
  = len (filter (fun r => existsb (String.eqb (metric_type r)) ts) rs).
Proof.
  induction 1 as [| t ts Hnot Hnodup IH]; cbn [map fold_right existsb].
  - rewrite filter_none by reflexivity. reflexivity.
  - rewrite IH. now apply count_split.
Qed.

(** X4: in the result of [get_database_stats], [by_type] has one entry
    for each metric type that occurs in the table, each with the number
    of rows of that type, which is at least one, and these numbers add
    up to [total_records]. *)
Theorem stats_by_type_partition (db : database) :
  let s := get_database_stats db in
  sum_counts (by_type s) = total_records s
  /\ NoDup (map fst (by_type s))
  /\ (forall t n,
         In (t, n) (by_type s)
         <-> (exists r, In r (rows db) /\ metric_type r = t)
             /\ n = len (filter (fun r => String.eqb (metric_type r) t)
                                (rows db)))
  /\ (forall t n, In (t, n) (by_type s) -> 1 <= n).
Proof.
  cbv zeta. unfold get_database_stats. cbn [by_type total_records].
  unfold count_by_type, sum_counts.
  set (types := nodup string_dec (map metric_type (rows db))).
  assert (Hnodup : NoDup types) by apply NoDup_nodup.
  assert (Htypes : forall t, In t types
                             <-> exists r, In r (rows db) /\ metric_type r = t).
  { intros t. unfold types. rewrite nodup_In, in_map_iff.
    split; intros [r [H1 H2]]; exists r; auto. }
  assert (Hmem : forall t n,
             In (t, n)
                (map (fun t => (t, len (filter (fun r => String.eqb (metric_type r) t)
                                               (rows db)))) types)
             <-> In t types
                 /\ n = len (filter (fun r => String.eqb (metric_type r) t)
                                    (rows db))).
  { intros t n. rewrite in_map_iff. split.
    - intros [t' [E Hin]]. injection E as -> <-. auto.
    - intros [Hin ->]. exists t. auto. }
  split; [| split; [| split]].
  - rewrite map_map. cbn [snd]. rewrite counts_total by exact Hnodup.
    f_equal. apply filter_all_in. intros r Hr.
    apply existsb_exists. exists (metric_type r).
    split; [| apply String.eqb_refl]. apply Htypes. eauto.
  - rewrite map_map. cbn [fst]. now rewrite map_id.
  - intros t n. rewrite Hmem, Htypes. reflexivity.
  - intros t n Hin. apply Hmem in Hin. destruct Hin as [Hin ->].
    apply Htypes in Hin. destruct Hin as [r [Hr Et]].
    assert (Hf : In r (filter (fun r => String.eqb (metric_type r) t) (rows db))).
    { apply filter_In. split; [exact Hr |]. now apply String.eqb_eq. }
    unfold len.
    destruct (filter (fun r => String.eqb (metric_type r) t) (rows db));
      [destruct Hf | cbn [List.length]; lia].
Qed.

Lemma min_timestamp_from (rs : list row) :
  forall m,
    let lo := fold_left (fun m r' => if String.ltb (timestamp r') m
                                     then timestamp r' else m) rs m in
    String.leb lo m = true
    /\ (lo = m \/ exists r, In r rs /\ timestamp r = lo)
    /\ forall r, In r rs -> String.leb lo (timestamp r) = true.
Proof.
  induction rs as [| r rest IH]; intros m; cbn [fold_left].
  - split; [unfold String.leb; now rewrite string_compare_refl |].
    split; [now left | intros r []].
  - destruct (IH (if String.ltb (timestamp r) m then timestamp r else m))
      as [H1 [H2 H3]].
    set (lo := fold_left _ rest _) in *.
    destruct (String.ltb (timestamp r) m) eqn:E.
    + split; [eapply string_leb_trans; [exact H1 | now apply string_ltb_leb] |].
      split.
      * right. destruct H2 as [-> | [r' [Hin Hr']]];
          [exists r; split; [now left | reflexivity]
          | exists r'; split; [now right | exact Hr']].
      * intros r' [<- | Hin]; [exact H1 | now apply H3].
    + split; [exact H1 |]. split.
      * destruct H2 as [-> | [r' [Hin Hr']]]; [now left |].
        right. exists r'. split; [now right | exact Hr'].
      * intros r' [<- | Hin]; [| now apply H3].
        eapply string_leb_trans; [exact H1 | now apply string_not_ltb_leb].
Qed.

Lemma max_timestamp_from (rs : list row) :
  forall m,
    let hi := fold_left (fun m r' => if String.ltb m (timestamp r')
                                     then timestamp r' else m) rs m in
    String.leb m hi = true
    /\ (hi = m \/ exists r, In r rs /\ timestamp r = hi)
    /\ forall r, In r rs -> String.leb (timestamp r) hi = true.
Proof.
  induction rs as [| r rest IH]; intros m; cbn [fold_left].
  - split; [unfold String.leb; now rewrite string_compare_refl |].
    split; [now left | intros r []].
  - destruct (IH (if String.ltb m (timestamp r) then timestamp r else m))
      as [H1 [H2 H3]].
    set (hi := fold_left _ rest _) in *.
    destruct (String.ltb m (timestamp r)) eqn:E.
    + split; [apply (string_leb_trans _ (timestamp r));
             [now apply string_ltb_leb | exact H1] |].
      split.
      * right. destruct H2 as [-> | [r' [Hin Hr']]];
          [exists r; split; [now left | reflexivity]
          | exists r'; split; [now right | exact Hr']].
      * intros r' [<- | Hin]; [exact H1 | now apply H3].
    + split; [exact H1 |]. split.
      * destruct H2 as [-> | [r' [Hin Hr']]]; [now left |].
        right. exists r'. split; [now right | exact Hr'].
      * intros r' [<- | Hin]; [| now apply H3].
        apply (string_leb_trans _ m); [now apply string_not_ltb_leb | exact H1].
Qed.

(** X5: [get_database_stats] reports [None] for [oldest_record] and
    [newest_record] on an empty table; otherwise both are timestamps of
    rows of the table and every row's timestamp lies between them, in
    the order of text. *)
Theorem stats_oldest_newest (db : database) :
  let s := get_database_stats db in
  (rows db = [] -> oldest_record s = None /\ newest_record s = None)
  /\ (rows db <> [] ->
      exists lo hi,
        oldest_record s = Some lo /\ newest_record s = Some hi
        /\ (exists r, In r (rows db) /\ timestamp r = lo)
        /\ (exists r, In r (rows db) /\ timestamp r = hi)
        /\ forall r, In r (rows db) ->
                     String.leb lo (timestamp r) = true
                     /\ String.leb (timestamp r) hi = true).
Proof.
  cbv zeta. unfold get_database_stats. cbn [oldest_record newest_record].
  destruct (rows db) as [| r rest]; split; try congruence.
  - now split.
  - intros _. unfold min_timestamp, max_timestamp.
    destruct (min_timestamp_from rest (timestamp r)) as [L1 [L2 L3]].
    destruct (max_timestamp_from rest (timestamp r)) as [U1 [U2 U3]].
    eexists _, _. split; [reflexivity |]. split; [reflexivity |].
    split; [| split].
    + destruct L2 as [-> | [r' [Hin Hr']]];
        [exists r; split; [now left | reflexivity]
        | exists r'; split; [now right | exact Hr']].
    + destruct U2 as [-> | [r' [Hin Hr']]];
        [exists r; split; [now left | reflexivity]
        | exists r'; split; [now right | exact Hr']].
    + intros r' [<- | Hin]; split; auto.
Qed.

End Stats.

Section Bookkeeping.

Lemma filter_filter_neg {A : Type} (p : A -> bool) (xs : list A) :
  filter p (filter (fun x => negb (p x)) xs) = []
  /\ filter (fun x => negb (p x)) (filter (fun x => negb (p x)) xs)
     = filter (fun x => negb (p x)) xs.
Proof.
  split.
  - apply filter_none_in. intros x Hx. apply filter_In in Hx.
    now apply negb_true_iff.
  - apply filter_all_in. intros x Hx. now apply filter_In in Hx.
Qed.

(** X6: a cleanup repeated at the same reading of the clock and with
    the same retention finds nothing left to delete: it returns 0 and
    leaves the database as the first cleanup left it. *)
Theorem cleanup_twice (utcnow : datetime) (days : Z) (db db' : database)
  (n : Z) :
  cleanup_old_records utcnow days db = Ok (n, db') ->
  cleanup_old_records utcnow days db' = Ok (0, db').
Proof.
  unfold cleanup_old_records.
  destruct (sub_days utcnow days) as [cutoff | e msg]; [| discriminate].
  cbn [bind]. intros H. injection H as _ <-. cbn [rows sequence].
  destruct (filter_filter_neg
              (fun r => String.ltb (timestamp r) (isoformat cutoff)) (rows db))
    as [E1 E2].
  now rewrite E1, E2.
Qed.

Lemma cleanup_twice_witness :
  cleanup_old_records (mk_datetime 2024 3 9 12 0 0 0) 7 Samples.one_row
  = Ok (1, mk_database [] 1)
  /\ cleanup_old_records (mk_datetime 2024 3 9 12 0 0 0) 7 (mk_database [] 1)
     = Ok (0, mk_database [] 1).
Proof.
  assert (H : cleanup_old_records (mk_datetime 2024 3 9 12 0 0 0) 7
                                  Samples.one_row
              = Ok (1, mk_database [] 1)) by (vm_compute; reflexivity).
  split; [exact H |]. exact (cleanup_twice _ _ _ _ _ H).
Defined.

Lemma max_rowid_upper (rs : list row) (bound : Z) :
  forall m,
    m <= bound -> Forall (fun r => id r <= bound) rs ->
    fold_left (fun m r => Z.max m (id r)) rs m <= bound.
Proof.
  induction rs as [| r rest IH]; intros m Hm Hall; cbn [fold_left]; [exact Hm |].
  inversion Hall; subst. apply IH; [lia | assumption].
Qed.

Lemma next_rowid_ordered (db : database) (row_id : Z) :
  ordered_table db -> next_rowid db = Ok row_id ->
  row_id = sequence db + 1.
Proof.
  intros (Hseq & _ & Hall). unfold next_rowid.
  assert (Hmax : max_rowid (rows db) <= sequence db).
  { apply max_rowid_upper; [exact Hseq |].
    eapply Forall_impl; [| exact Hall]. simpl. intros r Hr. lia. }
  rewrite Z.max_l by exact Hmax.
  destruct (MAX_ROWID <=? sequence db); [discriminate |].
  intros H. now injection H.
Qed.

Lemma sorted_snoc {A : Type} (R : A -> A -> Prop) (xs : list A) (x : A) :
  StronglySorted R xs -> Forall (fun y => R y x) xs ->
  StronglySorted R (xs ++ [x]).
Proof.
  induction 1 as [| y rest Hrest IH Hall]; intros Hx; simpl.
  - repeat constructor.
  - inversion Hx; subst. constructor; [now apply IH |].
    apply Forall_app. split; [exact Hall | now repeat constructor].
Qed.

Lemma sorted_filter {A : Type} (R : A -> A -> Prop) (p : A -> bool)
  (xs : list A) :
  StronglySorted R xs -> StronglySorted R (filter p xs).
Proof.
  induction 1 as [| x rest Hrest IH Hall]; simpl; [constructor |].
  destruct (p x); [| exact IH]. constructor; [exact IH |].
  apply Forall_forall. intros y Hy. apply filter_In in Hy.
  rewrite Forall_forall in Hall. now apply Hall.
Qed.

Lemma forall_filter {A : Type} (P : A -> Prop) (p : A -> bool) (xs : list A) :
  Forall P xs -> Forall P (filter p xs).
Proof.
  rewrite !Forall_forall. intros H x Hx. apply filter_In in Hx. now apply H.
Qed.

(** What an insert and a cleanup do to an ordered table. *)
Lemma step_ordered (db : database) (op : operation) :
  ordered_table db ->
  ordered_table (snd (step db op))
  /\ match fst (step db op) with
     | Inserted row_id =>
         row_id = sequence db + 1 /\ sequence (snd (step db op)) = row_id
     | _ => sequence (snd (step db op)) = sequence db
     end.
Proof.
  intros Hdb. pose proof Hdb as (Hseq & Hsorted & Hall).
  destruct op as [utcnow hostname type data status source | utcnow days];
    unfold step.
  - unfold insert_metrics, json_dumps.
    destruct (json_encodable (PyDict data)); cbn [bind fst snd];
      [| now split].
    destruct (next_rowid db) as [row_id |] eqn:E; cbn [bind fst snd];
      [| now split].
    apply (next_rowid_ordered db row_id Hdb) in E.
    split; [| now split].
    split; [cbn [sequence]; lia |]. cbn [rows sequence]. split.
    + apply sorted_snoc; [exact Hsorted |].
      eapply Forall_impl; [| exact Hall]. cbn [id]. intros r Hr. lia.
    + apply Forall_app. split.
      * eapply Forall_impl; [| exact Hall]. simpl. intros r Hr. lia.
      * repeat constructor; cbn [id]; lia.
  - unfold cleanup_old_records.
    destruct (sub_days utcnow days) as [cutoff | e msg]; cbn [bind fst snd];
      [| now split].
    split; [| reflexivity].
    split; [exact Hseq |]. cbn [rows sequence].
    split; [now apply sorted_filter | now apply forall_filter].
Qed.

Lemma empty_ordered : ordered_table empty.
Proof. split; [simpl; lia |]. split; constructor. Qed.

Lemma run_ordered (ops : list operation) :
  forall db,
    ordered_table db ->
    ordered_table (snd (run db ops))
    /\ inserted_ids (fst (run db ops))
       = map (fun k => sequence db + Z.of_nat k)
             (seq 1 (List.length (inserted_ids (fst (run db ops)))))
    /\ sequence (snd (run db ops))
       = sequence db + len (inserted_ids (fst (run db ops))).
Proof.
  induction ops as [| op rest IH]; intros db Hdb.
  - cbn. split; [exact Hdb |]. split; [reflexivity | unfold len; simpl; lia].
  - rewrite run_cons. cbn [fst snd].
    destruct (step_ordered db op Hdb) as [Hnext Hout].
    destruct (IH _ Hnext) as [Hfinal [Hids Hseq]].
    split; [exact Hfinal |].
    destruct (fst (step db op)) as [row_id | n | e msg]; cbn [inserted_ids].
    + destruct Hout as [-> Hs]. rewrite Hs in Hids, Hseq.
      split.
      * set (ids := inserted_ids (fst (run (snd (step db op)) rest))) in *.
        cbn [List.length seq map]. f_equal; try lia.
        rewrite Hids at 1.
        rewrite <- (seq_shift (List.length ids) 1), map_map.
        apply map_ext. intros k. lia.
      * rewrite Hseq. unfold len. cbn [List.length]. lia.
    + rewrite Hout in Hids, Hseq. now split.
    + rewrite Hout in Hids, Hseq. now split.
Qed.

(** X7: on a new database the inserts return 1, 2, 3, ... in order,
    whatever the cleanups in between have deleted, and the largest id
    given out is the number of inserts made. *)
Theorem ids_count_from_one (ops : list operation) :
  let ids := inserted_ids (fst (run empty ops)) in
  ids = map Z.of_nat (seq 1 (List.length ids))
  /\ sequence (snd (run empty ops)) = len ids.
Proof.
  cbv zeta. destruct (run_ordered ops empty empty_ordered) as [_ [Hids Hseq]].
  split; [| exact Hseq].
  rewrite Hids at 1. apply map_ext. intros k. cbn [sequence empty]. lia.
Qed.

(** X8: after every history of inserts and cleanups on a new database
    the rows of the table are in strictly increasing order of id, no
    two rows share an id, and every id lies between one and the number
    of inserts made. *)
Theorem table_in_id_order (ops : list operation) :
  let db := snd (run empty ops) in
  StronglySorted (fun a b => id a < id b) (rows db)
  /\ NoDup (map id (rows db))
  /\ Forall (fun r => 1 <= id r <= len (inserted_ids (fst (run empty ops))))
            (rows db).
Proof.
  cbv zeta.
  destruct (run_ordered ops empty empty_ordered)
    as [(Hseq & Hsorted & Hall) [_ Hcount]].
  split; [exact Hsorted |]. split.
  - apply sorted_nodup.
    clear - Hsorted. induction Hsorted as [| r rest Hrest IH Hr]; simpl;
      constructor; [exact IH |].
    apply Forall_forall. intros i Hi. apply in_map_iff in Hi.
    destruct Hi as [r' [<- Hin]]. rewrite Forall_forall in Hr. now apply Hr.
  - rewrite Hcount in Hall. exact Hall.
Qed.

(** X9: no operation changes a stored row: after every history, from
    every state of the store, each row of the table either was there
    at the start or is, field by field, what one of the inserts of the
    history wrote. *)
Theorem rows_written_once (ops : list operation) :
  forall db r,
    In r (rows (snd (run db ops))) ->
    In r (rows db) \/ exists op, In op ops /\ written_by op r.
Proof.
  induction ops as [| op rest IH]; intros db r Hr; [now left |].
  rewrite run_cons in Hr. cbn [snd] in Hr.
  destruct (IH _ _ Hr) as [Hin | [op' [Hop Hw]]];
    [| right; exists op'; split; [now right | exact Hw]].
  destruct op as [utcnow hostname type data status source | utcnow days];
    unfold step in Hin.
  - destruct (insert_metrics utcnow hostname type data status source db)
      as [[row_id db'] | e msg] eqn:E; cbn [snd] in Hin; [| now left].
    destruct (insert_metrics_row _ _ _ _ _ _ _ _ _ E) as (Hrows & _).
    rewrite Hrows in Hin. apply in_app_or in Hin.
    destruct Hin as [Hin | [<- | []]]; [now left |].
    right. eexists. split; [now left |]. reflexivity.
  - unfold cleanup_old_records in Hin.
    destruct (sub_days utcnow days) as [cutoff | e msg];
      cbn [bind snd rows] in Hin; [| now left].
    apply filter_In in Hin. now left.
Qed.

Lemma rows_written_once_witness :
  In Samples.memory_row (rows (snd (run empty Samples.history)))
  /\ (In Samples.memory_row (rows empty)
      \/ exists op, In op Samples.history
                    /\ written_by op Samples.memory_row).
Proof.
  assert (H : In Samples.memory_row (rows (snd (run empty Samples.history))))
    by (vm_compute; auto).
  split; [exact H |]. exact (rows_written_once _ _ _ H).
Defined.

End Bookkeeping.

Section Chronology.

Lemma string_ltb_trans (a b c : string) :
  String.ltb a b = true -> String.ltb b c = true -> String.ltb a c = true.
Proof.
  unfold String.ltb.
  destruct (String.compare a b) eqn:E1; try discriminate.
  destruct (String.compare b c) eqn:E2; try discriminate.
  now rewrite (string_compare_trans a b c E1 E2).
Qed.

Lemma string_ltb_leb_trans (a b c : string) :
  String.ltb a b = true -> String.leb b c = true -> String.ltb a c = true.
Proof.
  intros H1 H2. rewrite string_ltb_not_leb. apply negb_true_iff.
  destruct (String.leb c a) eqn:E; [| reflexivity].
  pose proof (string_leb_trans b c a H2 E) as H.
  rewrite string_ltb_not_leb in H1. rewrite H in H1. discriminate.
Qed.

(** A row later than all the rows of a list goes behind them. *)
Lemma insert_by_timestamp_last (r : row) (rs : list row) :
  (forall r', In r' rs -> String.ltb (timestamp r') (timestamp r) = true) ->
  insert_by_timestamp r rs = rs ++ [r].
Proof.
  induction rs as [| r' rest IH]; intros H; [reflexivity |]. simpl.
  rewrite (H r' (or_introl eq_refl)). f_equal. apply IH.
  intros x Hx. apply H. now right.
Qed.

(** [ORDER BY timestamp] leaves a chronological list as it is. *)
Lemma order_by_timestamp_chronological (rs : list row) :
  chronological rs -> order_by_timestamp rs = rs.
Proof.
  unfold order_by_timestamp.
  assert (H : forall acc,
             chronological (acc ++ rs) ->
             fold_left (fun acc r => insert_by_timestamp r acc) rs acc
             = acc ++ rs).
  { induction rs as [| r rest IH]; intros acc Hs; cbn [fold_left].
    - now rewrite app_nil_r.
    - rewrite insert_by_timestamp_last.
      + rewrite IH; rewrite <- app_assoc; [reflexivity | exact Hs].
      + intros r' Hr'.
        apply sorted_app in Hs. destruct Hs as [_ [_ Hs]].
        apply Hs; [exact Hr' | now left]. }
  intros Hs. apply (H []). exact Hs.
Qed.

Lemma step_chronological (db : database) (op : operation)
  (later : list datetime) :
  Forall (fun t => valid t = true) (insert_clocks [op] ++ later) ->
  StronglySorted (fun a b => Datetime.compare a b = Lt)
                 (insert_clocks [op] ++ later) ->
  chronological (rows db) ->
  Forall (fun r => Forall (fun t => String.ltb (timestamp r) (isoformat t) = true)
                          (insert_clocks [op] ++ later))
         (rows db) ->
  chronological (rows (snd (step db op)))
  /\ Forall (fun r => Forall (fun t => String.ltb (timestamp r) (isoformat t) = true)
                            later)
            (rows (snd (step db op))).
Proof.
  intros Hvalid Hclocks Hrows Hbefore.
  destruct op as [utcnow hostname type data status source | utcnow days];
    unfold step; cbn [insert_clocks app] in *.
  - assert (Hbefore' : Forall (fun r => Forall (fun t => String.ltb (timestamp r) (isoformat t) = true) later) (rows db)).
    { eapply Forall_impl; [| exact Hbefore]. simpl. intros r Hr.
      now inversion Hr. }
    destruct (insert_metrics utcnow hostname type data status source db)
      as [[row_id db'] | e msg] eqn:E; cbn [snd]; [| now split].
    destruct (insert_metrics_row _ _ _ _ _ _ _ _ _ E) as (-> & _).
    split.
    + apply sorted_snoc; [exact Hrows |].
      eapply Forall_impl; [| exact Hbefore]. cbn [timestamp]. intros r Hr.
      now inversion Hr.
    + apply Forall_app. split; [exact Hbefore' |].
      constructor; [| constructor]. cbn [timestamp].
      inversion Hclocks as [| ? ? _ Hlater]; subst.
      inversion Hvalid as [| ? ? Hnow Hvlater]; subst.
      rewrite Forall_forall in *. intros t Ht.
      apply (timestamp_order utcnow t);
        [now apply valid_printable | apply valid_printable; now apply Hvlater
        | now apply Hlater].
  - unfold cleanup_old_records.
    destruct (sub_days utcnow days) as [cutoff | e msg]; cbn [bind snd rows];
      [| now split].
    split; [now apply sorted_filter | now apply forall_filter].
Qed.

Lemma run_chronological (ops : list operation) :
  forall db,
    Forall (fun t => valid t = true) (insert_clocks ops) ->
    StronglySorted (fun a b => Datetime.compare a b = Lt) (insert_clocks ops) ->
    chronological (rows db) ->
    Forall (fun r => Forall (fun t => String.ltb (timestamp r) (isoformat t) = true)
                            (insert_clocks ops))
           (rows db) ->
    chronological (rows (snd (run db ops))).
Proof.
  induction ops as [| op rest IH]; intros db Hvalid Hclocks Hrows Hbefore;
    [exact Hrows |].
  rewrite run_cons. cbn [snd].
  assert (E : insert_clocks (op :: rest) = insert_clocks [op] ++ insert_clocks rest)
    by (destruct op; reflexivity).
  rewrite E in *.
  destruct (step_chronological db op (insert_clocks rest)
              Hvalid Hclocks Hrows Hbefore) as [H1 H2].
  apply IH; try assumption.
  - rewrite Forall_app in Hvalid. apply Hvalid.
  - apply sorted_app in Hclocks. apply Hclocks.
Qed.

(** X10: when the clock shows valid and strictly increasing times at
    the inserts of a history on a new database, the timestamps of the
    table increase with the ids, so every range query returns the
    selected rows in the order of the table: in increasing order of
    id. *)
Theorem range_query_in_insert_order (ops : list operation) :
  Forall (fun t => valid t = true) (insert_clocks ops) ->
  StronglySorted (fun a b => Datetime.compare a b = Lt) (insert_clocks ops) ->
  let db := snd (run empty ops) in
  forall start_time end_time f,
    get_metrics_range start_time end_time f db
    = filter (Spec.selected (isoformat start_time) (isoformat end_time) f)
             (rows db)
    /\ StronglySorted (fun a b => id a < id b)
                      (get_metrics_range start_time end_time f db).
Proof.
  intros Hvalid Hclocks db start_time end_time f.
  assert (Hrows : chronological (rows db)).
  { apply run_chronological; try assumption; constructor. }
  assert (E : get_metrics_range start_time end_time f db
              = filter (Spec.selected (isoformat start_time)
                                      (isoformat end_time) f) (rows db)).
  { rewrite get_metrics_range_refines.
    apply order_by_timestamp_chronological. now apply sorted_filter. }
  split; [exact E |]. rewrite E. apply sorted_filter.
  apply (run_ordered ops empty empty_ordered).
Qed.

Lemma range_query_in_insert_order_witness :
  Forall (fun t => valid t = true) (insert_clocks Samples.history)
  /\ StronglySorted (fun a b => Datetime.compare a b = Lt)
                    (insert_clocks Samples.history)
  /\ StronglySorted (fun a b => id a < id b)
                    (get_metrics_range Samples.noon Samples.one_o_clock None
                                       (snd (run empty Samples.history))).
Proof.
  assert (H1 : Forall (fun t => valid t = true)
                      (insert_clocks Samples.history))
    by (repeat constructor).
  assert (H2 : StronglySorted (fun a b => Datetime.compare a b = Lt)
                              (insert_clocks Samples.history))
    by (repeat constructor).
  split; [exact H1 |]. split; [exact H2 |].
  exact (proj2 (range_query_in_insert_order _ H1 H2 Samples.noon
                                            Samples.one_o_clock None)).
Defined.

End Chronology.

Section CleanupThenQuery.

Lemma insert_by_timestamp_strongly_sorted (r : row) (rs : list row) :
  StronglySorted Spec.not_later rs ->
  StronglySorted Spec.not_later (insert_by_timestamp r rs).
Proof.
  intros H. apply Sorted_StronglySorted; [exact not_later_trans |].
  apply insert_by_timestamp_sorted. now apply StronglySorted_Sorted.
Qed.

(** Inserting into a sorted list and dropping rows from it commute. *)
Lemma insert_by_timestamp_filter (p : row -> bool) (r : row) (rs : list row) :
  StronglySorted Spec.not_later rs ->
  filter p (insert_by_timestamp r rs)
  = if p r then insert_by_timestamp r (filter p rs) else filter p rs.
Proof.
  induction 1 as [| r' rest Hrest IH Hall]; cbn [insert_by_timestamp filter].
  - now destruct (p r).
  - destruct (String.ltb (timestamp r') (timestamp r)) eqn:E.
    + cbn [filter]. rewrite IH.
      destruct (p r'), (p r); cbn [insert_by_timestamp]; rewrite ?E; reflexivity.
    + cbn [filter]. destruct (p r); [| reflexivity].
      assert (Hfront : forall xs,
                 Forall (fun x => String.ltb (timestamp x) (timestamp r) = false) xs ->
                 insert_by_timestamp r xs = r :: xs).
      { intros [| x xs] Hx; [reflexivity |]. simpl.
        inversion Hx; subst. now rewrite H1. }
      rewrite Hfront; [reflexivity |].
      assert (Hlater : Forall (fun x => String.ltb (timestamp x) (timestamp r) = false)
                              (r' :: rest)).
      { constructor; [exact E |].
        eapply Forall_impl; [| exact Hall]. simpl. intros x Hx.
        rewrite string_ltb_not_leb. apply negb_false_iff.
        apply (string_leb_trans _ (timestamp r'));
          [now apply string_not_ltb_leb | exact Hx]. }
      change (if p r' then r' :: filter p rest else filter p rest)
        with (filter p (r' :: rest)).
      now apply forall_filter.
Qed.

Lemma order_by_timestamp_filter (p : row -> bool) (rs : list row) :
  order_by_timestamp (filter p rs) = filter p (order_by_timestamp rs).
Proof.
  unfold order_by_timestamp.
  assert (H : forall acc,
             StronglySorted Spec.not_later acc ->
             fold_left (fun acc r => insert_by_timestamp r acc)
                       (filter p rs) (filter p acc)
             = filter p (fold_left (fun acc r => insert_by_timestamp r acc)
                                   rs acc)).
  { induction rs as [| r rest IH]; intros acc Hacc; cbn [filter fold_left];
      [reflexivity |].
    rewrite <- IH by now apply insert_by_timestamp_strongly_sorted.
    rewrite insert_by_timestamp_filter by exact Hacc.
    now destruct (p r). }
  apply (H []). constructor.
Qed.

Lemma filter_comm {A : Type} (p q : A -> bool) (xs : list A) :
  filter p (filter q xs) = filter q (filter p xs).
Proof.
  induction xs as [| x rest IH]; [reflexivity |]. simpl.
  destruct (p x) eqn:Ep, (q x) eqn:Eq; simpl; rewrite ?Ep, ?Eq, IH; reflexivity.
Qed.

(** X11: a range query after a cleanup returns what the same query
    returned before it, without the rows older than the cutoff, in the
    same order. *)
Theorem cleanup_then_range_query (utcnow : datetime) (days : Z)
  (db db' : database) (n : Z) :
  cleanup_old_records utcnow days db = Ok (n, db') ->
  exists cutoff,
    sub_days utcnow days = Ok cutoff
    /\ forall start_time end_time f,
         get_metrics_range start_time end_time f db'
         = filter (fun r => negb (String.ltb (timestamp r) (isoformat cutoff)))
                  (get_metrics_range start_time end_time f db).
Proof.
  unfold cleanup_old_records.
  destruct (sub_days utcnow days) as [cutoff | e msg]; [| discriminate].
  cbn [bind]. intros H. injection H as _ <-.
  exists cutoff. split; [reflexivity |]. intros start_time end_time f.
  rewrite !get_metrics_range_refines. cbn [rows].
  now rewrite filter_comm, order_by_timestamp_filter.
Qed.

Lemma cleanup_then_range_query_witness :
  cleanup_old_records (mk_datetime 2024 3 8 12 30 0 0) 7 Samples.two_rows
  = Ok (1, mk_database [Samples.memory_row] 2)
  /\ exists cutoff,
       sub_days (mk_datetime 2024 3 8 12 30 0 0) 7 = Ok cutoff
       /\ forall start_time end_time f,
            get_metrics_range start_time end_time f
                              (mk_database [Samples.memory_row] 2)
            = filter (fun r => negb (String.ltb (timestamp r)
                                                (isoformat cutoff)))
                     (get_metrics_range start_time end_time f
                                        Samples.two_rows).
Proof.
  assert (H : cleanup_old_records (mk_datetime 2024 3 8 12 30 0 0) 7
                                  Samples.two_rows
              = Ok (1, mk_database [Samples.memory_row] 2))
    by (vm_compute; reflexivity).
  split; [exact H |]. exact (cleanup_then_range_query _ _ _ _ _ H).
Defined.

End CleanupThenQuery.

Section CommandLine.

Import Cli Analyzer.

Lemma timedelta_hours_ok (hours : Z) :
  - 999999999 * 24 <= hours < 1000000000 * 24 ->
  timedelta_hours hours = Ok (hours / 24, (hours mod 24) * 3600).
Proof.
  intros H. unfold timedelta_hours. cbv zeta.
  assert (Hd : - 999999999 <= hours / 24 <= 999999999).
  { pose proof (Z.div_mod hours 24 ltac:(lia)).
    pose proof (Z.mod_pos_bound hours 24 ltac:(lia)). lia. }
  assert (E1 : ((hours / 24 <? - 2 ^ 31) || (2 ^ 31 <=? hours / 24)) = false).
  { apply orb_false_iff. split; [apply Z.ltb_ge | apply Z.leb_gt]; lia. }
  assert (E2 : (999999999 <? Z.abs (hours / 24)) = false)
    by (apply Z.ltb_ge; lia).
  now rewrite E1, E2.
Qed.

Lemma ymd2ord_day (y m d k : Z) : _ymd2ord y m (d + k) = _ymd2ord y m d + k.
Proof. unfold _ymd2ord. lia. Qed.

(** What the subtraction of a [timedelta] of whole seconds gives, when
    it gives a datetime. *)
Lemma sub_timedelta_seconds (t start : datetime) (days seconds : Z) :
  sub_timedelta t (days, seconds) = Ok start ->
  seconds_of start = seconds_of t - (days * 86400 + seconds)
  /\ microsecond start = microsecond t
  /\ 1 <= year start <= 9999 /\ 1 <= month start <= 12
  /\ 1 <= day start <= 31
  /\ 0 <= hour start < 24 /\ 0 <= minute start < 60
  /\ 0 <= second start < 60.
Proof.
  unfold sub_timedelta, normalize_pair.
  set (s0 := second t - seconds).
  set (m1 := minute t + s0 / 60).
  set (h1 := hour t + m1 / 60).
  set (ordinal := _ymd2ord (year t) (month t) (day t - days + h1 / 24)).
  destruct ((0 <? ordinal) && (ordinal <=? _MAXORDINAL)) eqn:E;
    [| discriminate].
  apply andb_true_iff in E. destruct E as [E1 E2].
  pose proof (ord2ymd_range ordinal ltac:(lia)) as Hrange.
  pose proof (ymd2ord_ord2ymd ordinal ltac:(lia)) as Hord.
  destruct (_ord2ymd ordinal) as [[y m] d].
  intros H. injection H as <-.
  unfold seconds_of. cbn [year month day hour minute second microsecond].
  rewrite Hord. unfold ordinal.
  replace (day t - days + h1 / 24) with (day t + (- days + h1 / 24)) by lia.
  rewrite ymd2ord_day.
  pose proof (Z.div_mod s0 60 ltac:(lia)).
  pose proof (Z.div_mod m1 60 ltac:(lia)).
  pose proof (Z.div_mod h1 24 ltac:(lia)).
  pose proof (Z.mod_pos_bound s0 60 ltac:(lia)).
  pose proof (Z.mod_pos_bound m1 60 ltac:(lia)).
  pose proof (Z.mod_pos_bound h1 24 ltac:(lia)).
  split; [| repeat split; lia].
  unfold h1, m1, s0 in *. lia.
Qed.

Lemma days_before_month_bound (y m d : Z) :
  1 <= m <= 12 -> 1 <= d <= _days_in_month y m ->
  1 <= _days_before_month y m + d <= 365 + (if _is_leap y then 1 else 0).
Proof.
  intros Hm. unfold _days_in_month, _days_before_month.
  assert (E : m = 1 \/ m = 2 \/ m = 3 \/ m = 4 \/ m = 5 \/ m = 6 \/ m = 7
              \/ m = 8 \/ m = 9 \/ m = 10 \/ m = 11 \/ m = 12) by lia.
  repeat (destruct E as [E | E]); subst m;
    destruct (_is_leap y); cbv -[Z.add Z.le Z.lt]; lia.
Qed.

Lemma ymd2ord_bounds (t : datetime) :
  valid t = true ->
  _days_before_year (year t) + 1 <= _ymd2ord (year t) (month t) (day t)
  /\ _ymd2ord (year t) (month t) (day t) <= _MAXORDINAL.
Proof.
  unfold valid. intros H.
  repeat (apply andb_true_iff in H; destruct H as [H ?]).
  pose proof (days_before_month_bound (year t) (month t) (day t)
                ltac:(lia) ltac:(lia)) as Hb.
  unfold _ymd2ord. split; [lia |].
  unfold _MAXORDINAL.
  assert (Hy : year t <= 9998 \/ year t = 9999) by lia.
  destruct Hy as [Hy | Hy].
  - assert (_days_before_year (year t) <= 3651329).
    { unfold _days_before_year.
      pose proof (Z.div_mod (year t - 1) 4 ltac:(lia)).
      pose proof (Z.mod_pos_bound (year t - 1) 4 ltac:(lia)).
      pose proof (Z.div_mod (year t - 1) 100 ltac:(lia)).
      pose proof (Z.mod_pos_bound (year t - 1) 100 ltac:(lia)).
      pose proof (Z.div_mod (year t - 1) 400 ltac:(lia)).
      pose proof (Z.mod_pos_bound (year t - 1) 400 ltac:(lia)).
      lia. }
    destruct (_is_leap (year t)); lia.
  - rewrite Hy in *. change (_is_leap 9999) with false in Hb.
    change (_days_before_year 9999) with 3651694. lia.
Qed.

Lemma days_before_year_1970 (y : Z) :
  1970 <= y -> 719162 <= _days_before_year y.
Proof.
  intros Hy. unfold _days_before_year.
  pose proof (Z.div_mod (y - 1) 4 ltac:(lia)).
  pose proof (Z.mod_pos_bound (y - 1) 4 ltac:(lia)).
  pose proof (Z.div_mod (y - 1) 100 ltac:(lia)).
  pose proof (Z.mod_pos_bound (y - 1) 100 ltac:(lia)).
  pose proof (Z.div_mod (y - 1) 400 ltac:(lia)).
  pose proof (Z.mod_pos_bound (y - 1) 400 ltac:(lia)).
  lia.
Qed.

(** The start of the window of an analysis exists for every clock since
    1970 and every window of up to a million hours. *)
Lemma window_start (utcnow : datetime) (hours : Z) :
  valid utcnow = true -> 1970 <= year utcnow -> 0 <= hours <= 1000000 ->
  exists start_time,
    sub_timedelta utcnow (hours / 24, (hours mod 24) * 3600) = Ok start_time.
Proof.
  intros Hvalid Hyear Hhours.
  destruct (ymd2ord_bounds utcnow Hvalid) as [Hlo Hhi].
  pose proof (days_before_year_1970 _ Hyear) as H1970.
  unfold valid in Hvalid.
  repeat (apply andb_true_iff in Hvalid; destruct Hvalid as [Hvalid ?]).
  unfold sub_timedelta, normalize_pair.
  set (s0 := second utcnow - hours mod 24 * 3600).
  set (m1 := minute utcnow + s0 / 60).
  set (h1 := hour utcnow + m1 / 60).
  set (ordinal := _ymd2ord (year utcnow) (month utcnow)
                           (day utcnow - hours / 24 + h1 / 24)).
  assert (Hord : 0 < ordinal <= _MAXORDINAL).
  { unfold ordinal.
    replace (day utcnow - hours / 24 + h1 / 24)
      with (day utcnow + (- (hours / 24) + h1 / 24)) by lia.
    rewrite ymd2ord_day.
    pose proof (Z.div_mod hours 24 ltac:(lia)).
    pose proof (Z.mod_pos_bound hours 24 ltac:(lia)).
    pose proof (Z.div_mod s0 60 ltac:(lia)).
    pose proof (Z.mod_pos_bound s0 60 ltac:(lia)).
    pose proof (Z.div_mod m1 60 ltac:(lia)).
    pose proof (Z.mod_pos_bound m1 60 ltac:(lia)).
    pose proof (Z.div_mod h1 24 ltac:(lia)).
    pose proof (Z.mod_pos_bound h1 24 ltac:(lia)).
    unfold _MAXORDINAL in *. unfold h1, m1, s0 in *. lia. }
  assert (E : ((0 <? ordinal) && (ordinal <=? _MAXORDINAL)) = true).
  { apply andb_true_iff. split; [apply Z.ltb_lt | apply Z.leb_le]; lia. }
  rewrite E. destruct (_ord2ymd ordinal) as [[y m] d]. eexists. reflexivity.
Qed.

Lemma or_default_nonempty (x : option string) (default : string) :
  default <> ""%string -> or_default x default <> ""%string.
Proof. destruct x as [[| c s] |]; simpl; congruence. Qed.

Lemma numeric_at_record (r : row) (key : string) :
  Spec.numeric_at (record r) key = payload_number key r.
Proof. reflexivity. Qed.

Lemma numbers_records (rs : list row) (key : string) :
  Spec.numbers (map record rs) key
  = flat_map (fun r => match payload_number key r with
                       | Some value => [value]
                       | None => []
                       end) rs.
Proof.
  unfold Spec.numbers. rewrite flat_map_concat_map, map_map.
  rewrite <- flat_map_concat_map. reflexivity.
Qed.

(** X12: for every valid reading of the clock since 1970 and every
    window of 0 to 1000000 hours, [cmd_analyze] does not fail: the
    window starts that many hours before the clock's time; the type
    analysed is ["cpu"] when none (or the empty string) is given and
    the given one otherwise; the rows read are the rows of that type,
    and of no other, whose timestamps lie in the window; without such
    rows the line that no data was found is printed, and otherwise the
    analysis of their records under ["usage_percent"], whose numbers
    are the numbers that the payloads of these rows hold under that
    key, in the order of the rows. *)
Theorem cmd_analyze_reports (utcnow : datetime) (hours : Z)
  (metric_type : option string) (db : database) :
  valid utcnow = true -> 1970 <= year utcnow -> 0 <= hours <= 1000000 ->
  exists start_time,
    (delta <- timedelta_hours hours ;; sub_timedelta utcnow delta)
    = Ok start_time
    /\ seconds_of start_time = seconds_of utcnow - 3600 * hours
    /\ microsecond start_time = microsecond utcnow
    /\ let asked := or_default metric_type "cpu" in
       let selected := get_metrics_range start_time utcnow (Some asked) db in
       (metric_type = None \/ metric_type = Some ""%string ->
        asked = "cpu"%string)
       /\ (forall t, metric_type = Some t -> t <> ""%string -> asked = t)
       /\ (forall r,
              In r selected
              <-> In r (rows db)
                  /\ String.leb (isoformat start_time) (timestamp r) = true
                  /\ String.leb (timestamp r) (isoformat utcnow) = true
                  /\ Store.metric_type r = asked)
       /\ cmd_analyze utcnow hours metric_type db
          = Ok (match selected with
                | [] => NoDataFound asked hours
                | _ =>
                    AnalysisReport asked hours
                      (analyze_metric_history (map record selected)
                                              "usage_percent")
                end)
       /\ Spec.numbers (map record selected) "usage_percent"
          = flat_map (fun r => match payload_number "usage_percent" r with
                               | Some value => [value]
                               | None => []
                               end)
                     selected.
Proof.
  intros Hvalid Hyear Hhours.
  destruct (window_start utcnow hours Hvalid Hyear Hhours) as [start_time Hs].
  exists start_time.
  assert (Hdelta : timedelta_hours hours
                   = Ok (hours / 24, (hours mod 24) * 3600))
    by (apply timedelta_hours_ok; lia).
  split; [now rewrite Hdelta |].
  destruct (sub_timedelta_seconds _ _ _ _ Hs) as (Hsec & Hus & _).
  split.
  { rewrite Hsec. pose proof (Z.div_mod hours 24 ltac:(lia)). lia. }
  split; [exact Hus |].
  intros asked selected.
  split; [intros [-> | ->]; reflexivity |].
  split; [intros [| c s] -> Ht; [congruence | reflexivity] |].
  split; [| split].
  - intros r. unfold selected. rewrite get_metrics_range_refines.
    split.
    + intros Hr.
      apply (Permutation_in _ (order_by_timestamp_permutation _)) in Hr.
      apply filter_In in Hr. destruct Hr as [Hin Hsel].
      unfold Spec.selected in Hsel.
      pose proof (or_default_nonempty metric_type "cpu" ltac:(discriminate))
        as Hne. fold asked in Hne.
      destruct asked as [| c s] eqn:Ea; [congruence |].
      repeat (apply andb_true_iff in Hsel; destruct Hsel as [Hsel ?]).
      repeat split; try assumption. now apply String.eqb_eq.
    + intros (Hin & Hlo & Hhi & Htype).
      apply (Permutation_in _ (Permutation_sym (order_by_timestamp_permutation _))).
      apply filter_In. split; [exact Hin |].
      unfold Spec.selected. rewrite Hlo, Hhi. cbn [andb].
      pose proof (or_default_nonempty metric_type "cpu" ltac:(discriminate))
        as Hne. fold asked in Hne.
      destruct asked as [| c s] eqn:Ea; [congruence |].
      now apply String.eqb_eq.
  - unfold cmd_analyze. rewrite Hdelta. cbn [bind]. rewrite Hs. cbn [bind].
    fold asked. fold selected. now destruct selected.
  - apply numbers_records.
Qed.

Lemma cmd_analyze_reports_witness :
  valid Samples.one_o_clock = true
  /\ exists start_time,
       (delta <- timedelta_hours 24 ;;
        sub_timedelta Samples.one_o_clock delta) = Ok start_time
       /\ seconds_of start_time = seconds_of Samples.one_o_clock - 3600 * 24
       /\ cmd_analyze Samples.one_o_clock 24 None Samples.two_rows
          = Ok (match get_metrics_range start_time Samples.one_o_clock
                                        (Some "cpu"%string) Samples.two_rows with
                | [] => NoDataFound "cpu" 24
                | _ :: _ =>
                    AnalysisReport "cpu" 24
                      (analyze_metric_history
                         (map record
                              (get_metrics_range start_time Samples.one_o_clock
                                 (Some "cpu"%string) Samples.two_rows))
                         "usage_percent")
                end).
Proof.
  assert (H : valid Samples.one_o_clock = true) by reflexivity.
  split; [exact H |].
  destruct (cmd_analyze_reports Samples.one_o_clock 24 None Samples.two_rows
              H ltac:(simpl; lia) ltac:(lia))
    as [start_time [H1 [H2 [_ [_ [_ [_ [H3 _]]]]]]]].
  exists start_time. split; [exact H1 |]. split; [exact H2 | exact H3].
Defined.

(** X13: [cmd_database] prints the stats and leaves the database as it
    is for ["stats"], prints nothing and leaves it as it is for every
    action but ["stats"], ["cleanup"] and ["latest"], prints the records
    of [get_latest_metrics] and leaves it as it is for ["latest"], and
    for ["cleanup"] prints a number that is exactly the drop of
    [total_records] between the stats before and after. *)
Theorem cmd_database_actions (utcnow : datetime) (retention_days : Z)
  (metric_type : option string) (limit : Z) (db : database) :
  cmd_database utcnow "stats" retention_days metric_type limit db
  = Ok (StatsPrinted (get_database_stats db), db)
  /\ (forall action,
         action <> "stats"%string -> action <> "cleanup"%string ->
         action <> "latest"%string ->
         cmd_database utcnow action retention_days metric_type limit db
         = Ok (NothingPrinted, db))
  /\ (forall out db',
         cmd_database utcnow "latest" retention_days metric_type limit db
         = Ok (out, db') ->
         db' = db
         /\ exists latest,
              get_latest_metrics metric_type limit db = Ok latest
              /\ out = LatestPrinted (map record latest))
  /\ (forall out db',
         cmd_database utcnow "cleanup" retention_days metric_type limit db
         = Ok (out, db') ->
         out = DeletedPrinted
                 (total_records (get_database_stats db)
                  - total_records (get_database_stats db'))).
Proof.
  split; [reflexivity |]. split; [| split].
  - intros action H1 H2 H3. unfold cmd_database.
    apply String.eqb_neq in H1, H2, H3. now rewrite H1, H2, H3.
  - intros out db'. unfold cmd_database. cbn [String.eqb Ascii.eqb Bool.eqb].
    destruct (get_latest_metrics metric_type limit db) as [latest | e msg];
      [| discriminate].
    cbn [bind]. intros H. injection H as <- <-.
    split; [reflexivity |]. exists latest. now split.
  - intros out db'. unfold cmd_database. cbn [String.eqb Ascii.eqb Bool.eqb].
    destruct (cleanup_old_records utcnow retention_days db)
      as [[n db1] | e msg] eqn:E; [| discriminate].
    cbn [bind fst snd]. intros H. injection H as <- <-. f_equal.
    unfold cleanup_old_records in E.
    destruct (sub_days utcnow retention_days) as [cutoff | e msg];
      [| discriminate].
    cbn [bind] in E. injection E as <- <-.
    unfold get_database_stats. cbn [total_records rows].
    rewrite len_filter_split. lia.
Qed.

End CommandLine.

Section PredictionWindow.

Import Analyzer.

Lemma recent_app (older recent : list float) :
  10 <= len recent -> Spec.recent (older ++ recent) = Spec.recent recent.
Proof.
  intros H. unfold Spec.recent, len in *. rewrite length_app.
  replace (List.length older + List.length recent - 10)%nat
    with (List.length older + (List.length recent - 10))%nat by lia.
  rewrite skipn_app, skipn_all2 by lia.
  replace (List.length older + (List.length recent - 10) - List.length older)%nat
    with (List.length recent - 10)%nat by lia.
  reflexivity.
Qed.

(** X14: [predict_next_value] looks at the last ten values only:
    values before them do not change the prediction. *)
Theorem predict_uses_last_ten (older recent : list float) :
  10 <= len recent ->
  predict_next_value (older ++ recent) = predict_next_value recent.
Proof.
  intros H. rewrite !predict_next_refines. unfold Spec.prediction.
  rewrite recent_app by exact H.
  assert (H1 : (len recent <? 2) = false) by lia.
  assert (H2 : (len (older ++ recent) <? 2) = false)
    by (rewrite len_app; pose proof (len_nonneg older); lia).
  now rewrite H1, H2.
Qed.

Lemma predict_uses_last_ten_witness :
  10 <= len [1; 2; 3; 4; 5; 6; 7; 8; 9; 10]%float
  /\ predict_next_value ([50; 60]%float ++ [1; 2; 3; 4; 5; 6; 7; 8; 9; 10]%float)
     = predict_next_value [1; 2; 3; 4; 5; 6; 7; 8; 9; 10]%float.
Proof.
  assert (H : 10 <= len [1; 2; 3; 4; 5; 6; 7; 8; 9; 10]%float)
    by (vm_compute; discriminate).
  split; [exact H |]. exact (predict_uses_last_ten _ _ H).
Defined.

(** The regression denominator of a window of two to ten values. *)
Lemma index_variation_window (n : Z) :
  2 <= n <= 10 -> (Spec.index_variation n =? 0)%float = false.
Proof.
  intros H.
  assert (E : n = 2 \/ n = 3 \/ n = 4 \/ n = 5 \/ n = 6 \/ n = 7 \/ n = 8
              \/ n = 9 \/ n = 10) by lia.
  repeat (destruct E as [E | E]); subst n; vm_compute; reflexivity.
Qed.

Lemma recent_len (values : list float) :
  len (Spec.recent values) = Z.min (len values) 10.
Proof. unfold len. rewrite recent_length. lia. Qed.

(** X15: the regression denominator of [predict_next_value] is never
    zero, so its branch that returns the last value unchanged is never
    taken: for every list of at least two values the prediction is the
    line through the last ten values (all of them when fewer), one step
    past the window, rounded to two decimal places. *)
Theorem predict_always_extrapolates (values : list float) :
  2 <= len values ->
  predict_next_value values
  = Ok (Some (round2 (Spec.next_on_line (Spec.recent values)))).
Proof.
  intros H. rewrite predict_next_refines. unfold Spec.prediction.
  assert (H1 : (len values <? 2) = false) by lia. rewrite H1.
  rewrite index_variation_window; [reflexivity |].
  rewrite recent_len. lia.
Qed.

Lemma predict_always_extrapolates_witness :
  2 <= len [3; 1; 2]%float
  /\ predict_next_value [3; 1; 2]%float
     = Ok (Some (round2 (Spec.next_on_line (Spec.recent [3; 1; 2]%float)))).
Proof.
  assert (H : 2 <= len [3; 1; 2]%float) by (vm_compute; discriminate).
  split; [exact H |]. exact (predict_always_extrapolates _ H).
Defined.

End PredictionWindow.

Section NotANumber.

Import Analyzer.

Lemma nan_unique (x : float) : Prim2SF x = S754_nan -> x = nan.
Proof. intros H. apply Prim2SF_inj. rewrite H. reflexivity. Qed.

Lemma add_nan_l (x : float) : (nan + x)%float = nan.
Proof. apply nan_unique. rewrite add_spec. reflexivity. Qed.

Lemma add_nan_r (x : float) : (x + nan)%float = nan.
Proof.
  apply nan_unique. rewrite add_spec.
  change (Prim2SF nan) with S754_nan. now destruct (Prim2SF x).
Qed.

Lemma sub_nan_l (x : float) : (nan - x)%float = nan.
Proof. apply nan_unique. rewrite sub_spec. reflexivity. Qed.

Lemma sub_nan_r (x : float) : (x - nan)%float = nan.
Proof.
  apply nan_unique. rewrite sub_spec.
  change (Prim2SF nan) with S754_nan. now destruct (Prim2SF x).
Qed.

Lemma mul_nan_l (x : float) : (nan * x)%float = nan.
Proof. apply nan_unique. rewrite mul_spec. reflexivity. Qed.

Lemma mul_nan_r (x : float) : (x * nan)%float = nan.
Proof.
  apply nan_unique. rewrite mul_spec.
  change (Prim2SF nan) with S754_nan. now destruct (Prim2SF x).
Qed.

Lemma div_nan_l (x : float) : (nan / x)%float = nan.
Proof. apply nan_unique. rewrite div_spec. reflexivity. Qed.

Lemma sum_from_nan (xs : list float) : fold_left PrimFloat.add xs nan = nan.
Proof.
  induction xs as [| x rest IH]; [reflexivity |]. cbn [fold_left].
  now rewrite add_nan_l.
Qed.

(** The sum of a list that holds a NaN is NaN. *)
Lemma sum_nan (xs : list float) : In nan xs -> sum xs = nan.
Proof.
  unfold sum. generalize 0%float as acc.
  induction xs as [| x rest IH]; intros acc Hin; [destruct Hin |].
  destruct Hin as [E | Hin]; cbn [fold_left].
  - subst x. rewrite add_nan_r. apply sum_from_nan.
  - now apply IH.
Qed.

Lemma sum_all_nan (xs : list float) :
  xs <> [] -> Forall (fun x => x = nan) xs -> sum xs = nan.
Proof.
  intros Hne Hall. apply sum_nan.
  destruct xs as [| x rest]; [congruence |].
  inversion Hall; subst. now left.
Qed.

Lemma mean_value_nan (values : list float) :
  In nan values -> Spec.mean_value values = nan.
Proof.
  intros H. unfold Spec.mean_value. rewrite (sum_nan _ H). apply div_nan_l.
Qed.

Lemma covariation_nan (values : list float) :
  In nan values -> Spec.covariation values = nan.
Proof.
  intros H. unfold Spec.covariation. rewrite (mean_value_nan _ H).
  apply sum_all_nan.
  - unfold enumerate, range. destruct values as [| v rest]; [destruct H |].
    unfold len. cbn [List.length]. rewrite Nat2Z.id. discriminate.
  - apply Forall_forall. intros x Hx. apply in_map_iff in Hx.
    destruct Hx as [[i v] [<- _]]. now rewrite sub_nan_r, mul_nan_r.
Qed.

Lemma next_on_line_nan (values : list float) :
  In nan values -> Spec.next_on_line values = nan.
Proof.
  intros H. unfold Spec.next_on_line, Spec.intercept, Spec.slope.
  rewrite (covariation_nan _ H), div_nan_l, !mul_nan_l.
  now rewrite add_nan_l.
Qed.

(** X16: when one of the last ten values is NaN, [predict_next_value]
    returns NaN: neither [None] nor an exception. *)
Theorem predict_nan (values : list float) :
  2 <= len values -> In nan (Spec.recent values) ->
  predict_next_value values = Ok (Some nan).
Proof.
  intros Hlen Hnan. rewrite predict_next_refines. unfold Spec.prediction.
  assert (H1 : (len values <? 2) = false) by lia. rewrite H1.
  rewrite index_variation_window by (rewrite recent_len; lia).
  now rewrite (next_on_line_nan _ Hnan).
Qed.

Lemma predict_nan_witness :
  2 <= len [1; nan; 3]%float
  /\ In nan (Spec.recent [1; nan; 3]%float)
  /\ predict_next_value [1; nan; 3]%float = Ok (Some nan).
Proof.
  assert (H1 : 2 <= len [1; nan; 3]%float) by (vm_compute; discriminate).
  assert (H2 : In nan (Spec.recent [1; nan; 3]%float))
    by (right; left; reflexivity).
  split; [exact H1 |]. split; [exact H2 |]. exact (predict_nan _ H1 H2).
Defined.

End NotANumber.

Section AnalysisShape.

Import Analyzer.

Lemma calculate_percentiles_keys (values : list float)
  (statistics : list (string * float)) :
  values <> [] ->
  calculate_percentiles values = Ok statistics ->
  map fst statistics
  = ["min"; "max"; "mean"; "median"; "p25"; "p75"; "p90"; "p95"; "p99"]%string.
Proof.
  intros Hne. unfold calculate_percentiles.
  destruct values as [| v rest]; [congruence |].
  repeat match goal with
         | |- context [bind ?m _] =>
             destruct m; cbn [bind]; [| discriminate]
         end.
  intros H. injection H as <-. reflexivity.
Qed.

Lemma anomalies_count (values : list float) (z : float) :
  0 <= len (Spec.anomalies values z) <= len values.
Proof.
  split; [apply len_nonneg |]. unfold Spec.anomalies.
  assert (Hnil : len (@nil Z) <= len values) by apply len_nonneg.
  destruct (len values <? 3); [exact Hnil |].
  destruct (Statistics.mean values); [| exact Hnil].
  destruct (Statistics.stdev values) as [stdev |]; [| exact Hnil].
  destruct (stdev =? 0)%float; [exact Hnil |].
  match goal with
  | |- len (filter ?f ?xs) <= _ => pose proof (filter_length_le f xs) as H
  end.
  unfold range in *. rewrite length_map, length_seq in H.
  unfold len in *. lia.
Qed.

Lemma recent_averages_length (values : list float) :
  len (Spec.recent_averages values)
  = if len values <? 5 then len values else Z.min (len values - 4) 5.
Proof.
  unfold Spec.recent_averages.
  destruct (Z.ltb_spec (len values) 5) as [H | H]; [reflexivity |].
  unfold len in *. rewrite length_skipn, length_map, windows_length. lia.
Qed.

Lemma trend_labels (values : list float) (threshold : float) :
  Spec.trend values threshold = "stable"%string
  \/ Spec.trend values threshold = "increasing"%string
  \/ Spec.trend values threshold = "decreasing"%string.
Proof.
  unfold Spec.trend.
  destruct ((len values <? 2) || (Spec.index_variation (len values) =? 0)%float
            || (Spec.change_rate values <? threshold)%float); [now left |].
  destruct (0 <? Spec.slope values)%float; auto.
Qed.

(** X17: whenever [analyze_metric_history] returns an analysis, its
    [data_points] is at least one and at most the number of records,
    its [anomalies_count] is at most [data_points], [moving_avg_5] has
    [data_points] entries below five data points and otherwise
    [data_points - 4] entries but never more than five, [statistics]
    has the nine keys min, max, mean, median, p25, p75, p90, p95 and
    p99 in this order, and [trend] is one of the three labels. *)
Theorem analysis_shape (records : list dict) (key : string) (n : Z)
  (statistics : list (string * float)) (trend : string) (count : Z)
  (averages : list float) :
  analyze_metric_history records key
  = Analysis n statistics trend count averages ->
  1 <= n <= len records
  /\ 0 <= count <= n
  /\ len averages = (if n <? 5 then n else Z.min (n - 4) 5)
  /\ map fst statistics
     = ["min"; "max"; "mean"; "median"; "p25"; "p75"; "p90"; "p95"; "p99"]%string
  /\ (trend = "stable"%string \/ trend = "increasing"%string
      \/ trend = "decreasing"%string).
Proof.
  rewrite analyze_metric_history_refines.
  destruct (for_each float_builtin (Spec.numbers records key))
    as [values | e msg] eqn:E; [| discriminate].
  apply for_each_length in E.
  pose proof (numbers_length records key) as Hn.
  destruct values as [| v rest] eqn:Ev; [discriminate |]. rewrite <- Ev in *.
  assert (Hne : values <> []) by (rewrite Ev; discriminate).
  destruct (calculate_percentiles values) as [stats | e msg] eqn:Es;
    [| discriminate].
  unfold Spec.analysis_of. intros H. injection H as <- <- <- <- <-.
  split.
  { unfold len in *. rewrite E. rewrite Ev in E. cbn [List.length] in E. lia. }
  split; [apply anomalies_count |].
  split; [apply recent_averages_length |].
  split; [now apply (calculate_percentiles_keys values) | apply trend_labels].
Qed.

Lemma analysis_shape_witness :
  exists n statistics trend count averages,
    analyze_metric_history Samples.mixed_records "usage_percent"
    = Analysis n statistics trend count averages
    /\ 1 <= n <= len Samples.mixed_records
    /\ 0 <= count <= n
    /\ len averages = (if n <? 5 then n else Z.min (n - 4) 5).
Proof.
  destruct (analyze_metric_history Samples.mixed_records "usage_percent")
    as [message | n statistics trend count averages] eqn:E.
  - exfalso. vm_compute in E. discriminate E.
  - exists n, statistics, trend, count, averages.
    split; [reflexivity |].
    destruct (analysis_shape _ _ _ _ _ _ _ E) as [H1 [H2 [H3 _]]].
    split; [exact H1 |]. split; [exact H2 | exact H3].
Defined.

End AnalysisShape.

Section Thresholds.

Import Analyzer.

Ltac order_cases :=
  repeat match goal with
         | |- context [(?a ?= ?b)%Z] => destruct (Z.compare_spec a b)
         | H : context [(?a ?= ?b)%Z] |- _ => destruct (Z.compare_spec a b)
         | |- context [(?a ?= ?b)%positive] => destruct (Pos.compare_spec a b)
         | H : context [(?a ?= ?b)%positive] |- _ =>
             destruct (Pos.compare_spec a b)
         end.

(** The order of the floats: below or equal, then below, is below. *)
Lemma SFleb_ltb_trans (x y z : spec_float) :
  SFleb x y = true -> SFltb y z = true -> SFltb x z = true.
Proof.
  unfold SFleb, SFltb, SFcompare.
  destruct x as [sx | sx | | sx mx ex], y as [sy | sy | | sy my ey],
           z as [sz | sz | | sz mz ez];
    try destruct sx; try destruct sy; try destruct sz;
    try discriminate; try reflexivity; cbv beta;
    change (Pos.compare_cont Eq mx my) with (Pos.compare mx my);
    change (Pos.compare_cont Eq my mz) with (Pos.compare my mz);
    change (Pos.compare_cont Eq mx mz) with (Pos.compare mx mz);
    order_cases; cbn [CompOpp]; try discriminate; try reflexivity; lia.
Qed.

Lemma leb_ltb_trans (x y z : float) :
  (x <=? y)%float = true -> (y <? z)%float = true -> (x <? z)%float = true.
Proof. rewrite leb_spec, !ltb_spec. apply SFleb_ltb_trans. Qed.


Lemma SFltb_leb_trans (x y z : spec_float) :
  SFltb x y = true -> SFleb y z = true -> SFltb x z = true.
Proof.
  unfold SFleb, SFltb, SFcompare.
  destruct x as [sx | sx | | sx mx ex], y as [sy | sy | | sy my ey],
           z as [sz | sz | | sz mz ez];
    try destruct sx; try destruct sy; try destruct sz;
    try discriminate; try reflexivity; cbv beta;
    change (Pos.compare_cont Eq mx my) with (Pos.compare mx my);
    change (Pos.compare_cont Eq my mz) with (Pos.compare my mz);
    change (Pos.compare_cont Eq mx mz) with (Pos.compare mx mz);
    order_cases; cbn [CompOpp]; try discriminate; try reflexivity; lia.
Qed.

Lemma ltb_leb_trans (x y z : float) :
  (x <? y)%float = true -> (y <=? z)%float = true -> (x <? z)%float = true.
Proof. rewrite leb_spec, !ltb_spec. apply SFltb_leb_trans. Qed.

Lemma filter_weaker {A : Type} (f g : A -> bool) (xs : list A) :
  (forall x, f x = true -> g x = true) ->
  incl (filter f xs) (filter g xs)
  /\ (List.length (filter f xs) <= List.length (filter g xs))%nat.
Proof.
  intros H. split.
  - intros x Hx. apply filter_In in Hx. apply filter_In.
    split; [apply Hx | apply H, Hx].
  - induction xs as [| x rest IH]; simpl; [lia |].
    destruct (f x) eqn:Ef; [rewrite (H _ Ef); simpl; lia |].
    destruct (g x); simpl; lia.
Qed.

(** X18: raising the threshold of [detect_anomalies] never adds an
    anomaly: every index reported at a threshold is reported at every
    smaller one, and there are at most as many. *)
Theorem anomalies_threshold_monotone (values : list float) (z1 z2 : float) :
  (z1 <=? z2)%float = true ->
  incl (detect_anomalies values z2) (detect_anomalies values z1)
  /\ len (detect_anomalies values z2) <= len (detect_anomalies values z1).
Proof.
  intros Hz. rewrite !detect_anomalies_refines. unfold Spec.anomalies.
  assert (Hnil : incl (@nil Z) [] /\ len (@nil Z) <= len (@nil Z))
    by (split; [apply incl_refl | apply Z.le_refl]).
  destruct (len values <? 3); [exact Hnil |].
  destruct (Statistics.mean values) as [mean |]; [| exact Hnil].
  destruct (Statistics.stdev values) as [stdev |]; [| exact Hnil].
  destruct (stdev =? 0)%float; [exact Hnil |].
  match goal with
  | |- incl (filter ?f ?xs) (filter ?g ?xs) /\ _ =>
      destruct (filter_weaker f g xs) as [H1 H2]
  end.
  - intros i Hi. exact (leb_ltb_trans _ _ _ Hz Hi).
  - split; [exact H1 | unfold len; apply Nat2Z.inj_le; exact H2].
Qed.

Lemma anomalies_threshold_monotone_witness :
  (2 <=? 3)%float = true
  /\ incl (detect_anomalies
             [10; 10; 10; 10; 10; 10; 10; 10; 10; 100]%float 3%float)
          (detect_anomalies
             [10; 10; 10; 10; 10; 10; 10; 10; 10; 100]%float 2%float).
Proof.
  assert (H : (2 <=? 3)%float = true) by reflexivity.
  split; [exact H |].
  exact (proj1 (anomalies_threshold_monotone
                  [10; 10; 10; 10; 10; 10; 10; 10; 10; 100]%float
                  2%float 3%float H)).
Defined.

(** X19: when a value is an infinity or NaN, [detect_anomalies]
    reports nothing: the standard deviation cannot be computed and the
    exception is answered by the empty list. *)
Theorem anomalies_nonfinite (values : list float) (z : float) :
  existsb Statistics.nonfinite values = true ->
  detect_anomalies values z = [].
Proof.
  intros H. unfold detect_anomalies.
  destruct (len values <? 3); [reflexivity |].
  destruct (Statistics.mean values) as [mean | e msg]; cbn [bind];
    [| reflexivity].
  unfold Statistics.stdev, Statistics._ss. rewrite H.
  now destruct (len values <? 2).
Qed.

Lemma anomalies_nonfinite_witness :
  existsb Statistics.nonfinite [1; infinity; 3; 4]%float = true
  /\ detect_anomalies [1; infinity; 3; 4]%float 2%float = [].
Proof.
  assert (H : existsb Statistics.nonfinite [1; infinity; 3; 4]%float = true)
    by reflexivity.
  split; [exact H |]. exact (anomalies_nonfinite _ _ H).
Defined.

End Thresholds.

Section Windows.

Import Analyzer.

Lemma range_succ (n : Z) :
  0 <= n -> range (n + 1) = 0 :: map (fun i => i + 1) (range n).
Proof.
  intros H. unfold range.
  replace (Z.to_nat (n + 1)) with (S (Z.to_nat n)) by lia.
  cbn [seq map]. f_equal. rewrite <- seq_shift, !map_map.
  apply map_ext. intros k. lia.
Qed.

(** X20: [calculate_moving_average] raises exactly for a window size of
    zero, on every list, the empty one included; for every other window
    size it returns a list, and for a negative one a list of
    [n - w + 1] entries, more than there are values. *)
Theorem moving_average_window_sign :
  (forall values,
      calculate_moving_average values 0
      = Raise ZeroDivisionError "division by zero")
  /\ (forall values w,
         w <> 0 ->
         exists averages,
           calculate_moving_average values w = Ok averages
           /\ (w < 0 -> len averages = len values - w + 1)).
Proof.
  split.
  - intros values. unfold calculate_moving_average.
    pose proof (len_nonneg values) as Hn.
    destruct (Z.ltb_spec (len values) 0); [lia |].
    replace (len values - 0 + 1) with (len values + 1) by lia.
    rewrite range_succ by exact Hn. reflexivity.
  - intros values w Hw. unfold calculate_moving_average.
    pose proof (len_nonneg values) as Hn.
    destruct (Z.ltb_spec (len values) w);
      [eexists; split; [reflexivity | lia] |].
    unfold range. eexists. split.
    + apply (for_each_map_ok _ Z.of_nat
               (fun k => (sum (slice values (Z.of_nat k) (Z.of_nat k + w))
                          / float_of_Z w)%float)).
      intros k _. now apply truediv_int_nonzero.
    + intros _. unfold len. rewrite length_map, length_seq.
      unfold len in *. lia.
Qed.

End Windows.

Section SkippedRecords.

Import Analyzer.

(** X21: a record that is skipped (its payload is missing or is no
    dict, or lacks the key or holds no number under it) does not change
    the result of [analyze_metric_history], wherever it stands among the
    records. *)
Theorem skipped_record_is_ignored (before after : list dict) (record : dict)
  (key : string) :
  Spec.numeric_at record key = None ->
  analyze_metric_history (before ++ record :: after) key
  = analyze_metric_history (before ++ after) key.
Proof.
  intros H. rewrite !analyze_metric_history_refines.
  now rewrite !numbers_app, numbers_cons, H.
Qed.

Lemma skipped_record_is_ignored_witness :
  Spec.numeric_at [("hostname", PyStr "host")]%string "usage_percent" = None
  /\ analyze_metric_history
       ([Samples.load (PyInt 3)] ++ [("hostname", PyStr "host")]%string
        :: [Samples.load (PyFloat 2.5)])
       "usage_percent"
     = analyze_metric_history
         ([Samples.load (PyInt 3)] ++ [Samples.load (PyFloat 2.5)])
         "usage_percent".
Proof.
  assert (H : Spec.numeric_at [("hostname", PyStr "host")]%string
                              "usage_percent" = None) by reflexivity.
  split; [exact H |]. exact (skipped_record_is_ignored _ _ _ _ H).
Defined.

End SkippedRecords.

Section TrendThreshold.

Import Analyzer.

(** X23: raising the threshold of [detect_trend] never turns a stable
    series into a trending one. *)
Theorem trend_threshold_monotone (values : list float) (t1 t2 : float) :
  (t1 <=? t2)%float = true ->
  detect_trend values t1 = Ok "stable"%string ->
  detect_trend values t2 = Ok "stable"%string.
Proof.
  intros Ht. rewrite !detect_trend_refines. unfold Spec.trend.
  destruct ((len values <? 2)
            || (Spec.index_variation (len values) =? 0)%float);
    [reflexivity |]. cbn [orb].
  destruct (Spec.change_rate values <? t1)%float eqn:E.
  - now rewrite (ltb_leb_trans _ _ _ E Ht).
  - destruct (0 <? Spec.slope values)%float; discriminate.
Qed.

Lemma trend_threshold_monotone_witness :
  (default_threshold <=? 0.5)%float = true
  /\ detect_trend [100; 101; 102; 103]%float default_threshold
     = Ok "stable"%string
  /\ detect_trend [100; 101; 102; 103]%float 0.5%float = Ok "stable"%string.
Proof.
  assert (H1 : (default_threshold <=? 0.5)%float = true) by reflexivity.
  assert (H2 : detect_trend [100; 101; 102; 103]%float default_threshold
               = Ok "stable"%string) by (vm_compute; reflexivity).
  split; [exact H1 |]. split; [exact H2 |].
  exact (trend_threshold_monotone [100; 101; 102; 103]%float
                                  default_threshold 0.5%float H1 H2).
Defined.

End TrendThreshold.

Section SinglePoint.

Import Analyzer.

Lemma percentile_single (v : float) (p : Z) : _percentile [v] p = Ok v.
Proof.
  unfold _percentile. cbv zeta.
  change (len [v]) with 1. change ((1 - 1) * p) with (0 * p).
  rewrite Z.mul_0_l.
  change (int_truediv 0 100) with 0%float.
  reflexivity.
Qed.

(** X22: a single value [v] has itself for minimum, maximum, median and
    for each of the five percentiles; its trend is stable, it has no
    anomaly, its moving average is the value itself and there is no
    prediction; the analysis of one record that holds [v] says so. *)
Theorem single_value_statistics (v : float) :
  exists v_mean,
    Statistics.mean [v] = Ok v_mean
    /\ calculate_percentiles [v]
       = Ok [("min", v); ("max", v); ("mean", v_mean); ("median", v);
             ("p25", v); ("p75", v); ("p90", v); ("p95", v); ("p99", v)]%string
    /\ detect_trend [v] default_threshold = Ok "stable"%string
    /\ detect_anomalies [v] default_std_threshold = []
    /\ calculate_moving_average [v] 5 = Ok [v]
    /\ predict_next_value [v] = Ok None
    /\ analyze_metric_history [Samples.load (PyFloat v)] "usage_percent"
       = Analysis 1
           [("min", v); ("max", v); ("mean", v_mean); ("median", v);
            ("p25", v); ("p75", v); ("p90", v); ("p95", v); ("p99", v)]%string
           "stable" 0 [v].
Proof.
  destruct (mean_returns [v]) as [v_mean Hmean];
    [unfold len; simpl; lia |].
  exists v_mean. split; [exact Hmean |].
  assert (Hblock : calculate_percentiles [v]
                   = Ok [("min", v); ("max", v); ("mean", v_mean);
                         ("median", v); ("p25", v); ("p75", v); ("p90", v);
                         ("p95", v); ("p99", v)]%string).
  { unfold calculate_percentiles.
    change (sorted [v]) with [v]. cbn [Py.min Py.max fold_left bind].
    rewrite Hmean. cbn [bind].
    change (Statistics.median [v]) with (Ok v : result float). cbn [bind].
    now rewrite !percentile_single. }
  split; [exact Hblock |]. repeat split.
  rewrite analyze_metric_history_refines.
  change (for_each float_builtin
            (Spec.numbers [Samples.load (PyFloat v)] "usage_percent"))
    with (Ok [v] : result (list float)).
  cbv beta iota. now rewrite Hblock.
Qed.

End SinglePoint.

Section AboveZero.

Import Analyzer.

Lemma shr_fexp_positive (m e : Z) (l : location) :
  0 < m -> -1074 <= e ->
  exists r e', shr_fexp prec emax m e l = (r, e')
               /\ 0 < shr_m r /\ -1074 <= e'.
Proof.
  intros Hm He.
  destruct (shr_fexp_shift m e l ltac:(lia)) as [r [E M]].
  set (k := Z.max 0 (fexp prec emax (Zdigits2 m + e) - e)) in *.
  pose proof (Zdigits2_bounds m Hm) as Hb.
  set (d := Zdigits2 m) in *.
  assert (Hd : 1 <= d).
  { destruct (Z.le_gt_cases 1 d) as [H | H]; [exact H |].
    assert (d - 1 < 0) by lia.
    rewrite (Z.pow_neg_r 2 (d - 1)) in Hb by lia.
    assert (2 ^ d <= 1).
    { destruct (Z.eq_dec d 0) as [-> | Hn]; [simpl; lia |].
      rewrite (Z.pow_neg_r 2 d) by lia. lia. }
    lia. }
  assert (Hk : 0 <= k <= d - 1).
  { unfold k, fexp, SpecFloat.emin, prec, emax. lia. }
  exists r, (e + k). split; [exact E |]. split; [| lia].
  rewrite M. apply Z.div_str_pos. split; [apply Z.pow_pos_nonneg; lia |].
  apply Z.le_trans with (2 ^ (d - 1)); [| lia].
  apply Z.pow_le_mono_r; lia.
Qed.

(** Rounding a positive mantissa at an exponent that a float can have
    gives a positive float or an infinity, never zero. *)
Lemma binary_round_aux_above (mx ex : Z) (lx : location) :
  0 < mx -> -1074 <= ex ->
  above_zero (binary_round_aux prec emax false mx ex lx) = true.
Proof.
  intros Hmx Hex. unfold binary_round_aux.
  destruct (shr_fexp_positive mx ex lx Hmx Hex) as [r1 [e1 [E1 [M1 He1]]]].
  rewrite E1.
  set (m2 := round_nearest_even (shr_m r1) (loc_of_shr_record r1)).
  assert (Hm2 : 0 < m2).
  { destruct (round_nearest_even_cases (shr_m r1) (loc_of_shr_record r1))
      as [H | H]; fold m2 in H; lia. }
  destruct (shr_fexp_positive m2 e1 loc_Exact Hm2 He1)
    as [r2 [e2 [E2 [M2 He2]]]].
  rewrite E2. destruct (shr_m r2) as [| p | p]; try lia.
  now destruct (e2 <=? emax - prec).
Qed.

Lemma binary_round_above (m : positive) (e : Z) :
  -1074 <= e -> above_zero (binary_round prec emax false m e) = true.
Proof.
  intros He. unfold binary_round, shl_align.
  set (e' := fexp prec emax (Z.pos (digits2_pos m) + e)).
  assert (He' : -1074 <= e')
    by (unfold e', fexp, SpecFloat.emin, prec, emax; lia).
  destruct (e' - e); apply binary_round_aux_above; lia.
Qed.

(** The exponent of a finite float is at least the least one. *)
Lemma valid_exponent (s : bool) (m : positive) (e : Z) :
  valid_binary (S754_finite s m e) = true -> -1074 <= e.
Proof.
  unfold valid_binary, SpecFloat.valid_binary, bounded, canonical_mantissa.
  intros H. apply andb_true_iff in H. destruct H as [H _].
  apply Z.eqb_eq in H. unfold fexp, SpecFloat.emin, prec, emax in H. lia.
Qed.

Lemma SFadd_above (x y : spec_float) :
  valid_binary x = true -> valid_binary y = true ->
  above_zero x = true -> sign_clear y = true ->
  above_zero (SFadd prec emax x y) = true.
Proof.
  intros Vx Vy Hx Hy.
  destruct x as [sx | sx | | sx mx ex], y as [sy | sy | | sy my ey];
    try destruct sx; try destruct sy; try discriminate; try reflexivity.
  apply valid_exponent in Vx, Vy.
  unfold SFadd. cbv zeta. cbn [cond_Zopp]. cbn [Z.add binary_normalize].
  apply binary_round_above. lia.
Qed.

Lemma add_above (x y : float) :
  above_zero (Prim2SF x) = true -> sign_clear (Prim2SF y) = true ->
  above_zero (Prim2SF (x + y)) = true.
Proof.
  intros Hx Hy. rewrite add_spec.
  apply SFadd_above; auto using Prim2SF_valid.
Qed.

Lemma sum_above (terms : list float) :
  Forall (fun t => sign_clear (Prim2SF t) = true) terms ->
  forall acc,
    above_zero (Prim2SF acc) = true ->
    above_zero (Prim2SF (fold_left PrimFloat.add terms acc)) = true.
Proof.
  induction 1 as [| t rest Ht Hrest IH]; intros acc Hacc; cbn [fold_left];
    [exact Hacc |].
  apply IH. now apply add_above.
Qed.

Lemma square_sign_clear (x : float) : sign_clear (Prim2SF (square x)) = true.
Proof.
  unfold square. rewrite mul_spec.
  destruct (Prim2SF x) as [s | s | | s m e]; try (now destruct s);
    try reflexivity.
  unfold SF64mul, SFmul. rewrite xorb_nilpotent.
  apply binary_round_aux_sign_clear.
Qed.

Lemma above_zero_not_zero (x : float) :
  above_zero (Prim2SF x) = true -> (x =? 0)%float = false.
Proof.
  rewrite eqb_spec. change (Prim2SF 0) with (S754_zero false).
  destruct (Prim2SF x) as [s | s | | s m e]; try destruct s;
    try discriminate; reflexivity.
Qed.


(** The mean of the indexes of two or more values is a normal float of
    moderate size. *)
Lemma mean_index_normal (n : Z) :
  2 <= n <= PY_SSIZE_T_MAX ->
  exists m e,
    Prim2SF (Spec.mean_index n) = S754_finite false m e
    /\ 2 ^ 52 <= Z.pos m < 2 ^ 53
    /\ -54 <= e <= 12.
Proof.
  intros Hn. unfold Spec.mean_index, int_truediv, PY_SSIZE_T_MAX in *.
  destruct (n - 1) as [| pa | pa] eqn:Ea; try lia.
  assert (Ha : Z.pos pa < 2 ^ 63) by lia.
  unfold SF_of_Z, SFdiv, SFdiv_core_binary. cbn [xorb].
  set (d1 := Zdigits2 (Z.pos pa)).
  change (Zdigits2 2) with 2.
  pose proof (Zdigits2_bounds (Z.pos pa) ltac:(lia)) as B1. fold d1 in B1.
  assert (Hd1 : 1 <= d1 <= 63).
  { split; [unfold d1; simpl; lia |].
    assert (H : 2 ^ (d1 - 1) < 2 ^ 63) by lia.
    apply Z.pow_lt_mono_r_iff in H; lia. }
  replace (d1 + 0 - (2 + 0)) with (d1 - 2) by lia.
  rewrite fexp_normal by lia. change (0 - 0) with 0.
  set (e' := Z.min (d1 - 2 - 53) 0).
  set (s := 0 - e').
  assert (Hs : 0 <= s) by (unfold s, e'; lia).
  set (m' := match s with
             | 0 => Z.pos pa
             | Z.pos _ => Z.shiftl (Z.pos pa) s
             | Z.neg _ => 0
             end).
  assert (Hm' : m' = Z.pos pa * 2 ^ s).
  { unfold m'. destruct s as [| ps | ps]; try lia.
    apply Z.shiftl_mul_pow2. lia. }
  assert (Hps : 0 < 2 ^ s) by (apply Z.pow_pos_nonneg; lia).
  destruct (Z.div_eucl m' 2) as [q r] eqn:Ediv.
  assert (Hq : q = m' / 2) by (unfold Z.div; now rewrite Ediv).
  (* the size of the quotient *)
  assert (Hlow : 2 ^ 52 * 2 <= m').
  { rewrite Hm'.
    assert (2 ^ 52 * 2 ^ 1 <= 2 ^ (d1 - 1) * 2 ^ s).
    { rewrite <- !Z.pow_add_r by lia.
      apply Z.pow_le_mono_r; [lia | unfold s, e'; lia]. }
    change (2 ^ 1) with 2 in H. nia. }
  assert (Hq52 : 2 ^ 52 <= q).
  { rewrite Hq. apply Z.div_le_lower_bound; lia. }
  assert (Hqm : q <= m') by (rewrite Hq; apply Z.div_le_upper_bound; lia).
  pose proof (Zdigits2_bounds q ltac:(lia)) as Bq.
  set (dq := Zdigits2 q) in *.
  assert (Hdq0 : 0 < dq) by (unfold dq; destruct q; simpl; lia).
  assert (Hdq53 : 53 <= dq).
  { assert (H : 2 ^ 52 < 2 ^ dq) by lia.
    apply Z.pow_lt_mono_r_iff in H; lia. }
  assert (Hdq : dq <= d1 + s).
  { assert (m' < 2 ^ (d1 + s)) by (rewrite Hm', Z.pow_add_r by lia; nia).
    assert (H1 : 2 ^ (dq - 1) < 2 ^ (d1 + s)) by lia.
    apply Z.pow_lt_mono_r_iff in H1; lia. }
  destruct (binary_round_aux_normal false q e' (new_location 2 r))
    as [m [e [Eround [Hvalid [Hee' Hbound]]]]];
    [lia | exact Hdq53 | fold dq; unfold s, e' in *; lia |].
  rewrite Eround, (Prim2SF_SF2Prim _ Hvalid).
  exists m, e. split; [reflexivity |]. fold dq in Hbound.
  (* the mantissa has 53 digits *)
  assert (Hdm : Z.pos (digits2_pos m) = 53).
  { unfold valid_binary, SpecFloat.valid_binary, bounded, canonical_mantissa
      in Hvalid.
    apply andb_true_iff in Hvalid. destruct Hvalid as [Hc _].
    apply Z.eqb_eq in Hc. unfold fexp, SpecFloat.emin, prec, emax in Hc.
    unfold e' in Hee'. lia. }
  pose proof (Zdigits2_bounds (Z.pos m) ltac:(lia)) as Bm.
  change (Zdigits2 (Z.pos m)) with (Z.pos (digits2_pos m)) in Bm.
  rewrite Hdm in Bm. change (53 - 1) with 52 in Bm.
  split; [exact Bm |]. split; [unfold e' in Hee'; lia |].
  (* 2^52 * 2^(e - e') <= q + 2^(dq - 53) < 2^(dq + 1) *)
  assert (Hpe : 0 < 2 ^ (e - e')) by (apply Z.pow_pos_nonneg; lia).
  assert (Hu : 2 ^ (dq - 53) <= 2 ^ dq) by (apply Z.pow_le_mono_r; lia).
  assert (H1 : 2 ^ 52 * 2 ^ (e - e') < 2 ^ (dq + 1)).
  { rewrite (Z.pow_add_r 2 dq 1) by lia. change (2 ^ 1) with 2. nia. }
  rewrite <- Z.pow_add_r in H1 by lia.
  unfold s in Hdq. apply Z.pow_lt_mono_r_iff in H1; lia.
Qed.

(** The first term of the regression denominator is above zero. *)
Lemma first_term_above (n : Z) :
  2 <= n <= PY_SSIZE_T_MAX ->
  above_zero (Prim2SF (square (float_of_Z 0 - Spec.mean_index n))) = true.
Proof.
  intros Hn.
  destruct (mean_index_normal n Hn) as [m [e [Em [Hm He]]]].
  unfold square. rewrite mul_spec, sub_spec, Em.
  change (Prim2SF (float_of_Z 0)) with (S754_zero false).
  unfold SF64sub, SFsub, SF64mul, SFmul. cbn [negb xorb].
  assert (Hmm : 2 ^ 104 <= Z.pos (m * m) < 2 ^ 106).
  { rewrite Pos2Z.inj_mul.
    change (2 ^ 104) with (2 ^ 52 * 2 ^ 52).
    change (2 ^ 106) with (2 ^ 53 * 2 ^ 53). nia. }
  pose proof (Zdigits2_bounds (Z.pos (m * m)) ltac:(lia)) as Bd.
  set (d := Zdigits2 (Z.pos (m * m))) in *.
  assert (Hd : 105 <= d <= 106).
  { assert (Hd0 : 0 < d) by (unfold d; simpl; lia).
    split.
    - assert (H : 2 ^ 104 < 2 ^ d) by lia.
      apply Z.pow_lt_mono_r_iff in H; lia.
    - assert (H : 2 ^ (d - 1) < 2 ^ 106) by lia.
      apply Z.pow_lt_mono_r_iff in H; lia. }
  destruct (binary_round_aux_normal false (Z.pos (m * m)) (e + e) loc_Exact)
    as [m2 [e2 [E2 _]]]; [lia | fold d; lia | fold d; lia |].
  now rewrite E2.
Qed.

(** The regression denominator of two or more values is not zero. *)
Lemma index_variation_above (n : Z) :
  2 <= n <= PY_SSIZE_T_MAX ->
  (Spec.index_variation n =? 0)%float = false.
Proof.
  intros Hn. apply above_zero_not_zero. unfold Spec.index_variation, sum.
  assert (E : range n = 0 :: map (fun i => i + 1) (range (n - 1))).
  { rewrite <- range_succ by lia. f_equal. lia. }
  rewrite E. cbn [map fold_left].
  apply sum_above.
  - apply Forall_forall. intros t Ht. apply in_map_iff in Ht.
    destruct Ht as [i [<- _]]. apply square_sign_clear.
  - rewrite add_spec. change (Prim2SF 0) with (S754_zero false).
    pose proof (first_term_above n Hn) as H.
    destruct (Prim2SF (square (float_of_Z 0 - Spec.mean_index n)))
      as [s | s | | s m e]; try destruct s; try discriminate; reflexivity.
Qed.

End AboveZero.

Section TrendDenominator.

Import Analyzer.

(** X24: for every list of two or more values (of at most
    [sys.maxsize], as every list is) the regression denominator of
    [detect_trend] is not zero, so its branch for a zero denominator is
    never taken: the trend is "stable" exactly when the change rate is
    below the threshold, and else "increasing" for a slope above zero
    and "decreasing" otherwise. *)
Theorem trend_denominator_never_zero (values : list float)
  (threshold : float) :
  2 <= len values <= PY_SSIZE_T_MAX ->
  (Spec.index_variation (len values) =? 0)%float = false
  /\ detect_trend values threshold
     = Ok (if (Spec.change_rate values <? threshold)%float then "stable"
           else if (0 <? Spec.slope values)%float then "increasing"
           else "decreasing")%string.
Proof.
  intros Hn. pose proof (index_variation_above _ Hn) as Hden.
  split; [exact Hden |].
  rewrite detect_trend_refines. unfold Spec.trend. rewrite Hden.
  assert (E : (len values <? 2) = false) by lia. now rewrite E.
Qed.

Lemma trend_denominator_never_zero_witness :
  2 <= len [4; 4]%float <= PY_SSIZE_T_MAX
  /\ (Spec.index_variation (len [4; 4]%float) =? 0)%float = false.
Proof.
  assert (H : 2 <= len [4; 4]%float <= PY_SSIZE_T_MAX)
    by (split; vm_compute; discriminate).
  split; [exact H |].
  exact (proj1 (trend_denominator_never_zero [4; 4]%float default_threshold H)).
Defined.

Lemma ltb_nan_l (x : float) : (nan <? x)%float = false.
Proof. rewrite ltb_spec. reflexivity. Qed.

Lemma spec_trend_nan (values : list float) (threshold : float) :
  2 <= len values <= PY_SSIZE_T_MAX -> In nan values ->
  Spec.trend values threshold = "decreasing"%string.
Proof.
  intros Hn Hnan. unfold Spec.trend.
  rewrite (index_variation_above _ Hn).
  assert (E : (len values <? 2) = false) by lia. rewrite E. cbn [orb].
  unfold Spec.change_rate, Spec.slope.
  rewrite (mean_value_nan _ Hnan), (covariation_nan _ Hnan), !div_nan_l.
  change (nan =? 0)%float with false. change (abs nan) with nan.
  now rewrite ltb_nan_l.
Qed.

(** X25: a list of two or more values that holds a NaN is classified
    "decreasing" by [detect_trend], at every threshold. *)
Theorem trend_nan (values : list float) (threshold : float) :
  2 <= len values <= PY_SSIZE_T_MAX -> In nan values ->
  detect_trend values threshold = Ok "decreasing"%string.
Proof.
  intros Hn Hnan. rewrite detect_trend_refines.
  now rewrite spec_trend_nan.
Qed.

Lemma trend_nan_witness :
  2 <= len [1; nan; 3]%float <= PY_SSIZE_T_MAX
  /\ In nan [1; nan; 3]%float
  /\ detect_trend [1; nan; 3]%float default_threshold
     = Ok "decreasing"%string.
Proof.
  assert (H1 : 2 <= len [1; nan; 3]%float <= PY_SSIZE_T_MAX)
    by (split; vm_compute; discriminate).
  assert (H2 : In nan [1; nan; 3]%float) by (right; left; reflexivity).
  split; [exact H1 |]. split; [exact H2 |].
  exact (trend_nan [1; nan; 3]%float default_threshold H1 H2).
Defined.


Lemma spec_anomalies_nonfinite (values : list float) (z : float) :
  existsb Statistics.nonfinite values = true -> Spec.anomalies values z = [].
Proof.
  intros H. unfold Spec.anomalies.
  destruct (len values <? 3); [reflexivity |].
  destruct (Statistics.mean values) as [mean | e msg]; [| reflexivity].
  unfold Statistics.stdev, Statistics._ss. rewrite H.
  now destruct (len values <? 2).
Qed.

Lemma nan_nonfinite (values : list float) :
  In nan values -> existsb Statistics.nonfinite values = true.
Proof.
  intros H. apply existsb_exists. exists nan. split; [exact H | reflexivity].
Qed.

(** X26: when the numbers found under the key are two or more, all
    fit a float and one of them is a NaN, [analyze_metric_history]
    returns an analysis with the trend "decreasing" and no anomaly. *)
Theorem analysis_with_nan (records : list dict) (key : string) :
  len records <= PY_SSIZE_T_MAX ->
  let numbers := Spec.numbers records key in
  forallb Spec.fits_float numbers = true ->
  2 <= len numbers ->
  In (PyFloat nan) numbers ->
  exists statistics averages,
    analyze_metric_history records key
    = Analysis (len numbers) statistics "decreasing" 0 averages.
Proof.
  intros Hn numbers Hfits Hlen Hnan.
  rewrite analyze_metric_history_refines.
  rewrite convert_numbers by apply numbers_numeric.
  fold numbers. rewrite Hfits.
  set (values := map Spec.to_float numbers).
  assert (Hvn : In nan values).
  { unfold values. apply in_map_iff. exists (PyFloat nan). now split. }
  assert (Hvl : len values = len numbers) by (unfold values; apply len_map).
  pose proof (numbers_length records key) as Hle. fold numbers in Hle.
  destruct (calculate_percentiles_block values ltac:(lia))
    as [v_min [v_max [v_mean [_ [_ [_ [_ [_ [_ Hblock]]]]]]]]].
  rewrite Hblock.
  destruct values as [| v rest] eqn:Ev; [destruct Hvn |]. rewrite <- Ev in *.
  eexists _, _. unfold Spec.analysis_of.
  rewrite spec_trend_nan, spec_anomalies_nonfinite, Hvl;
    [reflexivity | now apply nan_nonfinite | lia | exact Hvn].
Qed.

Lemma analysis_with_nan_witness :
  exists statistics averages,
    analyze_metric_history
      [Samples.load (PyFloat 1); Samples.load (PyFloat nan);
       Samples.load (PyFloat 3)] "usage_percent"
    = Analysis 3 statistics "decreasing" 0 averages.
Proof.
  apply (analysis_with_nan
           [Samples.load (PyFloat 1); Samples.load (PyFloat nan);
            Samples.load (PyFloat 3)] "usage_percent").
  - vm_compute. discriminate.
  - reflexivity.
  - vm_compute. discriminate.
  - right. left. reflexivity.
Defined.

End TrendDenominator.

Section StatsAfterWrites.

Lemma count_by_type_In (rs : list row) (t : string) (n : Z) :
  In (t, n) (count_by_type rs)
  <-> (exists r, In r rs /\ metric_type r = t)
      /\ n = len (filter (fun r => String.eqb (metric_type r) t) rs).
Proof.
  unfold count_by_type. rewrite in_map_iff. split.
  - intros [t' [E Hin]]. injection E as -> <-.
    apply nodup_In, in_map_iff in Hin. destruct Hin as [r [Hr Hin]].
    split; [exists r; auto | reflexivity].
  - intros [[r [Hin Hr]] ->]. exists t. split; [reflexivity |].
    apply nodup_In, in_map_iff. exists r. auto.
Qed.

Lemma newest_is_greatest (rs : list row) (hi : string) :
  max_timestamp rs = Some hi
  <-> (exists r, In r rs /\ timestamp r = hi)
      /\ forall r, In r rs -> String.leb (timestamp r) hi = true.
Proof.
  destruct rs as [| r rest]; cbn [max_timestamp].
  - split; [discriminate | intros [[r [[] _]] _]].
  - destruct (max_timestamp_from rest (timestamp r)) as [U1 [U2 U3]].
    set (top := fold_left _ rest (timestamp r)) in *.
    assert (Hin : exists r', In r' (r :: rest) /\ timestamp r' = top).
    { destruct U2 as [-> | [r' [Hr' E]]];
        [exists r; split; [now left | reflexivity]
        | exists r'; split; [now right | exact E]]. }
    assert (Hall : forall r', In r' (r :: rest) ->
                              String.leb (timestamp r') top = true).
    { intros r' [<- | Hr']; [exact U1 | now apply U3]. }
    split.
    + intros H. injection H as <-. now split.
    + intros [[r' [Hr' E]] Hle]. f_equal. apply String.leb_antisym.
      * destruct Hin as [r'' [Hr'' <-]]. now apply Hle.
      * rewrite <- E. now apply Hall.
Qed.

Lemma oldest_is_least (rs : list row) (lo : string) :
  min_timestamp rs = Some lo
  <-> (exists r, In r rs /\ timestamp r = lo)
      /\ forall r, In r rs -> String.leb lo (timestamp r) = true.
Proof.
  destruct rs as [| r rest]; cbn [min_timestamp].
  - split; [discriminate | intros [[r [[] _]] _]].
  - destruct (min_timestamp_from rest (timestamp r)) as [L1 [L2 L3]].
    set (bottom := fold_left _ rest (timestamp r)) in *.
    assert (Hin : exists r', In r' (r :: rest) /\ timestamp r' = bottom).
    { destruct L2 as [-> | [r' [Hr' E]]];
        [exists r; split; [now left | reflexivity]
        | exists r'; split; [now right | exact E]]. }
    assert (Hall : forall r', In r' (r :: rest) ->
                              String.leb bottom (timestamp r') = true).
    { intros r' [<- | Hr']; [exact L1 | now apply L3]. }
    split.
    + intros H. injection H as <-. now split.
    + intros [[r' [Hr' E]] Hle]. f_equal. apply String.leb_antisym.
      * rewrite <- E. now apply Hall.
      * destruct Hin as [r'' [Hr'' <-]]. now apply Hle.
Qed.

(** X27: after an insert, in the result of [get_database_stats],
    [total_records] is one more, [by_type] holds for the type of the new
    row the number of rows of that type before plus one, the entries of
    the other types are the same, and, when no row of the table is
    later than the new one, [newest_record] is the timestamp of the new
    row. *)
Theorem insert_updates_stats (utcnow : datetime) (hostname type : string)
  (data : dict) (status source : string) (db db' : database) (row_id : Z) :
  insert_metrics utcnow hostname type data status source db
  = Ok (row_id, db') ->
  let before := get_database_stats db in
  let after := get_database_stats db' in
  let rows_of t rs := filter (fun r => String.eqb (metric_type r) t) rs in
  total_records after = total_records before + 1
  /\ In (type, len (rows_of type (rows db)) + 1) (by_type after)
  /\ (forall t n, t <> type ->
                  (In (t, n) (by_type after) <-> In (t, n) (by_type before)))
  /\ ((forall r, In r (rows db) ->
                 String.leb (timestamp r) (isoformat utcnow) = true) ->
      newest_record after = Some (isoformat utcnow)).
Proof.
  intros Hins before after rows_of.
  destruct (insert_metrics_row _ _ _ _ _ _ _ _ _ Hins) as (Hrows & _).
  set (new := mk_row row_id (isoformat utcnow) hostname type data status
                     source) in *.
  unfold before, after, get_database_stats.
  cbn [total_records by_type newest_record]. rewrite Hrows.
  split; [rewrite len_app; reflexivity |]. split; [| split].
  - apply count_by_type_In. split.
    + exists new. split; [apply in_or_app; right; now left | reflexivity].
    + unfold rows_of. rewrite filter_snoc. cbn [metric_type new].
      rewrite String.eqb_refl, len_app. reflexivity.
  - intros t n Ht. rewrite !count_by_type_In, filter_snoc.
    cbn [metric_type new].
    assert (E : String.eqb type t = false) by (apply String.eqb_neq; congruence).
    rewrite E, app_nil_r.
    split; intros [[r [Hin Hr]] Hn]; (split; [| exact Hn]); exists r.
    + apply in_app_or in Hin. destruct Hin as [Hin | [<- | []]]; [auto |].
      cbn [metric_type new] in Hr. congruence.
    + split; [apply in_or_app; now left | exact Hr].
  - intros Hlatest. apply newest_is_greatest. split.
    + exists new. split; [apply in_or_app; right; now left | reflexivity].
    + intros r Hin. apply in_app_or in Hin.
      destruct Hin as [Hin | [<- | []]]; [now apply Hlatest |].
      cbn [timestamp new]. unfold String.leb.
      now rewrite string_compare_refl.
Qed.

Lemma insert_updates_stats_witness :
  insert_metrics Samples.one_o_clock "host" "memory" [] "OK" "python"
                 Samples.one_row
  = Ok (2, Samples.two_rows)
  /\ total_records (get_database_stats Samples.two_rows)
     = total_records (get_database_stats Samples.one_row) + 1.
Proof.
  assert (H : insert_metrics Samples.one_o_clock "host" "memory" [] "OK"
                             "python" Samples.one_row
              = Ok (2, Samples.two_rows)) by (vm_compute; reflexivity).
  split; [exact H |].
  exact (proj1 (insert_updates_stats _ _ _ _ _ _ _ _ _ H)).
Defined.

(** X28: after a cleanup, in the result of [get_database_stats],
    [oldest_record], if there is one, is not older than the cutoff,
    [newest_record] is the same as before when a row is left, and each
    entry of [by_type] is an entry of before with a count that is not
    larger. *)
Theorem cleanup_updates_stats (utcnow : datetime) (days : Z)
  (db db' : database) (n : Z) :
  cleanup_old_records utcnow days db = Ok (n, db') ->
  exists cutoff,
    sub_days utcnow days = Ok cutoff
    /\ (forall lo, oldest_record (get_database_stats db') = Some lo ->
                   String.leb (isoformat cutoff) lo = true)
    /\ (rows db' <> [] ->
        newest_record (get_database_stats db')
        = newest_record (get_database_stats db))
    /\ (forall t k', In (t, k') (by_type (get_database_stats db')) ->
                     exists k, In (t, k) (by_type (get_database_stats db))
                               /\ k' <= k).
Proof.
  unfold cleanup_old_records.
  destruct (sub_days utcnow days) as [cutoff | e msg]; [| discriminate].
  cbn [bind]. intros H. injection H as _ <-.
  exists cutoff. split; [reflexivity |].
  unfold get_database_stats. cbn [oldest_record newest_record by_type rows].
  remember (filter (fun r => negb (String.ltb (timestamp r)
                                              (isoformat cutoff)))
                   (rows db)) as kept eqn:Ek.
  assert (Hkept : forall r, In r kept ->
                            In r (rows db)
                            /\ String.leb (isoformat cutoff) (timestamp r) = true).
  { intros r Hr. rewrite Ek in Hr. apply filter_In in Hr.
    destruct Hr as [Hin Hr].
    split; [exact Hin |]. apply negb_true_iff in Hr.
    now apply string_not_ltb_leb. }
  split; [| split].
  - intros lo Hlo. apply oldest_is_least in Hlo.
    destruct Hlo as [[r [Hr <-]] _]. exact (proj2 (Hkept r Hr)).
  - intros Hne.
    destruct (max_timestamp kept) as [hi' |] eqn:E';
      [| destruct kept; [congruence | discriminate]].
    apply newest_is_greatest in E'. destruct E' as [[r' [Hr' Er']] Hall'].
    symmetry. apply newest_is_greatest. split.
    + exists r'. split; [exact (proj1 (Hkept r' Hr')) | exact Er'].
    + intros r Hr.
      destruct (String.ltb (timestamp r) (isoformat cutoff)) eqn:Eold.
      * apply string_ltb_leb.
        apply (string_ltb_leb_trans _ (isoformat cutoff)); [exact Eold |].
        rewrite <- Er'. exact (proj2 (Hkept r' Hr')).
      * apply Hall'. rewrite Ek. apply filter_In.
        split; [exact Hr |]. now rewrite Eold.
  - intros t k' Hin. apply count_by_type_In in Hin.
    destruct Hin as [[r [Hr Ht]] ->].
    eexists. split.
    + apply count_by_type_In. split; [| reflexivity].
      exists r. split; [exact (proj1 (Hkept r Hr)) | exact Ht].
    + rewrite Ek, filter_comm.
      unfold len. apply Nat2Z.inj_le, filter_length_le.
Qed.

Lemma cleanup_updates_stats_witness :
  cleanup_old_records (mk_datetime 2024 3 8 12 30 0 0) 7 Samples.two_rows
  = Ok (1, mk_database [Samples.memory_row] 2)
  /\ exists cutoff,
       sub_days (mk_datetime 2024 3 8 12 30 0 0) 7 = Ok cutoff
       /\ forall lo,
            oldest_record
              (get_database_stats (mk_database [Samples.memory_row] 2))
            = Some lo ->
            String.leb (isoformat cutoff) lo = true.
Proof.
  assert (H : cleanup_old_records (mk_datetime 2024 3 8 12 30 0 0) 7
                                  Samples.two_rows
              = Ok (1, mk_database [Samples.memory_row] 2))
    by (vm_compute; reflexivity).
  split; [exact H |].
  destruct (cleanup_updates_stats _ _ _ _ _ H) as [cutoff [H1 [H2 _]]].
  exists cutoff. split; [exact H1 | exact H2].
Defined.

End StatsAfterWrites.

Section CalendarOrder.

Lemma month_and_day_in_month (n : Z) (leapyear : bool) :
  0 <= n < 365 ->
  let '(m, d) := month_and_day n leapyear in
  d <= (if (m =? 2) && leapyear then 29
        else nth (Z.to_nat m) _DAYS_IN_MONTH 0).
Proof.
  intros Hn.
  assert (Hall : forallb month_and_day_within (range 365) = true)
    by (vm_compute; reflexivity).
  rewrite forallb_forall in Hall.
  specialize (Hall n ltac:(apply in_range; lia)).
  unfold month_and_day_within in Hall. cbn [forallb] in Hall.
  destruct leapyear.
  - destruct (month_and_day n true) as [m d]. lia.
  - destruct (month_and_day n false) as [m d]. lia.
Qed.

(** The date of an ordinal is a date of the calendar. *)
Lemma ord2ymd_valid (n : Z) :
  0 < n <= _MAXORDINAL -> date_valid (_ord2ymd n).
Proof.
  unfold _MAXORDINAL. intros Hn. unfold _ord2ymd.
  unfold _DI400Y, _DI100Y, _DI4Y. cbv zeta.
  set (n400 := (n - 1) / 146097).
  set (r400 := (n - 1) mod 146097).
  set (n100 := r400 / 36524).
  set (r100 := r400 mod 36524).
  set (n4 := r100 / 1461).
  set (r4 := r100 mod 1461).
  set (n1 := r4 / 365).
  set (r1 := r4 mod 365).
  pose proof (Z.div_mod (n - 1) 146097 ltac:(lia)) as E400.
  pose proof (Z.mod_pos_bound (n - 1) 146097 ltac:(lia)) as B400.
  pose proof (Z.div_mod r400 36524 ltac:(lia)) as E100.
  pose proof (Z.mod_pos_bound r400 36524 ltac:(lia)) as B100.
  pose proof (Z.div_mod r100 1461 ltac:(lia)) as E4.
  pose proof (Z.mod_pos_bound r100 1461 ltac:(lia)) as B4.
  pose proof (Z.div_mod r4 365 ltac:(lia)) as E1.
  pose proof (Z.mod_pos_bound r4 365 ltac:(lia)) as B1.
  fold n400 r400 in E400, B400. fold n100 r100 in E100, B100.
  fold n4 r4 in E4, B4. fold n1 r1 in E1, B1.
  assert (H400 : 0 <= n400 <= 24) by lia.
  assert (H100 : 0 <= n100 <= 4) by lia.
  assert (H4 : 0 <= n4 <= 24) by lia.
  assert (H1 : 0 <= n1 <= 4) by lia.
  set (y := n400 * 400 + 1 + n100 * 100 + n4 * 4 + n1).
  destruct ((n1 =? 4) || (n100 =? 4)) eqn:Elast.
  - unfold date_valid, _days_in_month.
    change (12 =? 2) with false. cbn [andb].
    change (nth (Z.to_nat 12) _DAYS_IN_MONTH 0) with 31.
    apply orb_true_iff in Elast.
    destruct Elast as [E | E]; apply Z.eqb_eq in E; unfold y in *; lia.
  - apply orb_false_iff in Elast. destruct Elast as [E1' E100'].
    apply Z.eqb_neq in E1', E100'.
    set (leapyear := (n1 =? 3) && (negb (n4 =? 24) || (n100 =? 3))).
    pose proof (month_and_day_range r1 leapyear B1) as Hrange.
    pose proof (month_and_day_in_month r1 leapyear B1) as Hin.
    unfold month_and_day in Hrange, Hin.
    assert (Hleap : _is_leap y = leapyear).
    { unfold _is_leap, leapyear.
      pose proof (Z.div_mod y 4 ltac:(lia)) as D4.
      pose proof (Z.mod_pos_bound y 4 ltac:(lia)) as M4.
      pose proof (Z.div_mod y 100 ltac:(lia)) as D100.
      pose proof (Z.mod_pos_bound y 100 ltac:(lia)) as M100.
      pose proof (Z.div_mod y 400 ltac:(lia)) as D400.
      pose proof (Z.mod_pos_bound y 400 ltac:(lia)) as M400.
      unfold y in *.
      destruct (Z.eqb_spec n1 3); destruct (Z.eqb_spec n4 24);
        destruct (Z.eqb_spec n100 3);
        destruct (Z.eqb_spec ((n400 * 400 + 1 + n100 * 100 + n4 * 4 + n1) mod 4) 0);
        destruct (Z.eqb_spec ((n400 * 400 + 1 + n100 * 100 + n4 * 4 + n1) mod 100) 0);
        destruct (Z.eqb_spec ((n400 * 400 + 1 + n100 * 100 + n4 * 4 + n1) mod 400) 0);
        simpl; try reflexivity; exfalso; lia. }
    fold leapyear.
    destruct (r1 <? _); unfold date_valid, _days_in_month; rewrite Hleap;
      (split; [unfold y; lia | split; [apply Hrange |]]);
      (split; [apply Hrange | exact Hin]).
Qed.


Lemma days_before_year_succ (y : Z) :
  1 <= y ->
  _days_before_year (y + 1)
  = _days_before_year y + 365 + (if _is_leap y then 1 else 0).
Proof.
  intros Hy. unfold _days_before_year, _is_leap.
  replace (y + 1 - 1) with y by lia.
  pose proof (Z.div_mod y 4 ltac:(lia)).
  pose proof (Z.mod_pos_bound y 4 ltac:(lia)).
  pose proof (Z.div_mod y 100 ltac:(lia)).
  pose proof (Z.mod_pos_bound y 100 ltac:(lia)).
  pose proof (Z.div_mod y 400 ltac:(lia)).
  pose proof (Z.mod_pos_bound y 400 ltac:(lia)).
  pose proof (Z.div_mod (y - 1) 4 ltac:(lia)).
  pose proof (Z.mod_pos_bound (y - 1) 4 ltac:(lia)).
  pose proof (Z.div_mod (y - 1) 100 ltac:(lia)).
  pose proof (Z.mod_pos_bound (y - 1) 100 ltac:(lia)).
  pose proof (Z.div_mod (y - 1) 400 ltac:(lia)).
  pose proof (Z.mod_pos_bound (y - 1) 400 ltac:(lia)).
  destruct (Z.eqb_spec (y mod 4) 0); destruct (Z.eqb_spec (y mod 100) 0);
    destruct (Z.eqb_spec (y mod 400) 0); cbn [andb orb negb]; lia.
Qed.

Lemma days_before_year_mono (y1 y2 : Z) :
  1 <= y1 <= y2 -> _days_before_year y1 <= _days_before_year y2.
Proof.
  intros H. unfold _days_before_year.
  pose proof (Z.div_mod (y1 - 1) 4 ltac:(lia)).
  pose proof (Z.mod_pos_bound (y1 - 1) 4 ltac:(lia)).
  pose proof (Z.div_mod (y1 - 1) 100 ltac:(lia)).
  pose proof (Z.mod_pos_bound (y1 - 1) 100 ltac:(lia)).
  pose proof (Z.div_mod (y1 - 1) 400 ltac:(lia)).
  pose proof (Z.mod_pos_bound (y1 - 1) 400 ltac:(lia)).
  pose proof (Z.div_mod (y2 - 1) 4 ltac:(lia)).
  pose proof (Z.mod_pos_bound (y2 - 1) 4 ltac:(lia)).
  pose proof (Z.div_mod (y2 - 1) 100 ltac:(lia)).
  pose proof (Z.mod_pos_bound (y2 - 1) 100 ltac:(lia)).
  pose proof (Z.div_mod (y2 - 1) 400 ltac:(lia)).
  pose proof (Z.mod_pos_bound (y2 - 1) 400 ltac:(lia)).
  lia.
Qed.

Lemma month_cases (m : Z) :
  1 <= m <= 12 ->
  m = 1 \/ m = 2 \/ m = 3 \/ m = 4 \/ m = 5 \/ m = 6 \/ m = 7 \/ m = 8
  \/ m = 9 \/ m = 10 \/ m = 11 \/ m = 12.
Proof. lia. Qed.

(** The days of a month come before the days of every later month. *)
Lemma days_before_month_step (y m1 m2 d1 : Z) :
  1 <= m1 -> m1 < m2 -> m2 <= 12 -> d1 <= _days_in_month y m1 ->
  _days_before_month y m1 + d1 <= _days_before_month y m2.
Proof.
  intros H1 H12 H2.
  pose proof (month_cases m1 ltac:(lia)) as E1.
  pose proof (month_cases m2 ltac:(lia)) as E2.
  unfold _days_in_month, _days_before_month.
  repeat (destruct E1 as [E1 | E1]); subst m1;
    repeat (destruct E2 as [E2 | E2]); subst m2; try lia;
    destruct (_is_leap y); cbv -[Z.add Z.le Z.lt]; lia.
Qed.

(** The ordinals of the dates of the calendar are in the order of the
    dates. *)
Lemma ymd2ord_compare (y1 m1 d1 y2 m2 d2 : Z) :
  date_valid (y1, m1, d1) -> date_valid (y2, m2, d2) ->
  date_compare (y1, m1, d1) (y2, m2, d2)
  = (_ymd2ord y1 m1 d1 ?= _ymd2ord y2 m2 d2).
Proof.
  unfold date_valid, date_compare. intros (Hy1 & Hm1 & Hd1) (Hy2 & Hm2 & Hd2).
  pose proof (days_before_month_bound y1 m1 d1 Hm1 Hd1) as B1.
  pose proof (days_before_month_bound y2 m2 d2 Hm2 Hd2) as B2.
  symmetry. unfold _ymd2ord.
  destruct (Z.compare_spec y1 y2) as [Ey | Ey | Ey]; cbn [lexicographic].
  - subst y2.
    destruct (Z.compare_spec m1 m2) as [Em | Em | Em]; cbn [lexicographic].
    + subst m2. destruct (Z.compare_spec d1 d2);
        [apply Z.compare_eq_iff | apply Z.compare_lt_iff
        | apply Z.compare_gt_iff]; lia.
    + apply Z.compare_lt_iff.
      pose proof (days_before_month_step y1 m1 m2 d1
                    ltac:(lia) Em ltac:(lia) ltac:(lia)). lia.
    + apply Z.compare_gt_iff.
      pose proof (days_before_month_step y1 m2 m1 d2
                    ltac:(lia) Em ltac:(lia) ltac:(lia)). lia.
  - apply Z.compare_lt_iff.
    pose proof (days_before_year_succ y1 ltac:(lia)).
    pose proof (days_before_year_mono (y1 + 1) y2 ltac:(lia)).
    destruct (_is_leap y1); lia.
  - apply Z.compare_gt_iff.
    pose proof (days_before_year_succ y2 ltac:(lia)).
    pose proof (days_before_year_mono (y2 + 1) y1 ltac:(lia)).
    destruct (_is_leap y2); lia.
Qed.

End CalendarOrder.

Section RetentionOrder.

Lemma valid_date (t : datetime) :
  valid t = true -> date_valid (year t, month t, day t).
Proof.
  unfold valid. intros H.
  repeat (apply andb_true_iff in H; destruct H as [H ?]).
  unfold date_valid. lia.
Qed.

Lemma lexicographic_eq (c : comparison) : lexicographic c Eq = c.
Proof. now destruct c. Qed.

(** Two datetimes at the same time of day are in the order of their
    dates. *)
Lemma compare_same_time (a b : datetime) :
  hour a = hour b -> minute a = minute b -> second a = second b ->
  microsecond a = microsecond b ->
  Datetime.compare a b
  = date_compare (year a, month a, day a) (year b, month b, day b).
Proof.
  intros Hh Hm Hs Hu. unfold Datetime.compare, date_compare.
  rewrite Hh, Hm, Hs, Hu, !Z.compare_refl. cbn [lexicographic].
  now rewrite lexicographic_eq.
Qed.

(** The cutoff of a cleanup, as a date of the calendar. *)
Lemma sub_days_date (utcnow cutoff : datetime) (days : Z) :
  sub_days utcnow days = Ok cutoff ->
  date_valid (year cutoff, month cutoff, day cutoff).
Proof.
  unfold sub_days.
  destruct ((days <? - 2 ^ 31) || (2 ^ 31 <=? days)); [discriminate |].
  destruct (999999999 <? Z.abs days); [discriminate |].
  set (ordinal := _ymd2ord (year utcnow) (month utcnow) (day utcnow) - days).
  destruct ((0 <? ordinal) && (ordinal <=? _MAXORDINAL)) eqn:E;
    [| discriminate].
  apply andb_true_iff in E. destruct E as [E1 E2].
  pose proof (ord2ymd_valid ordinal ltac:(lia)) as Hvalid.
  destruct (_ord2ymd ordinal) as [[y m] d].
  intros H. injection H as <-. exact Hvalid.
Qed.

(** Of two cutoffs from the same reading of the clock, the one further
    back is not the later one. *)
Lemma cutoff_order (utcnow c1 c2 : datetime) (days1 days2 : Z) :
  Spec.printable utcnow ->
  days1 <= days2 ->
  sub_days utcnow days1 = Ok c1 -> sub_days utcnow days2 = Ok c2 ->
  String.leb (isoformat c2) (isoformat c1) = true.
Proof.
  intros Hnow Hdays H1 H2.
  pose proof (sub_days_printable _ _ _ Hnow H1) as P1.
  pose proof (sub_days_printable _ _ _ Hnow H2) as P2.
  apply (timestamp_order c2 c1 P2 P1).
  destruct (sub_days_ordinal _ _ _ H1) as (O1 & Hh1 & Hm1 & Hs1 & Hu1).
  destruct (sub_days_ordinal _ _ _ H2) as (O2 & Hh2 & Hm2 & Hs2 & Hu2).
  rewrite compare_same_time by congruence.
  rewrite ymd2ord_compare by (eapply sub_days_date; eassumption).
  rewrite O1, O2. intros Hgt. apply Z.compare_gt_iff in Hgt. lia.
Qed.

Lemma days_before_year_nonneg (y : Z) : 1 <= y -> 0 <= _days_before_year y.
Proof.
  intros H. unfold _days_before_year.
  pose proof (Z.div_mod (y - 1) 4 ltac:(lia)).
  pose proof (Z.mod_pos_bound (y - 1) 4 ltac:(lia)).
  pose proof (Z.div_mod (y - 1) 100 ltac:(lia)).
  pose proof (Z.mod_pos_bound (y - 1) 100 ltac:(lia)).
  pose proof (Z.div_mod (y - 1) 400 ltac:(lia)).
  pose proof (Z.mod_pos_bound (y - 1) 400 ltac:(lia)).
  lia.
Qed.

(** Going back by no day gives the same datetime. *)
Lemma sub_days_zero (utcnow : datetime) :
  valid utcnow = true -> sub_days utcnow 0 = Ok utcnow.
Proof.
  intros Hvalid. pose proof (valid_date _ Hvalid) as Hdate.
  destruct (ymd2ord_bounds utcnow Hvalid) as [Hlo Hhi].
  assert (Hy : 1 <= year utcnow) by (unfold date_valid in Hdate; lia).
  pose proof (days_before_year_nonneg _ Hy) as Hdby.
  unfold sub_days.
  change ((0 <? - 2 ^ 31) || (2 ^ 31 <=? 0)) with false.
  change (999999999 <? Z.abs 0) with false. cbv iota.
  rewrite Z.sub_0_r.
  set (ordinal := _ymd2ord (year utcnow) (month utcnow) (day utcnow)) in *.
  assert (E : ((0 <? ordinal) && (ordinal <=? _MAXORDINAL)) = true).
  { apply andb_true_iff. split; [apply Z.ltb_lt | apply Z.leb_le]; lia. }
  rewrite E.
  pose proof (ord2ymd_valid ordinal ltac:(lia)) as Hv.
  pose proof (ymd2ord_ord2ymd ordinal ltac:(lia)) as Ho.
  destruct (_ord2ymd ordinal) as [[y m] d].
  pose proof (ymd2ord_compare y m d _ _ _ Hv Hdate) as Hc.
  fold ordinal in Hc. rewrite Ho, Z.compare_refl in Hc.
  unfold date_compare in Hc.
  destruct (Z.compare_spec y (year utcnow)); try discriminate.
  destruct (Z.compare_spec m (month utcnow)); try discriminate.
  cbn [lexicographic] in Hc. apply Z.compare_eq in Hc.
  subst. now destruct utcnow.
Qed.

(** X29: of two cleanups of the same database at the same valid
    reading of the clock, the one with the longer retention deletes no
    more rows than the other, and keeps every row that the other
    keeps. *)
Theorem cleanup_retention_monotone (utcnow : datetime) (days1 days2 : Z)
  (db db1 db2 : database) (n1 n2 : Z) :
  valid utcnow = true ->
  days1 <= days2 ->
  cleanup_old_records utcnow days1 db = Ok (n1, db1) ->
  cleanup_old_records utcnow days2 db = Ok (n2, db2) ->
  n2 <= n1 /\ incl (rows db1) (rows db2).
Proof.
  intros Hvalid Hdays. unfold cleanup_old_records.
  destruct (sub_days utcnow days1) as [c1 | e msg] eqn:E1; [| discriminate].
  destruct (sub_days utcnow days2) as [c2 | e msg] eqn:E2; [| discriminate].
  cbn [bind]. intros H1 H2. injection H1 as <- <-. injection H2 as <- <-.
  cbn [rows].
  pose proof (cutoff_order utcnow c1 c2 days1 days2
                (valid_printable _ Hvalid) Hdays E1 E2) as Hle.
  assert (Hold : forall r,
             String.ltb (timestamp r) (isoformat c2) = true ->
             String.ltb (timestamp r) (isoformat c1) = true).
  { intros r Hr. eapply string_ltb_leb_trans; eassumption. }
  split.
  - unfold len. apply Nat2Z.inj_le.
    apply (filter_weaker (fun r => String.ltb (timestamp r) (isoformat c2))
                         (fun r => String.ltb (timestamp r) (isoformat c1))).
    exact Hold.
  - intros r Hr. apply filter_In in Hr. apply filter_In.
    split; [apply Hr |]. destruct Hr as [_ Hr].
    apply negb_true_iff in Hr. apply negb_true_iff.
    destruct (String.ltb (timestamp r) (isoformat c2)) eqn:E; [| reflexivity].
    rewrite (Hold r E) in Hr. discriminate.
Qed.

Lemma cleanup_retention_monotone_witness :
  valid (mk_datetime 2024 3 8 12 30 0 0) = true
  /\ 0 <= 7
  /\ cleanup_old_records (mk_datetime 2024 3 8 12 30 0 0) 0 Samples.two_rows
     = Ok (2, mk_database [] 2)
  /\ cleanup_old_records (mk_datetime 2024 3 8 12 30 0 0) 7 Samples.two_rows
     = Ok (1, mk_database [Samples.memory_row] 2)
  /\ 1 <= 2
  /\ incl (rows (mk_database [] 2)) (rows (mk_database [Samples.memory_row] 2)).
Proof.
  assert (H0 : valid (mk_datetime 2024 3 8 12 30 0 0) = true) by reflexivity.
  assert (H1 : cleanup_old_records (mk_datetime 2024 3 8 12 30 0 0) 0
                                   Samples.two_rows
               = Ok (2, mk_database [] 2)) by (vm_compute; reflexivity).
  assert (H2 : cleanup_old_records (mk_datetime 2024 3 8 12 30 0 0) 7
                                   Samples.two_rows
               = Ok (1, mk_database [Samples.memory_row] 2))
    by (vm_compute; reflexivity).
  split; [exact H0 |]. split; [lia |]. split; [exact H1 |].
  split; [exact H2 |].
  exact (cleanup_retention_monotone _ 0 7 _ _ _ _ _ H0 ltac:(lia) H1 H2).
Defined.

(** X30: at a valid reading of the clock and with a retention that is
    not negative, a cleanup deletes no row stamped at the clock's time
    or later, such as a row inserted at the same reading; going back by
    no day gives the clock's time itself, so a retention of zero keeps
    exactly the rows that are not older than the clock's time. *)
Theorem cleanup_spares_the_present (utcnow : datetime) (days : Z)
  (db db' : database) (n : Z) :
  valid utcnow = true ->
  0 <= days ->
  cleanup_old_records utcnow days db = Ok (n, db') ->
  (forall r, In r (rows db) ->
             String.leb (isoformat utcnow) (timestamp r) = true ->
             In r (rows db'))
  /\ sub_days utcnow 0 = Ok utcnow
  /\ (days = 0 ->
      forall r, In r (rows db') <->
                In r (rows db)
                /\ String.leb (isoformat utcnow) (timestamp r) = true).
Proof.
  intros Hvalid Hdays Hclean.
  pose proof (sub_days_zero utcnow Hvalid) as Hzero.
  unfold cleanup_old_records in Hclean.
  destruct (sub_days utcnow days) as [cutoff | e msg] eqn:E; [| discriminate].
  cbn [bind] in Hclean. injection Hclean as _ <-. cbn [rows].
  pose proof (cutoff_order utcnow utcnow cutoff 0 days
                (valid_printable _ Hvalid) Hdays Hzero E) as Hle.
  split; [| split; [exact Hzero |]].
  - intros r Hr Hnow. apply filter_In. split; [exact Hr |].
    apply negb_true_iff. rewrite string_ltb_not_leb. apply negb_false_iff.
    eapply string_leb_trans; eassumption.
  - intros -> r. rewrite Hzero in E. injection E as <-.
    rewrite filter_In, negb_true_iff, string_ltb_not_leb, negb_false_iff.
    reflexivity.
Qed.

Lemma cleanup_spares_the_present_witness :
  valid Samples.one_o_clock = true
  /\ cleanup_old_records Samples.one_o_clock 0 Samples.two_rows
     = Ok (1, mk_database [Samples.memory_row] 2)
  /\ sub_days Samples.one_o_clock 0 = Ok Samples.one_o_clock.
Proof.
  assert (H0 : valid Samples.one_o_clock = true) by reflexivity.
  assert (H1 : cleanup_old_records Samples.one_o_clock 0 Samples.two_rows
               = Ok (1, mk_database [Samples.memory_row] 2))
    by (vm_compute; reflexivity).
  split; [exact H0 |]. split; [exact H1 |].
  exact (proj1 (proj2 (cleanup_spares_the_present _ 0 _ _ _ H0 ltac:(lia) H1))).
Defined.

End RetentionOrder.
